(** * skimage.viewer.widgets.core: BaseWidget, Slider and ComboBox

    A shallow embedding of [skimage/viewer/widgets/core.py].  The widgets are
    thin adapters over PyQt4 controls, so the development has three layers:

    - [Float64]: Python floats, as IEEE-754 binary64 values of the
      standard library's [SpecFloat] (round to nearest, ties to even);
    - [Qt]: the part of the toolkit the widgets drive (slider, line edit,
      combo box), with signals as lists of connected slots;
    - [BaseWidget], [Slider], [ComboBox]: the classes of the source file,
      method by method, in a state-and-exception monad.

    The host's callback is observed through the trace of its invocations.
    The properties come after the definitions; those about the values of a
    slider rest on a small theory of rounding to nearest even, proved here
    from the definitions of [SpecFloat]. *)

From Stdlib Require Import ZArith List Ascii String DecimalString Bool Lia.
From Stdlib Require Import Floats.SpecFloat.
Import ListNotations.

Set Implicit Arguments.
Open Scope string_scope.
Open Scope list_scope.
Open Scope Z_scope.

(** ** Python floats *)

Module Float64.

Definition prec : Z := 53.
Definition emax : Z := 1024.

Definition float := spec_float.

Definition add : float -> float -> float := SFadd prec emax.
Definition sub : float -> float -> float := SFsub prec emax.
Definition mul : float -> float -> float := SFmul prec emax.
Definition div : float -> float -> float := SFdiv prec emax.
Definition leb : float -> float -> bool := SFleb.
Definition ltb : float -> float -> bool := SFltb.
Definition eqb : float -> float -> bool := SFeqb.
Definition valid : float -> bool := valid_binary prec emax.

(** [float(n)] for a Python integer [n]; exact below [2^53]. *)
Definition of_Z (z : Z) : float := binary_normalize prec emax z 0 false.

(** [n / d] correctly rounded, for integers [n] and [d > 0]: the double
    a decimal literal denotes ([of_ratio 3 10] is Python's [0.3]). *)
Definition of_ratio (n : Z) (d : positive) : float :=
  match n with
  | Z0 => S754_zero false
  | Zpos p => div (S754_finite false p 0) (S754_finite false d 0)
  | Zneg p => div (S754_finite true p 0) (S754_finite false d 0)
  end.

Definition is_zero (x : float) : bool :=
  match x with S754_zero _ => true | _ => false end.

Definition is_finite (x : float) : bool :=
  match x with S754_zero _ | S754_finite _ _ _ => true | _ => false end.

Definition is_nan (x : float) : bool :=
  match x with S754_nan => true | _ => false end.

(** [int(x)]: truncation toward zero; undefined on NaN and infinities. *)
Definition trunc (x : float) : option Z :=
  match x with
  | S754_zero _ => Some 0
  | S754_finite s m e =>
      let a := match e with
               | Zneg p => Z.shiftr (Zpos m) (Zpos p)
               | _ => Z.shiftl (Zpos m) e
               end in
      Some (if s then - a else a)
  | _ => None
  end.

Definition infinity : float := S754_infinity false.
Definition nan : float := S754_nan.

End Float64.

Definition float : Type := Float64.float.

Arguments Float64.add : simpl never.
Arguments Float64.sub : simpl never.
Arguments Float64.mul : simpl never.
Arguments Float64.div : simpl never.
Arguments Float64.leb : simpl never.
Arguments Float64.of_Z : simpl never.

(** ** Python values, exceptions, effects *)

Inductive pyval : Type :=
| PyInt (z : Z)
| PyFloat (f : float)
| PyStr (s : string).

Inductive exn : Type :=
| ValueError (msg : string)
| TypeError (msg : string)
| AttributeError (msg : string)
| ZeroDivisionError (msg : string)
| NotImplementedError (msg : string).

Inductive outcome (A : Type) : Type :=
| Return (a : A)
| Raise (e : exn).

Arguments Return {A} a.
Arguments Raise {A} e.

(** A Python callable of the host application, known by its identity. *)
Definition callable := string.

(** One invocation [fn(arg_name, arg_value)] of a host callable. *)
Record call : Type := Call {
  fn : callable;
  arg_name : string;
  arg_value : pyval
}.

(** What a method runs in: the widget it is bound to ([self]), the trace
    of callback invocations, and the exceptions the binding reported when a
    slot raised during a signal emission (PyQt4 prints them and goes on). *)
Record env (W : Type) : Type := Env {
  self : W;
  calls : list call;
  reported : list exn
}.

Arguments Env {W} self calls reported.

(** State and exceptions; the state survives a raise, as in Python. *)
Definition M (S A : Type) : Type := S -> outcome A * S.

Definition ret {S A} (a : A) : M S A := fun s => (Return a, s).

Definition raise {S A} (e : exn) : M S A := fun s => (Raise e, s).

Definition bind {S A B} (c : M S A) (k : A -> M S B) : M S B :=
  fun s => match c s with
           | (Return a, s') => k a s'
           | (Raise e, s') => (Raise e, s')
           end.

Definition get {S} : M S S := fun s => (Return s, s).

Definition modify {S} (f : S -> S) : M S unit := fun s => (Return tt, f s).

Notation "x <- c ;; k" := (bind c (fun x => k))
  (at level 61, c at next level, right associativity).
Notation "c ;;; k" := (bind c (fun _ => k))
  (at level 61, right associativity).

(** [try: c  except: pass-and-report], what the binding does around a slot
    that runs inside a signal emission. *)
Definition swallow {W} (c : M (env W) unit) : M (env W) unit :=
  fun s => match c s with
           | (Return _, s') => (Return tt, s')
           | (Raise e, s') =>
               (Return tt, Env (self s') (calls s') (reported s' ++ [e]))
           end.

Definition update_self {W} (f : W -> W) : M (env W) unit :=
  modify (fun s => Env (f (self s)) (calls s) (reported s)).

Definition record_call {W} (c : call) : M (env W) unit :=
  modify (fun s => Env (self s) (calls s ++ [c]) (reported s)).

(** ** The toolkit *)

Module Qt.

Inductive Orientation := Horizontal | Vertical.

Inductive Alignment := AlignLeft | AlignRight | AlignHCenter | AlignVCenter.

Record QLabel := { label_text : string; label_alignment : Alignment }.

Record QLineEdit := {
  text : string;
  styleSheet : string;
  maximumWidth : Z;
  alignment : Alignment
}.

Definition QLineEdit_new : QLineEdit :=
  {| text := ""; styleSheet := ""; maximumWidth := 16777215;
     alignment := AlignLeft |}.

Definition setText (t : string) (e : QLineEdit) : QLineEdit :=
  {| text := t; styleSheet := styleSheet e;
     maximumWidth := maximumWidth e; alignment := alignment e |}.

Definition setStyleSheet (s : string) (e : QLineEdit) : QLineEdit :=
  {| text := text e; styleSheet := s;
     maximumWidth := maximumWidth e; alignment := alignment e |}.

Definition setMaximumWidth (w : Z) (e : QLineEdit) : QLineEdit :=
  {| text := text e; styleSheet := styleSheet e;
     maximumWidth := w; alignment := alignment e |}.

Definition setAlignment (a : Alignment) (e : QLineEdit) : QLineEdit :=
  {| text := text e; styleSheet := styleSheet e;
     maximumWidth := maximumWidth e; alignment := a |}.

(** The position control.  [valueChanged] and [sliderReleased] hold the
    slots connected to the two signals, in connection order. *)
Record QSlider (slot : Type) := {
  orientation : Orientation;
  minimum : Z;
  maximum : Z;
  value : Z;
  valueChanged : list slot;
  sliderReleased : list slot
}.

Arguments orientation {slot} _.
Arguments minimum {slot} _.
Arguments maximum {slot} _.
Arguments value {slot} _.
Arguments valueChanged {slot} _.
Arguments sliderReleased {slot} _.

Definition QSlider_new {slot} (o : Orientation) : QSlider slot :=
  {| orientation := o; minimum := 0; maximum := 99; value := 0;
     valueChanged := []; sliderReleased := [] |}.

(** [qBound(lo, v, hi)] *)
Definition qBound (lo v hi : Z) : Z := Z.max lo (Z.min v hi).

Definition with_value {slot} (v : Z) (q : QSlider slot) : QSlider slot :=
  {| orientation := orientation q; minimum := minimum q;
     maximum := maximum q; value := v;
     valueChanged := valueChanged q; sliderReleased := sliderReleased q |}.

Definition connect_valueChanged {slot} (f : slot) (q : QSlider slot) :=
  {| orientation := orientation q; minimum := minimum q;
     maximum := maximum q; value := value q;
     valueChanged := valueChanged q ++ [f];
     sliderReleased := sliderReleased q |}.

Definition connect_sliderReleased {slot} (f : slot) (q : QSlider slot) :=
  {| orientation := orientation q; minimum := minimum q;
     maximum := maximum q; value := value q;
     valueChanged := valueChanged q;
     sliderReleased := sliderReleased q ++ [f] |}.

(** How the PyQt4 binding turns a Python argument into the C [int] a
    toolkit method takes: an integer as it is, a float truncated toward
    zero (through its [__int__]); NaN, the infinities, strings and values
    that do not fit 32 bits are refused. *)
Definition int_min : Z := - 2 ^ 31.
Definition int_max : Z := 2 ^ 31 - 1.

Definition fits_int (z : Z) : bool := (int_min <=? z) && (z <=? int_max).

Definition as_int (v : pyval) : outcome Z :=
  let refused := Raise (TypeError "argument 1 has unexpected type") in
  match v with
  | PyInt z => if fits_int z then Return z else refused
  | PyFloat f =>
      match Float64.trunc f with
      | Some z => if fits_int z then Return z else refused
      | None => refused
      end
  | PyStr _ => refused
  end.

(** The discrete-choice selector. *)
Record QComboBox (slot : Type) := {
  items : list string;
  currentIndex : Z;
  currentIndexChanged : list slot
}.

Arguments items {slot} _.
Arguments currentIndex {slot} _.
Arguments currentIndexChanged {slot} _.

Definition QComboBox_new {slot} : QComboBox slot :=
  {| items := []; currentIndex := -1; currentIndexChanged := [] |}.

Definition count {slot} (c : QComboBox slot) : Z :=
  Z.of_nat (List.length (items c)).

Definition itemText {slot} (c : QComboBox slot) (i : Z) : string :=
  if (0 <=? i) && (i <? count c)
  then nth (Z.to_nat i) (items c) ""%string
  else ""%string.

Definition currentText {slot} (c : QComboBox slot) : string :=
  itemText c (currentIndex c).

Definition with_index {slot} (i : Z) (c : QComboBox slot) :=
  {| items := items c; currentIndex := i;
     currentIndexChanged := currentIndexChanged c |}.

Definition connect_currentIndexChanged {slot} (f : slot)
    (c : QComboBox slot) : QComboBox slot :=
  {| items := items c; currentIndex := currentIndex c;
     currentIndexChanged := currentIndexChanged c ++ [f] |}.

(** The parameterless readers of a combo box that a Python attribute
    lookup finds; any other name is an [AttributeError]. *)
Definition QComboBox_read {slot} (c : QComboBox slot) (attr : string)
  : outcome pyval :=
  if String.eqb attr "currentIndex" then Return (PyInt (currentIndex c))
  else if String.eqb attr "currentText" then Return (PyStr (currentText c))
  else if String.eqb attr "count" then Return (PyInt (count c))
  else Raise (AttributeError
                ("'QComboBox' object has no attribute '" ++ attr ++ "'")).

End Qt.

(** Emitting a signal runs the connected slots in connection order; a slot
    that raises is reported and the emission goes on. *)
Fixpoint emit {W slot A} (run : slot -> A -> M (env W) unit)
    (slots : list slot) (a : A) : M (env W) unit :=
  match slots with
  | [] => ret tt
  | f :: fs => swallow (run f a) ;;; emit run fs a
  end.

Definition lift {S A} (o : outcome A) : M S A := fun s => (o, s).

(** ** BaseWidget *)

Module BaseWidget.

Record t : Type := {
  name : string;
  ptype : string;
  callback : option callable
}.

Definition __init__ (name ptype : string) (callback : option callable) : t :=
  {| name := name; ptype := ptype; callback := callback |}.

Definition val {W} : M (env W) pyval :=
  raise (NotImplementedError
           "Subclass of BaseWidget requires `val` property").

End BaseWidget.

(** A widget class derives from [BaseWidget]. *)
Class Widget (W : Type) : Type := { base : W -> BaseWidget.t }.

(** [self.callback(self.name, value)]; the default callback [None] is not
    callable. *)
Definition call_callback {W} `{Widget W} (value : pyval) : M (env W) unit :=
  s <- get ;;
  match BaseWidget.callback (base (self s)) with
  | Some f => record_call (Call f (BaseWidget.name (base (self s))) value)
  | None => raise (TypeError "'NoneType' object is not callable")
  end.

Definition _value_changed {W} `{Widget W} (value : pyval) : M (env W) unit :=
  call_callback value.

(** ** ComboBox *)

Module ComboBox.

(** The bound methods that get connected to a signal of the selector. *)
Inductive slot := Slot_value_changed.

Record t : Type := {
  super : BaseWidget.t;
  name_label : Qt.QLabel;
  _combo_box : Qt.QComboBox slot
}.

#[export] Instance widget : Widget t := {| base := super |}.

Definition with_combo_box (c : Qt.QComboBox slot) (w : t) : t :=
  {| super := super w; name_label := name_label w; _combo_box := c |}.

(** [addItems] appends; a selector that was empty makes its first item
    current.  It runs in [__init__] before any slot is connected, so the
    index change it signals reaches nobody. *)
Definition addItems (l : list string) (c : Qt.QComboBox slot)
  : Qt.QComboBox slot :=
  {| Qt.items := Qt.items c ++ l;
     Qt.currentIndex :=
       match Qt.items c, l with
       | [], _ :: _ => 0
       | _, _ => Qt.currentIndex c
       end;
     Qt.currentIndexChanged := Qt.currentIndexChanged c |}.

Definition __init__ (name : string) (items : list string) (ptype : string)
    (callback : option callable) : t :=
  let super := BaseWidget.__init__ name ptype callback in
  let name_label :=
    {| Qt.label_text := BaseWidget.name super;
       Qt.label_alignment := Qt.AlignLeft |} in
  let combo_box := addItems items Qt.QComboBox_new in
  let combo_box :=
    Qt.connect_currentIndexChanged Slot_value_changed combo_box in
  {| super := super; name_label := name_label; _combo_box := combo_box |}.

Definition run_slot (f : slot) (arg : pyval) : M (env t) unit :=
  match f with
  | Slot_value_changed => _value_changed arg
  end.

(** [connect] on the unsubscripted signal binds its default overload,
    [currentIndexChanged(int)]: the slots receive the new index. *)
Definition emit_currentIndexChanged (index : Z) : M (env t) unit :=
  s <- get ;;
  emit run_slot (Qt.currentIndexChanged (_combo_box (self s))) (PyInt index).

(** The selector makes item [k] current (the user picks it from the list,
    or [setCurrentIndex(k)]); an index without an item means no current
    item, [-1].  The signal is emitted only when the index changes. *)
Definition setCurrentIndex (k : Z) : M (env t) unit :=
  s <- get ;;
  let c := _combo_box (self s) in
  let k' := if (0 <=? k) && (k <? Qt.count c) then k else -1 in
  if k' =? Qt.currentIndex c then ret tt
  else
    update_self (with_combo_box (Qt.with_index k' c)) ;;;
    emit_currentIndexChanged k'.

(** [return self._combo_box.value()] *)
Definition val : M (env t) pyval :=
  s <- get ;;
  lift (Qt.QComboBox_read (_combo_box (self s)) "value").

End ComboBox.

(** ** Slider *)

(** [x / y] on floats: Python raises when the divisor is a zero. *)
Definition py_truediv {S} (x y : float) : M S float :=
  if Float64.is_zero y then raise (ZeroDivisionError "float division by zero")
  else ret (Float64.div x y).

Module Slider.

(** Bound methods connected to the signals of the position control
    ([slot]) and of the text box ([edit_slot]). *)
Inductive slot := Slot_on_slider_changed.
Inductive edit_slot := Slot_on_editbox_changed.

(** [QHBoxLayout] or [QVBoxLayout], with the children added so far. *)
Record QBoxLayout := {
  direction : Qt.Orientation;
  children : list (string * Qt.Alignment)
}.

Record t : Type := {
  super : BaseWidget.t;
  _scale : float;
  _low : float;
  _high : float;
  layout : QBoxLayout;
  slider : Qt.QSlider slot;
  name_label : Qt.QLabel;
  editbox : Qt.QLineEdit;
  editingFinished : list edit_slot
}.

#[export] Instance widget : Widget t := {| base := super |}.

Definition with_slider (q : Qt.QSlider slot) (w : t) : t :=
  {| super := super w; _scale := _scale w; _low := _low w;
     _high := _high w; layout := layout w; slider := q;
     name_label := name_label w; editbox := editbox w;
     editingFinished := editingFinished w |}.

Definition with_editbox (e : Qt.QLineEdit) (w : t) : t :=
  {| super := super w; _scale := _scale w; _low := _low w;
     _high := _high w; layout := layout w; slider := slider w;
     name_label := name_label w; editbox := e;
     editingFinished := editingFinished w |}.

Definition good_style : string := "background-color: rgb(255, 255, 255)".
Definition bad_style : string := "background-color: rgb(255, 200, 200)".

(** [self.slider.value() * self._scale + self._low] *)
Definition val_at (step : Z) (scale low : float) : float :=
  Float64.add (Float64.mul (Float64.of_Z step) scale) low.

Definition val_of (w : t) : float :=
  val_at (Qt.value (slider w)) (_scale w) (_low w).

(** [setRange] stores the bounds and re-bounds the value. *)
Definition setRange (lo hi : Z) (q : Qt.QSlider slot) : Qt.QSlider slot :=
  let hi := Z.max lo hi in
  {| Qt.orientation := Qt.orientation q; Qt.minimum := lo;
     Qt.maximum := hi; Qt.value := Qt.qBound lo (Qt.value q) hi;
     Qt.valueChanged := Qt.valueChanged q;
     Qt.sliderReleased := Qt.sliderReleased q |}.

(** The value [setValue(k)] stores: [k] bounded to the range. *)
Definition bounded (k : Z) (q : Qt.QSlider slot) : Z :=
  Qt.qBound (Qt.minimum q) k (Qt.maximum q).

Section Builtins.

(** Python's [float(s)] ([None] when it raises [ValueError]),
    [str(x)] and ['%2.2f' % x] on floats. *)
Variable float_of_str : string -> option float.
Variable str_of_float : float -> string.
Variable format_2_2f : float -> string.

Definition __init__ (name : string) (low high : float)
    (value : option pyval) (ptype : string) (callback : option callable)
    (max_edit_width : Z) (orientation update_on : string) : outcome t :=
  let super := BaseWidget.__init__ name ptype callback in
  (* divide slider into 1000 discrete values *)
  let slider_min := 0 in
  let slider_max := 1000 in
  let value := match value with None => PyInt 500 | Some v => v end in
  let scale :=
    Float64.div (Float64.sub high low) (Float64.of_Z slider_max) in
  let oriented :=
    if String.eqb orientation "vertical" then
      Some (Qt.Vertical, Qt.AlignHCenter, Qt.AlignHCenter, Qt.AlignHCenter)
    else if String.eqb orientation "horizontal" then
      Some (Qt.Horizontal, Qt.AlignVCenter, Qt.AlignLeft, Qt.AlignRight)
    else None in
  match oriented with
  | None =>
      Raise (ValueError
               ("Unexpected value " ++ orientation ++ " for 'orientation'"))
  | Some (orientation_slider, alignment, align_text, align_value) =>
      let slider := Qt.QSlider_new orientation_slider in
      let slider := setRange slider_min slider_max slider in
      match Qt.as_int value with
      | Raise e => Raise e
      | Return v =>
          (* no slot is connected yet: the change is signalled to nobody *)
          let slider := Qt.with_value (bounded v slider) slider in
          let connected :=
            if String.eqb update_on "move" then
              Some (Qt.connect_valueChanged Slot_on_slider_changed slider)
            else if String.eqb update_on "release" then
              Some (Qt.connect_sliderReleased Slot_on_slider_changed slider)
            else None in
          match connected with
          | None =>
              Raise (ValueError
                       ("Unexpected value " ++ update_on
                          ++ " for 'update_on'"))
          | Some slider =>
              let name_label :=
                {| Qt.label_text := BaseWidget.name super;
                   Qt.label_alignment := align_text |} in
              let editbox := Qt.QLineEdit_new in
              let editbox := Qt.setMaximumWidth max_edit_width editbox in
              let editbox :=
                Qt.setText
                  (format_2_2f (val_at (Qt.value slider) scale low))
                  editbox in
              let editbox := Qt.setAlignment align_value editbox in
              Return
                {| super := super; _scale := scale; _low := low;
                   _high := high;
                   layout :=
                     {| direction := orientation_slider;
                        children := [("name_label"%string, align_text);
                                     ("slider"%string, alignment);
                                     ("editbox"%string, align_value)] |};
                   slider := slider; name_label := name_label;
                   editbox := editbox;
                   editingFinished := [Slot_on_editbox_changed] |}
          end
      end
  end.

Definition val : M (env t) float :=
  s <- get ;; ret (val_of (self s)).

(** Call callback function with slider's name and value as parameters *)
Definition _on_slider_changed : M (env t) unit :=
  value <- val ;;
  update_self
    (fun w => with_editbox
                (Qt.setText (substring 0 4 (str_of_float value))
                            (editbox w)) w) ;;;
  call_callback (PyFloat value).

(** The slot takes no argument: the binding drops the signal's. *)
Definition run_slot (f : slot) (_ : unit) : M (env t) unit :=
  match f with
  | Slot_on_slider_changed => _on_slider_changed
  end.

(** [self.slider.setValue(v)]: bound, store, and emit [valueChanged]
    when the value changed. *)
Definition slider_setValue (v : pyval) : M (env t) unit :=
  k <- lift (Qt.as_int v) ;;
  s <- get ;;
  let q := slider (self s) in
  let k' := bounded k q in
  if k' =? Qt.value q then ret tt
  else
    update_self (with_slider (Qt.with_value k' q)) ;;;
    emit run_slot (Qt.valueChanged q) tt.

Definition _good_editbox_input : M (env t) unit :=
  update_self
    (fun w => with_editbox (Qt.setStyleSheet good_style (editbox w)) w).

Definition _bad_editbox_input : M (env t) unit :=
  update_self
    (fun w => with_editbox (Qt.setStyleSheet bad_style (editbox w)) w).

(** [self._low <= value <= self._high] *)
Definition within (low value high : float) : bool :=
  Float64.leb low value && Float64.leb value high.

(** Validate input and set slider value *)
Definition _on_editbox_changed : M (env t) unit :=
  s <- get ;;
  let w := self s in
  match float_of_str (Qt.text (editbox w)) with
  | None => _bad_editbox_input
  | Some value =>
      if negb (within (_low w) value (_high w)) then _bad_editbox_input
      else
        slider_value <- py_truediv (Float64.sub value (_low w))
                                   (_scale w) ;;
        slider_setValue (PyFloat slider_value) ;;;
        _good_editbox_input
  end.

Definition run_edit_slot (f : edit_slot) (_ : unit) : M (env t) unit :=
  match f with
  | Slot_on_editbox_changed => _on_editbox_changed
  end.

(** *** What the user does *)

(** Drag the handle to step [k]. *)
Definition user_moves (k : Z) : M (env t) unit :=
  slider_setValue (PyInt k).

(** Let go of the handle. *)
Definition user_releases : M (env t) unit :=
  s <- get ;;
  emit run_slot (Qt.sliderReleased (slider (self s))) tt.

(** Type [txt] in the text box and commit it. *)
Definition user_commits (txt : string) : M (env t) unit :=
  update_self (fun w => with_editbox (Qt.setText txt (editbox w)) w) ;;;
  s <- get ;;
  emit run_edit_slot (editingFinished (self s)) tt.

End Builtins.

End Slider.

(** ** One instance of the Python builtins

    The methods of [Slider] are parameterised by [float], [str] and
    ['%2.2f' %]; the results below hold for every choice.  To run the model
    on concrete inputs we fix one: plain decimal literals for [float], and
    fixed-point printing for the two formatters. *)

Module PyBuiltins.

Definition nonempty (s : string) : bool :=
  match s with EmptyString => false | _ => true end.

Definition of_digits (neg : bool) (int_part frac_part : string)
  : option float :=
  if nonempty int_part || nonempty frac_part then
    match NilEmpty.uint_of_string (int_part ++ frac_part) with
    | Some u =>
        match Z.of_uint u with
        | Zpos n =>
            let d := Z.to_pos (10 ^ Z.of_nat (String.length frac_part)) in
            Some (Float64.div (S754_finite neg n 0) (S754_finite false d 0))
        | _ => Some (S754_zero neg)
        end
    | None => None
    end
  else None.

Definition unsigned_float_of_str (neg : bool) (s : string) : option float :=
  if String.eqb s "inf" then Some (S754_infinity neg)
  else if String.eqb s "nan" then Some S754_nan
  else match index 0 "." s with
       | Some i =>
           of_digits neg (substring 0 i s)
                     (substring (S i) (String.length s - S i) s)
       | None => of_digits neg s ""
       end.

(** [float(s)] on [[-]digits[.digits]], [[-]inf] and [nan]: the nearest
    double to the decimal value. *)
Definition float_of_str (s : string) : option float :=
  match s with
  | String "-"%char r => unsigned_float_of_str true r
  | _ => unsigned_float_of_str false s
  end.

Definition round_half_even (num den : Z) : Z :=
  let q := num / den in
  match (2 * (num mod den) ?= den) with
  | Lt => q
  | Gt => q + 1
  | Eq => if Z.even q then q else q + 1
  end.

Fixpoint zeros (n : nat) : string :=
  match n with O => ""%string | S n' => String "0"%char (zeros n') end.

Definition render (neg : bool) (d : nat) (n : Z) : string :=
  let unit := 10 ^ Z.of_nat d in
  let int_part := NilZero.string_of_uint (N.to_uint (Z.to_N (n / unit))) in
  let frac := NilEmpty.string_of_uint (N.to_uint (Z.to_N (n mod unit))) in
  let frac := if (n mod unit =? 0) then ""%string else frac in
  ((if neg then "-" else "") ++ int_part ++ "."
     ++ zeros (d - String.length frac) ++ frac)%string.

(** ['%.<d>f' % x]: the exact value rounded half-even to [d] decimals. *)
Definition fixed (d : nat) (x : float) : string :=
  match x with
  | S754_nan => "nan"
  | S754_infinity s => if s then "-inf" else "inf"
  | S754_zero s => render s d 0
  | S754_finite s m e =>
      render s d
        match e with
        | Zneg p => round_half_even (Zpos m * 10 ^ Z.of_nat d) (2 ^ Zpos p)
        | _ => Zpos m * 2 ^ e * 10 ^ Z.of_nat d
        end
  end.

Definition format_2_2f : float -> string := fixed 2.

(** Stands in for [str]: twelve decimals, fixed point. *)
Definition str_of_float : float -> string := fixed 12.

End PyBuiltins.

(** ** Definitions used to state the properties *)

(** *** Order on floats

    [SFcompare] is a lexicographic comparison of (class, exponent,
    mantissa), mirrored on the negative side. *)
Definition key (x : float) : option (Z * Z * Z) :=
  match x with
  | S754_nan => None
  | S754_infinity true => Some (-2, 0, 0)
  | S754_finite true m e => Some (-1, - e, Zneg m)
  | S754_zero _ => Some (0, 0, 0)
  | S754_finite false m e => Some (1, e, Zpos m)
  | S754_infinity false => Some (2, 0, 0)
  end.

Definition lex (a b : Z * Z * Z) : comparison :=
  match fst (fst a) ?= fst (fst b) with
  | Eq => match snd (fst a) ?= snd (fst b) with
          | Eq => snd a ?= snd b
          | c => c
          end
  | c => c
  end.

(** *** ComboBox *)

(** The slot of [__init__] is the only one connected. *)
Definition wired (w : ComboBox.t) : Prop :=
  Qt.currentIndexChanged (ComboBox._combo_box w)
  = [ComboBox.Slot_value_changed].

(** The widget of the examples. *)
Definition method_box : ComboBox.t :=
  ComboBox.__init__ "method" ["nearest"; "bilinear"] "kwarg"
                (Some "filter_image").

(** *** Slider *)

Definition orientation_of (s : string) : option Qt.Orientation :=
  if String.eqb s "vertical" then Some Qt.Vertical
  else if String.eqb s "horizontal" then Some Qt.Horizontal
  else None.

(** The step [__init__] hands to the position control. *)
Definition initial_step (value : option pyval) : outcome Z :=
  Qt.as_int (match value with None => PyInt 500 | Some v => v end).

(** The widget [__init__] returns when it accepts its arguments: [k] is
    the initial step, [move] tells whether the slider updates on move. *)
Definition fresh (format_2_2f : float -> string) (name : string)
    (low high : float) (ptype : string) (callback : option callable)
    (max_edit_width : Z) (o : Qt.Orientation) (move : bool) (k : Z)
  : Slider.t :=
  let scale := Float64.div (Float64.sub high low) (Float64.of_Z 1000) in
  let align_text :=
    match o with Qt.Vertical => Qt.AlignHCenter | _ => Qt.AlignLeft end in
  let alignment :=
    match o with Qt.Vertical => Qt.AlignHCenter | _ => Qt.AlignVCenter end in
  let align_value :=
    match o with Qt.Vertical => Qt.AlignHCenter | _ => Qt.AlignRight end in
  {| Slider.super := BaseWidget.__init__ name ptype callback;
     Slider._scale := scale;
     Slider._low := low;
     Slider._high := high;
     Slider.layout :=
       {| Slider.direction := o;
          Slider.children := [("name_label", align_text);
                              ("slider", alignment);
                              ("editbox", align_value)] |};
     Slider.slider :=
       {| Qt.orientation := o; Qt.minimum := 0; Qt.maximum := 1000;
          Qt.value := Qt.qBound 0 k 1000;
          Qt.valueChanged :=
            if move then [Slider.Slot_on_slider_changed] else [];
          Qt.sliderReleased :=
            if move then [] else [Slider.Slot_on_slider_changed] |};
     Slider.name_label :=
       {| Qt.label_text := name; Qt.label_alignment := align_text |};
     Slider.editbox :=
       {| Qt.text :=
            format_2_2f (Slider.val_at (Qt.qBound 0 k 1000) scale low);
          Qt.styleSheet := "";
          Qt.maximumWidth := max_edit_width;
          Qt.alignment := align_value |};
     Slider.editingFinished := [Slider.Slot_on_editbox_changed] |}.

(** How the signals of a slider are wired after [__init__]. *)
Record connected (w : Slider.t) (update_on : string) : Prop := {
  k_valueChanged :
    Qt.valueChanged (Slider.slider w)
    = if String.eqb update_on "move"
      then [Slider.Slot_on_slider_changed] else [];
  k_sliderReleased :
    Qt.sliderReleased (Slider.slider w)
    = if String.eqb update_on "move"
      then [] else [Slider.Slot_on_slider_changed];
  k_editingFinished :
    Slider.editingFinished w = [Slider.Slot_on_editbox_changed]
}.

(** The widget after [setValue(k)] under trigger [update_on]: the step is
    bounded and stored; in ['move'] mode a changed step also rewrites the
    text box. *)
Definition stepped (str_of_float : float -> string) (update_on : string)
    (k : Z) (w : Slider.t) : Slider.t :=
  let k' := Slider.bounded k (Slider.slider w) in
  if k' =? Qt.value (Slider.slider w) then w
  else
    let w1 := Slider.with_slider (Qt.with_value k' (Slider.slider w)) w in
    if String.eqb update_on "move" then
      Slider.with_editbox
        (Qt.setText (substring 0 4 (str_of_float (Slider.val_of w1)))
                    (Slider.editbox w1))
        w1
    else w1.

(** The callback invocations [setValue(k)] adds. *)
Definition notified (update_on : string) (cb : callable) (k : Z)
    (w : Slider.t) : list call :=
  let k' := Slider.bounded k (Slider.slider w) in
  if (k' =? Qt.value (Slider.slider w)) || negb (String.eqb update_on "move")
  then []
  else [Call cb (BaseWidget.name (Slider.super w))
             (PyFloat (Slider.val_at k' (Slider._scale w) (Slider._low w)))].

Definition marked (style : string) (w : Slider.t) : Slider.t :=
  Slider.with_editbox (Qt.setStyleSheet style (Slider.editbox w)) w.

Definition typed (txt : string) (w : Slider.t) : Slider.t :=
  Slider.with_editbox (Qt.setText txt (Slider.editbox w)) w.

(** The step a committed value [v] is turned into, when it is. *)
Definition step_of (w : Slider.t) (v : float) : outcome Z :=
  Qt.as_int (PyFloat (Float64.div (Float64.sub v (Slider._low w))
                                  (Slider._scale w))).

(** The slider of the examples: ["sigma"], horizontal, with a callback. *)
Definition sigma (low high : float) (move : bool) (k : Z) : Slider.t :=
  fresh PyBuiltins.format_2_2f "sigma" low high "kwarg"
        (Some "filter_image") 60 Qt.Horizontal move k.

Definition commit (txt : string) (w : Slider.t)
  : outcome unit * env Slider.t :=
  Slider.user_commits PyBuiltins.float_of_str PyBuiltins.str_of_float txt
                      (Env w [] []).

(** The step that comes back when the value of [step] is committed, when
    the handler accepts it. *)
Definition round_trip (low high : float) (step : Z) : option Z :=
  let scale := Float64.div (Float64.sub high low) (Float64.of_Z 1000) in
  let v := Slider.val_at step scale low in
  if Slider.within low v high && negb (Float64.is_zero scale) then
    match Qt.as_int (PyFloat (Float64.div (Float64.sub v low) scale)) with
    | Return k => Some (Qt.qBound 0 k 1000)
    | Raise _ => None
    end
  else None.



(** *** Rounding

    Values are handled as integers in units of [2^-K], for a [K] large
    enough to make every exponent at hand non-negative. *)

(** [V / 2^G] rounded to the nearest integer, ties to even. *)
Definition rne (V G : Z) : Z :=
  let q := V / 2 ^ G in
  match 2 * (V mod 2 ^ G) ?= 2 ^ G with
  | Lt => q
  | Eq => if Z.even q then q else q + 1
  | Gt => q + 1
  end.

(** The tail of [binary_round_aux]: renormalise after a carry, then check
    for overflow. *)
Definition finish (s : bool) (q E : Z) : spec_float :=
  let '(st, e'') := shr_fexp Float64.prec Float64.emax q E loc_Exact in
  match shr_m st with
  | Z0 => S754_zero s
  | Zpos m =>
      if e'' <=? Float64.emax - Float64.prec then S754_finite s m e''
      else S754_infinity s
  | Zneg _ => S754_nan
  end.

(** The exponent (plus [K]) of the grid a positive value [V], given in
    units of [2^-K], is rounded to: 53 significant bits, and no finer than
    the subnormal step [2^-1074]. *)
Definition grid (K V : Z) : Z := Z.max (Z.log2 V + 1 - 53) (K - 1074).

(** The double nearest to [V * 2^-K], with sign [s]. *)
Definition rounded (s : bool) (K V : Z) : float :=
  finish s (rne V (grid K V)) (grid K V - K).

(** A number with sign bit [s]; never NaN. *)
Definition signed (s : bool) (x : float) : bool :=
  match x with
  | S754_zero s' | S754_finite s' _ _ | S754_infinity s' => Bool.eqb s s'
  | S754_nan => false
  end.

(** The double nearest to the signed value [V * 2^-K]. *)
Definition rounded_Z (K V : Z) : float :=
  match V with
  | Z0 => S754_zero false
  | Zpos _ => rounded false K V
  | Zneg p => rounded true K (Zpos p)
  end.

(** The key of the opposite number. *)
Definition neg3 (a : Z * Z * Z) : Z * Z * Z :=
  (- fst (fst a), - snd (fst a), - snd a).

(** The value of a float in units of [2^-K]. *)
Definition fvalue (K : Z) (x : float) : Z :=
  match x with
  | S754_finite s m e => cond_Zopp s (Zpos m * 2 ^ (e + K))
  | _ => 0
  end.

(** [float(s)] is a normal number equal to [s]. *)
Definition of_Z_shape (s : Z) : bool :=
  match Float64.of_Z s with
  | S754_finite false m e =>
      (2 ^ 52 <=? Zpos m) && (-52 <=? e) && (e <=? 0)
      && (Zpos m * 2 ^ (e + 52) =? s * 2 ^ 52)
  | _ => false
  end.

(** *** Sequences of selections *)

(** The index [setCurrentIndex(k)] makes current in a selector of [n]
    items. *)
Definition selected (n k : Z) : Z :=
  if (0 <=? k) && (k <? n) then k else -1.

(** The indices of [ks] that differ from the one before them, [cur] being
    the one before the first. *)
Fixpoint changes (cur : Z) (ks : list Z) : list Z :=
  match ks with
  | [] => []
  | k :: r => if k =? cur then changes cur r else k :: changes k r
  end.

Fixpoint select_all (ks : list Z) : M (env ComboBox.t) unit :=
  match ks with
  | [] => ret tt
  | k :: r => ComboBox.setCurrentIndex k ;;; select_all r
  end.

(** The widget of the examples, built without a callback. *)
Definition silent_box : ComboBox.t :=
  ComboBox.__init__ "method" ["nearest"; "bilinear"] "kwarg" None.

(** *** Sessions with a slider *)

(** What the user of a slider does. *)
Inductive action : Type :=
| Move (k : Z)
| Release
| Commit (txt : string).

Definition perform (float_of_str : string -> option float)
    (str_of_float : float -> string) (a : action) : M (env Slider.t) unit :=
  match a with
  | Move k => Slider.user_moves str_of_float k
  | Release => Slider.user_releases str_of_float
  | Commit txt => Slider.user_commits float_of_str str_of_float txt
  end.

(** The event loop: one action after the other, each from the state the
    one before it left. *)
Fixpoint session (float_of_str : string -> option float)
    (str_of_float : float -> string) (l : list action) (s : env Slider.t)
  : env Slider.t :=
  match l with
  | [] => s
  | a :: r =>
      session float_of_str str_of_float r
              (snd (perform float_of_str str_of_float a s))
  end.


(** Everything a slider holds but the step, the text and the style of the
    text box. *)
Definition frame (w : Slider.t) :=
  (Slider.super w, Slider._scale w, Slider._low w, Slider._high w,
   Slider.layout w, Slider.name_label w, Slider.editingFinished w,
   Qt.orientation (Slider.slider w), Qt.minimum (Slider.slider w),
   Qt.maximum (Slider.slider w), Qt.valueChanged (Slider.slider w),
   Qt.sliderReleased (Slider.slider w),
   Qt.maximumWidth (Slider.editbox w), Qt.alignment (Slider.editbox w)).

(** The widget with the value of its step shown in the text box, as
    [_on_slider_changed] leaves it. *)
Definition shown (str_of_float : float -> string) (w : Slider.t) : Slider.t :=
  Slider.with_editbox
    (Qt.setText (substring 0 4 (str_of_float (Slider.val_of w)))
                (Slider.editbox w))
    w.

(** The exceptions a slot of a slider lets out. *)
Definition allowed (e : exn) : Prop :=
  match e with
  | TypeError _ | ZeroDivisionError _ => True
  | _ => False
  end.

(** [c] is an invocation of the callback of [w0], with the name of [w0]
    and the value of one of its steps. *)
Definition announces (w0 : Slider.t) (c : call) : Prop :=
  BaseWidget.callback (Slider.super w0) = Some (fn c)
  /\ arg_name c = BaseWidget.name (Slider.super w0)
  /\ exists k,
       0 <= k <= 1000
       /\ arg_value c
          = PyFloat (Slider.val_at k (Slider._scale w0) (Slider._low w0)).

(** What every state of a session with [w0] satisfies. *)
Record kept (w0 : Slider.t) (s : env Slider.t) : Prop := {
  kept_frame : frame (self s) = frame w0;
  kept_step : 0 <= Qt.value (Slider.slider (self s)) <= 1000;
  kept_calls : Forall (announces w0) (calls s);
  kept_reported : Forall allowed (reported s)
}.

(** [c] keeps the invariant, and lets out allowed exceptions only. *)
Definition sound {A} (w0 : Slider.t) (c : M (env Slider.t) A) : Prop :=
  forall s, kept w0 s ->
            kept w0 (snd (c s))
            /\ forall e, fst (c s) = Raise e -> allowed e.

(** The slider of the examples, built without a callback. *)
Definition silent (low high : float) (move : bool) (k : Z) : Slider.t :=
  fresh PyBuiltins.format_2_2f "sigma" low high "kwarg" None 60
        Qt.Horizontal move k.

(** * Properties *)

(** ** Order on floats *)

Lemma compare_key (x y : float) :
  SFcompare x y
  = match key x, key y with
    | Some a, Some b => Some (lex a b)
    | _, _ => None
    end.
Proof.
  destruct x as [sx | sx | | sx mx ex], y as [sy | sy | | sy my ey];
    try destruct sx; try destruct sy; try reflexivity.
  cbn. unfold lex; cbn. rewrite Z.compare_opp.
  rewrite (Z.compare_antisym ex ey).
  destruct (ex ?= ey); reflexivity.
Qed.

Lemma lex_Lt a b :
  lex a b = Lt <->
  fst (fst a) < fst (fst b)
  \/ (fst (fst a) = fst (fst b)
      /\ (snd (fst a) < snd (fst b)
          \/ (snd (fst a) = snd (fst b) /\ snd a < snd b))).
Proof.
  unfold lex.
  destruct (Z.compare_spec (fst (fst a)) (fst (fst b)));
    destruct (Z.compare_spec (snd (fst a)) (snd (fst b)));
    destruct (Z.compare_spec (snd a) (snd b));
    split; intro; try discriminate; try reflexivity; lia.
Qed.

Lemma lex_Eq a b : lex a b = Eq <-> a = b.
Proof.
  destruct a as [[a1 a2] a3], b as [[b1 b2] b3]. unfold lex; cbn.
  destruct (Z.compare_spec a1 b1); destruct (Z.compare_spec a2 b2);
    destruct (Z.compare_spec a3 b3);
    split; intro H'; try discriminate; try (inversion H'; lia);
    subst; reflexivity.
Qed.

Lemma lex_Gt a b : lex a b = Gt <-> lex b a = Lt.
Proof.
  unfold lex.
  rewrite (Z.compare_antisym (fst (fst a))),
          (Z.compare_antisym (snd (fst a))), (Z.compare_antisym (snd a)).
  destruct (fst (fst a) ?= fst (fst b)); cbn;
    destruct (snd (fst a) ?= snd (fst b)); cbn;
    destruct (snd a ?= snd b); cbn; split; intro; congruence.
Qed.

(** [x <= y] and [x < y] in terms of keys. *)
Lemma leb_key (x y : float) :
  Float64.leb x y = true <->
  exists a b, key x = Some a /\ key y = Some b /\ lex b a <> Lt.
Proof.
  unfold Float64.leb, SFleb. rewrite compare_key.
  destruct (key x) as [a |], (key y) as [b |].
  - split.
    + intro H. exists a, b. repeat split.
      intro Hlt. apply lex_Gt in Hlt. rewrite Hlt in H. discriminate.
    + intros (a' & b' & Ha & Hb & Hn). inversion Ha; inversion Hb; subst.
      destruct (lex a' b') eqn:E; try reflexivity.
      apply lex_Gt in E. contradiction.
  - split; [discriminate | intros (? & ? & _ & ? & _); discriminate].
  - split; [discriminate | intros (? & ? & ? & _); discriminate].
  - split; [discriminate | intros (? & ? & ? & _); discriminate].
Qed.

Lemma ltb_key (x y : float) :
  Float64.ltb x y = true <->
  exists a b, key x = Some a /\ key y = Some b /\ lex a b = Lt.
Proof.
  unfold Float64.ltb, SFltb. rewrite compare_key.
  destruct (key x) as [a |], (key y) as [b |].
  - split.
    + intro H. exists a, b. repeat split.
      destruct (lex a b); try discriminate; reflexivity.
    + intros (a' & b' & Ha & Hb & Hn). inversion Ha; inversion Hb; subst.
      rewrite Hn. reflexivity.
  - split; [discriminate | intros (? & ? & _ & ? & _); discriminate].
  - split; [discriminate | intros (? & ? & ? & _); discriminate].
  - split; [discriminate | intros (? & ? & ? & _); discriminate].
Qed.

Lemma eqb_key (x y : float) :
  Float64.eqb x y = true <->
  exists a, key x = Some a /\ key y = Some a.
Proof.
  unfold Float64.eqb, SFeqb. rewrite compare_key.
  destruct (key x) as [a |], (key y) as [b |].
  - split.
    + intro H. exists a. split; [reflexivity |].
      destruct (lex a b) eqn:E; try discriminate.
      apply lex_Eq in E. congruence.
    + intros (a' & Ha & Hb). inversion Ha; inversion Hb; subst.
      rewrite (proj2 (lex_Eq a' a') eq_refl). reflexivity.
  - split; [discriminate | intros (? & _ & ?); discriminate].
  - split; [discriminate | intros (? & ? & _); discriminate].
  - split; [discriminate | intros (? & ? & _); discriminate].
Qed.

Lemma lex_trans a b c : lex a b <> Gt -> lex b c <> Gt -> lex a c <> Gt.
Proof.
  intros Hab Hbc Hac.
  apply lex_Gt in Hac. apply lex_Lt in Hac.
  assert (Hba : lex b a <> Lt) by (intro E; apply lex_Gt in E; contradiction).
  assert (Hcb : lex c b <> Lt) by (intro E; apply lex_Gt in E; contradiction).
  rewrite lex_Lt in Hba, Hcb. lia.
Qed.

Lemma leb_trans (x y z : float) :
  Float64.leb x y = true -> Float64.leb y z = true ->
  Float64.leb x z = true.
Proof.
  rewrite !leb_key.
  intros (a & b & Ha & Hb & Hab) (b' & c & Hb' & Hc & Hbc).
  rewrite Hb in Hb'. inversion Hb'; subst b'.
  exists a, c. repeat split; try assumption.
  intro E. apply lex_Gt in E. revert E.
  apply lex_trans with b; intro E; apply lex_Gt in E; contradiction.
Qed.

(** Outside the interval, on either side, is not within it. *)
Lemma ltb_not_leb (x y : float) :
  Float64.ltb x y = true -> Float64.leb y x = false.
Proof.
  rewrite ltb_key. intros (a & b & Ha & Hb & Hlt).
  destruct (Float64.leb y x) eqn:E; [| reflexivity].
  apply leb_key in E. destruct E as (b' & a' & Hb' & Ha' & Hn).
  congruence.
Qed.

Lemma leb_total_or (x y : float) :
  Float64.leb x y = true -> Float64.ltb x y = true \/ Float64.eqb x y = true.
Proof.
  unfold Float64.leb, Float64.ltb, Float64.eqb, SFleb, SFltb, SFeqb.
  destruct (SFcompare x y) as [[ | | ] |]; intro; try discriminate; auto.
Qed.

(** ** Rounding to nearest even *)

(** [iter_pos] iterates as many times as its count says. *)
Lemma iter_pos_nat {A} (f : A -> A) (p : positive) (x : A) :
  iter_pos f p x = Nat.iter (Pos.to_nat p) f x.
Proof.
  revert x. induction p as [p IH | p IH |]; intro x; cbn [iter_pos].
  - rewrite !IH. rewrite Pos2Nat.inj_xI.
    replace (S (2 * Pos.to_nat p))%nat with (Pos.to_nat p + (Pos.to_nat p + 1))%nat by lia.
    rewrite !Nat.iter_add. reflexivity.
  - rewrite !IH. rewrite Pos2Nat.inj_xO.
    replace (2 * Pos.to_nat p)%nat with (Pos.to_nat p + Pos.to_nat p)%nat by lia.
    rewrite Nat.iter_add. reflexivity.
  - reflexivity.
Qed.

(** One step of [shr] halves a non-negative mantissa and remembers the
    bit it drops. *)
Lemma shr_1_spec (m : Z) (r s : bool) :
  0 <= m ->
  shr_1 (Build_shr_record m r s)
  = Build_shr_record (m / 2) (Z.odd m) (r || s).
Proof.
  intro Hm. destruct m as [| p | p]; [reflexivity | | lia].
  destruct p as [p | p |]; cbn [shr_1].
  - f_equal. rewrite Pos2Z.inj_xI. 
    replace (2 * Z.pos p + 1) with (1 + Z.pos p * 2) by lia.
    rewrite Z.div_add by lia. reflexivity.
  - f_equal. rewrite Pos2Z.inj_xO. rewrite Z.mul_comm, Z.div_mul by lia. reflexivity.
  - reflexivity.
Qed.

Lemma digits2_size (p : positive) : digits2_pos p = Pos.size p.
Proof. induction p; cbn; congruence. Qed.

Lemma digits_log2 (p : positive) :
  Zpos (digits2_pos p) = Z.log2 (Zpos p) + 1.
Proof.
  rewrite digits2_size. destruct p; cbn; lia.
Qed.

Lemma digits_bounds (p : positive) :
  2 ^ (Zpos (digits2_pos p) - 1) <= Zpos p < 2 ^ Zpos (digits2_pos p).
Proof.
  rewrite digits_log2.
  replace (Z.log2 (Z.pos p) + 1 - 1) with (Z.log2 (Z.pos p)) by lia.
  apply Z.log2_spec. lia.
Qed.

(** After [n + 1] steps from an exact record: the quotient by [2^(n+1)],
    the last bit dropped, and whether any lower bit was set. *)
Lemma shr_iter (m : Z) (n : nat) :
  0 <= m ->
  Nat.iter (S n) shr_1 (Build_shr_record m false false)
  = Build_shr_record (m / 2 ^ Z.of_nat (S n))
                     (Z.odd (m / 2 ^ Z.of_nat n))
                     (negb (m mod 2 ^ Z.of_nat n =? 0)).
Proof.
  intro Hm. induction n as [| n IH].
  - cbn [Nat.iter]. rewrite shr_1_spec by exact Hm.
    change (Z.of_nat 1) with 1. change (Z.of_nat 0) with 0.
    rewrite Z.pow_1_r, Z.pow_0_r, Z.div_1_r, Z.mod_1_r. reflexivity.
  - rewrite Nat.iter_succ, IH.
    assert (H2n : 0 < 2 ^ Z.of_nat n) by (apply Z.pow_pos_nonneg; lia).
    rewrite shr_1_spec by (apply Z.div_pos; [exact Hm | apply Z.pow_pos_nonneg; lia]).
    f_equal.
    + rewrite Z.div_div by (try apply Z.pow_pos_nonneg; lia).
      f_equal. rewrite (Nat2Z.inj_succ (S n)), Z.pow_succ_r by lia. lia.
    + rewrite (Nat2Z.inj_succ n), Z.pow_succ_r by lia.
      rewrite (Z.mul_comm 2).
      rewrite Z.rem_mul_r by lia.
      set (a := m / 2 ^ Z.of_nat n).
      pose proof (Z.mod_pos_bound m (2 ^ Z.of_nat n) H2n) as Hb.
      rewrite Zodd_mod.
      pose proof (Z.mod_pos_bound a 2 ltac:(lia)) as Ha.
      destruct (Z.eqb_spec (a mod 2) 1) as [E | E];
        destruct (Z.eqb_spec (m mod 2 ^ Z.of_nat n) 0) as [E0 | E0]; cbn.
      * destruct (Z.eqb_spec (m mod 2 ^ Z.of_nat n + 2 ^ Z.of_nat n * (a mod 2)) 0); [nia | reflexivity].
      * destruct (Z.eqb_spec (m mod 2 ^ Z.of_nat n + 2 ^ Z.of_nat n * (a mod 2)) 0); [nia | reflexivity].
      * destruct (Z.eqb_spec (m mod 2 ^ Z.of_nat n + 2 ^ Z.of_nat n * (a mod 2)) 0); [reflexivity | ].
        assert (a mod 2 = 0) by lia. nia.
      * destruct (Z.eqb_spec (m mod 2 ^ Z.of_nat n + 2 ^ Z.of_nat n * (a mod 2)) 0); [| reflexivity].
        assert (a mod 2 = 0) by lia. nia.
Qed.

Lemma round_shr (m : Z) (n : nat) :
  0 <= m ->
  let st := Nat.iter (S n) shr_1 (Build_shr_record m false false) in
  round_nearest_even (shr_m st) (loc_of_shr_record st)
  = rne m (Z.of_nat (S n)).
Proof.
  intros Hm st. subst st. rewrite shr_iter by exact Hm.
  unfold rne. cbn [shr_m].
  assert (H2n : 0 < 2 ^ Z.of_nat n) by (apply Z.pow_pos_nonneg; lia).
  rewrite (Nat2Z.inj_succ n), Z.pow_succ_r by lia.
  rewrite (Z.mul_comm 2 (2 ^ Z.of_nat n)).
  rewrite Z.rem_mul_r by lia.
  set (a := m / 2 ^ Z.of_nat n).
  set (q := m / (2 ^ Z.of_nat n * 2)).
  pose proof (Z.mod_pos_bound m (2 ^ Z.of_nat n) H2n) as Hb.
  pose proof (Z.mod_pos_bound a 2 ltac:(lia)) as Ha.
  rewrite Zodd_mod.
  destruct (Z.eqb_spec (a mod 2) 1) as [E | E];
    destruct (Z.eqb_spec (m mod 2 ^ Z.of_nat n) 0) as [E0 | E0];
    cbn [negb loc_of_shr_record round_nearest_even].
  - rewrite E, E0.
    replace (2 * (0 + 2 ^ Z.of_nat n * 1)) with (2 ^ Z.of_nat n * 2) by lia.
    rewrite Z.compare_refl. reflexivity.
  - rewrite E.
    destruct (Z.compare_spec (2 * (m mod 2 ^ Z.of_nat n + 2 ^ Z.of_nat n * 1)) (2 ^ Z.of_nat n * 2)); try lia; try reflexivity.
  - assert (Ha0 : a mod 2 = 0) by lia. rewrite Ha0, E0.
    destruct (Z.compare_spec (2 * (0 + 2 ^ Z.of_nat n * 0)) (2 ^ Z.of_nat n * 2)); try lia; try reflexivity.
  - assert (Ha0 : a mod 2 = 0) by lia. rewrite Ha0.
    destruct (Z.compare_spec (2 * (m mod 2 ^ Z.of_nat n + 2 ^ Z.of_nat n * 0)) (2 ^ Z.of_nat n * 2)); try lia; try reflexivity.
Qed.

Lemma fexp_eq (e : Z) : fexp Float64.prec Float64.emax e = Z.max (e - 53) (-1074).
Proof. reflexivity. Qed.

Lemma pow2_pos (n : Z) : 0 <= n -> 0 < 2 ^ n.
Proof. intro. apply Z.pow_pos_nonneg; lia. Qed.

Lemma rne_0 (V : Z) : rne V 0 = V.
Proof.
  unfold rne. rewrite Z.pow_0_r, Z.div_1_r, Z.mod_1_r. reflexivity.
Qed.

Lemma rne_bounds (V G : Z) :
  0 <= V -> 0 <= G -> V / 2 ^ G <= rne V G <= V / 2 ^ G + 1.
Proof.
  intros HV HG. unfold rne.
  destruct (2 * (V mod 2 ^ G) ?= 2 ^ G); [destruct (Z.even _) | |]; lia.
Qed.

Lemma rne_scale (m n k : Z) :
  0 <= n -> 0 <= k -> rne (m * 2 ^ k) (n + k) = rne m n.
Proof.
  intros Hn Hk. unfold rne.
  pose proof (pow2_pos Hn). pose proof (pow2_pos Hk).
  rewrite Z.pow_add_r by lia.
  rewrite Z.div_mul_cancel_r by lia.
  rewrite Z.mul_mod_distr_r by lia.
  assert (Hc : (2 * (m mod 2 ^ n * 2 ^ k) ?= 2 ^ n * 2 ^ k)
               = (2 * (m mod 2 ^ n) ?= 2 ^ n)).
  { destruct (Z.compare_spec (2 * (m mod 2 ^ n)) (2 ^ n));
      destruct (Z.compare_spec (2 * (m mod 2 ^ n * 2 ^ k)) (2 ^ n * 2 ^ k));
      try reflexivity; nia. }
  rewrite Hc. reflexivity.
Qed.

Lemma rne_mono (V1 V2 G : Z) :
  0 <= G -> 0 <= V1 <= V2 -> rne V1 G <= rne V2 G.
Proof.
  intros HG HV.
  pose proof (pow2_pos HG) as Hp.
  pose proof (Z.div_le_mono V1 V2 (2 ^ G) Hp (proj2 HV)) as Hq.
  destruct (Z.eq_dec (V1 / 2 ^ G) (V2 / 2 ^ G)) as [E | E].
  - assert (Hr : V1 mod 2 ^ G <= V2 mod 2 ^ G).
    { rewrite !Z.mod_eq by lia. rewrite E. lia. }
    unfold rne. rewrite E.
    destruct (Z.compare_spec (2 * (V1 mod 2 ^ G)) (2 ^ G));
      destruct (Z.compare_spec (2 * (V2 mod 2 ^ G)) (2 ^ G));
      destruct (Z.even (V2 / 2 ^ G)); lia.
  - pose proof (rne_bounds (V := V1) (G := G) ltac:(lia) HG).
    pose proof (rne_bounds (V := V2) (G := G) ltac:(lia) HG). lia.
Qed.

Lemma pow2_lt_inv (a b : Z) : 0 <= a -> 0 <= b -> 2 ^ a < 2 ^ b -> a < b.
Proof. intros Ha Hb H. apply (Z.pow_lt_mono_r_iff 2); lia. Qed.

Lemma finish_zero (s : bool) (E : Z) :
  -1074 <= E -> finish s 0 E = S754_zero s.
Proof.
  intro HE. unfold finish, shr_fexp, shr. cbn [Zdigits2].
  rewrite fexp_eq.
  destruct (Z.max (0 + E - 53) (-1074) - E) eqn:En; try reflexivity. lia.
Qed.

Lemma finish_small (s : bool) (p : positive) (E : Z) :
  Zpos p < 2 ^ 53 -> -1074 <= E ->
  finish s (Zpos p) E
  = if E <=? 971 then S754_finite s p E else S754_infinity s.
Proof.
  intros Hp HE. unfold finish, shr_fexp, shr. cbn [Zdigits2].
  rewrite fexp_eq.
  pose proof (digits_bounds p) as Hd.
  assert (Zpos (digits2_pos p) <= 53).
  { assert (Zpos (digits2_pos p) - 1 < 53); [| lia].
    apply pow2_lt_inv; lia. }
  destruct (Z.max (Z.pos (digits2_pos p) + E - 53) (-1074) - E) eqn:En;
    try reflexivity. lia.
Qed.

Lemma finish_carry (s : bool) (E : Z) :
  -1074 <= E ->
  finish s (2 ^ 53) E
  = if E + 1 <=? 971 then S754_finite s (2 ^ 52) (E + 1)
    else S754_infinity s.
Proof.
  intro HE. unfold finish, shr_fexp, shr.
  change (Zdigits2 (2 ^ 53)) with 54. rewrite fexp_eq.
  replace (Z.max (54 + E - 53) (-1074) - E) with 1 by lia.
  reflexivity.
Qed.

(** The value of [Zpos m * 2^e] in units of [2^-K], and its rounding. *)
Lemma log2_scaled (p : positive) (k : Z) :
  0 <= k -> Z.log2 (Zpos p * 2 ^ k) + 1 = Zpos (digits2_pos p) + k.
Proof.
  intro Hk. rewrite Z.log2_mul_pow2 by lia. rewrite digits_log2. lia.
Qed.

Lemma round_aux_value (s : bool) (p : positive) (e K : Z) :
  0 <= e + K ->
  e <= fexp Float64.prec Float64.emax (Zpos (digits2_pos p) + e) ->
  binary_round_aux Float64.prec Float64.emax s (Zpos p) e loc_Exact
  = finish s (rne (Zpos p * 2 ^ (e + K)) (grid K (Zpos p * 2 ^ (e + K))))
           (grid K (Zpos p * 2 ^ (e + K)) - K).
Proof.
  intros HK Hfine.
  unfold grid. rewrite log2_scaled by exact HK.
  set (d := Zpos (digits2_pos p)) in *.
  rewrite fexp_eq in Hfine.
  set (n := Z.max (d + e - 53) (-1074) - e).
  assert (Hn : 0 <= n) by (subst n; lia).
  replace (Z.max (d + (e + K) - 53) (K - 1074)) with (n + (e + K))
    by (subst n; lia).
  rewrite rne_scale by lia.
  replace (n + (e + K) - K) with (e + n) by lia.
  unfold binary_round_aux, shr_fexp at 1, shr. cbn [Zdigits2].
  fold d. rewrite fexp_eq. fold n.
  destruct n as [| pn | pn] eqn:En.
  - cbn [shr_record_of_loc shr_m loc_of_shr_record round_nearest_even].
    rewrite rne_0, Z.add_0_r. reflexivity.
  - rewrite iter_pos_nat.
    destruct (Pos2Nat.is_succ pn) as [k Hk]. rewrite Hk.
    cbn [shr_record_of_loc].
    rewrite (round_shr (m := Zpos p) k ltac:(lia)).
    replace (Z.of_nat (S k)) with (Zpos pn) by lia.
    reflexivity.
  - lia.
Qed.

Lemma leb_intro (x y : float) a b :
  key x = Some a -> key y = Some b -> lex b a <> Lt ->
  Float64.leb x y = true.
Proof. intros Ha Hb H. apply leb_key. exists a, b. auto. Qed.

Lemma not_lex_Lt a b :
  (fst (fst a) < fst (fst b)
   \/ (fst (fst a) = fst (fst b)
       /\ (snd (fst a) < snd (fst b)
           \/ (snd (fst a) = snd (fst b) /\ snd a <= snd b)))) ->
  lex b a <> Lt.
Proof. intros H E. apply lex_Lt in E. lia. Qed.

Lemma finish_le (r1 E1 r2 E2 : Z) :
  -1074 <= E1 -> -1074 <= E2 ->
  0 <= r1 <= 2 ^ 53 -> 0 <= r2 <= 2 ^ 53 ->
  (E1 = E2 /\ r1 <= r2) \/ (E1 < E2 /\ 2 ^ 52 <= r2) ->
  Float64.leb (finish false r1 E1) (finish false r2 E2) = true.
Proof.
  intros HE1 HE2 Hr1 Hr2 H.
  assert (C1 : r1 = 0 \/ (exists p, r1 = Zpos p /\ Zpos p < 2 ^ 53)
               \/ r1 = 2 ^ 53).
  { destruct r1 as [| p |]; [auto | | lia].
    destruct (Z.eq_dec (Zpos p) (2 ^ 53)); [auto |].
    right; left. exists p. split; [reflexivity | lia]. }
  assert (C2 : r2 = 0 \/ (exists p, r2 = Zpos p /\ Zpos p < 2 ^ 53)
               \/ r2 = 2 ^ 53).
  { destruct r2 as [| p |]; [auto | | lia].
    destruct (Z.eq_dec (Zpos p) (2 ^ 53)); [auto |].
    right; left. exists p. split; [reflexivity | lia]. }
  destruct C1 as [-> | [(p1 & -> & Hp1) | ->]];
    destruct C2 as [-> | [(p2 & -> & Hp2) | ->]];
    rewrite ?finish_zero, ?finish_small, ?finish_carry by assumption;
    repeat match goal with
           | |- context [?a <=? ?b] => destruct (Z.leb_spec a b)
           end;
    try (eapply leb_intro; [reflexivity | reflexivity |];
         apply not_lex_Lt; cbn; lia).
Qed.

Lemma grid_nonneg (K V : Z) : 1074 <= K -> 0 <= grid K V.
Proof. unfold grid. lia. Qed.

Lemma div_grid_lt (K V : Z) :
  1074 <= K -> 0 < V -> V / 2 ^ grid K V < 2 ^ 53.
Proof.
  intros HK HV.
  pose proof (grid_nonneg V HK) as HG.
  apply Z.div_lt_upper_bound; [apply pow2_pos; exact HG |].
  rewrite <- Z.pow_add_r by lia.
  pose proof (Z.log2_spec V HV) as [_ Hlt].
  eapply Z.lt_le_trans; [exact Hlt |].
  apply Z.pow_le_mono_r; [lia |]. unfold grid. lia.
Qed.

Lemma div_grid_ge (K V : Z) :
  1074 <= K -> 0 < V -> K - 1074 < grid K V -> 2 ^ 52 <= V / 2 ^ grid K V.
Proof.
  intros HK HV Hn.
  pose proof (grid_nonneg V HK) as HG.
  assert (HGe : grid K V = Z.log2 V + 1 - 53) by (unfold grid in *; lia).
  apply Z.div_le_lower_bound; [apply pow2_pos; exact HG |].
  rewrite <- Z.pow_add_r by lia.
  pose proof (Z.log2_spec V HV) as [Hle _].
  eapply Z.le_trans; [| exact Hle].
  apply Z.pow_le_mono_r; lia.
Qed.

Lemma rne_grid_bounds (K V : Z) :
  1074 <= K -> 0 < V -> 0 <= rne V (grid K V) <= 2 ^ 53.
Proof.
  intros HK HV.
  pose proof (grid_nonneg V HK) as HG.
  pose proof (rne_bounds (V := V) (G := grid K V) ltac:(lia) HG).
  pose proof (div_grid_lt HK HV).
  assert (0 <= V / 2 ^ grid K V)
    by (apply Z.div_pos; [lia | apply pow2_pos; exact HG]).
  lia.
Qed.

Lemma grid_mono (K V1 V2 : Z) : 0 < V1 <= V2 -> grid K V1 <= grid K V2.
Proof.
  intros [H1 H2]. unfold grid.
  pose proof (Z.log2_le_mono V1 V2 H2). lia.
Qed.

Theorem rounded_mono (K V1 V2 : Z) :
  1074 <= K -> 0 < V1 <= V2 ->
  Float64.leb (rounded false K V1) (rounded false K V2) = true.
Proof.
  intros HK HV. unfold rounded.
  pose proof (grid_nonneg V1 HK) as HG1.
  pose proof (grid_nonneg V2 HK) as HG2.
  pose proof (grid_mono K HV) as HG.
  apply finish_le.
  - unfold grid. lia.
  - unfold grid. lia.
  - apply rne_grid_bounds; lia.
  - apply rne_grid_bounds; lia.
  - destruct (Z.eq_dec (grid K V1) (grid K V2)) as [E | E].
    + left. split; [lia |]. rewrite E. apply rne_mono; lia.
    + right. split; [lia |].
      pose proof (@div_grid_ge K V2 HK ltac:(lia)) as Hge.
      assert (K - 1074 < grid K V2) by (unfold grid in *; lia).
      pose proof (rne_bounds (V := V2) (G := grid K V2) ltac:(lia) HG2).
      specialize (Hge H). lia.
Qed.

(** ** The shape of a rounding: sign kept, never NaN *)

Lemma shr_1_nonneg (st : shr_record) :
  0 <= shr_m st -> 0 <= shr_m (shr_1 st).
Proof.
  destruct st as [m r s]. cbn [shr_m]. intro Hm.
  rewrite shr_1_spec by exact Hm. cbn [shr_m].
  apply Z.div_pos; lia.
Qed.

Lemma iter_shr_nonneg (n : nat) (st : shr_record) :
  0 <= shr_m st -> 0 <= shr_m (Nat.iter n shr_1 st).
Proof.
  intro H. induction n as [| n IH]; [exact H |].
  rewrite Nat.iter_succ. apply shr_1_nonneg. exact IH.
Qed.

Lemma shr_nonneg (st : shr_record) (e n : Z) :
  0 <= shr_m st -> 0 <= shr_m (fst (shr st e n)).
Proof.
  intro H. unfold shr. destruct n; cbn [fst]; try exact H.
  rewrite iter_pos_nat. apply iter_shr_nonneg. exact H.
Qed.

Lemma shr_record_of_loc_m (m : Z) (l : location) :
  shr_m (shr_record_of_loc m l) = m.
Proof. destruct l as [| []]; reflexivity. Qed.

Lemma round_nearest_even_nonneg (m : Z) (l : location) :
  0 <= m -> 0 <= round_nearest_even m l.
Proof.
  intro H. destruct l as [| []]; cbn; try lia.
  destruct (Z.even m); lia.
Qed.

Lemma round_aux_signed (s : bool) (m e : Z) (l : location) :
  0 <= m -> signed s (binary_round_aux Float64.prec Float64.emax s m e l) = true.
Proof.
  intro Hm. unfold binary_round_aux, shr_fexp.
  destruct (shr (shr_record_of_loc m l) e _) as [st e'] eqn:E1.
  assert (H1 : 0 <= shr_m st).
  { replace st with (fst (shr (shr_record_of_loc m l) e
        (fexp Float64.prec Float64.emax (Zdigits2 m + e) - e))) by (rewrite E1; reflexivity).
    apply shr_nonneg. rewrite shr_record_of_loc_m. exact Hm. }
  set (q := round_nearest_even (shr_m st) (loc_of_shr_record st)).
  assert (Hq : 0 <= q) by (apply round_nearest_even_nonneg; exact H1).
  destruct (shr (shr_record_of_loc q loc_Exact) e' _) as [st' e''] eqn:E2.
  assert (H2 : 0 <= shr_m st').
  { replace st' with (fst (shr (shr_record_of_loc q loc_Exact) e'
        (fexp Float64.prec Float64.emax (Zdigits2 q + e') - e'))) by (rewrite E2; reflexivity).
    apply shr_nonneg. exact Hq. }
  destruct (shr_m st'); [| | lia].
  - cbn. apply Bool.eqb_reflx.
  - destruct (e'' <=? Float64.emax - Float64.prec); cbn; apply Bool.eqb_reflx.
Qed.

(** ** [binary_round] and [binary_normalize] by value *)

Lemma iter_xO (m d : positive) :
  Zpos (Pos.iter xO m d) = Zpos m * 2 ^ Zpos d.
Proof.
  induction d as [| d IH] using Pos.peano_ind.
  - cbn [Pos.iter]. rewrite Z.pow_1_r. lia.
  - rewrite Pos.iter_succ, Pos2Z.inj_xO, IH.
    rewrite Pos2Z.inj_succ, Z.pow_succ_r by lia. lia.
Qed.

Lemma shl_align_spec (m : positive) (e e' : Z) :
  e' <= e ->
  Zpos (fst (shl_align m e e')) = Zpos m * 2 ^ (e - e')
  /\ snd (shl_align m e e') = e'.
Proof.
  intro H. unfold shl_align.
  destruct (e' - e) as [| d | d] eqn:E; cbn [fst snd].
  - replace (e - e') with 0 by lia. rewrite Z.pow_0_r. lia.
  - lia.
  - rewrite iter_xO. replace (e - e') with (Zpos d) by lia. lia.
Qed.

Lemma round_value (s : bool) (m : positive) (e K : Z) :
  1074 <= K -> 0 <= e + K ->
  binary_round Float64.prec Float64.emax s m e = rounded s K (Zpos m * 2 ^ (e + K)).
Proof.
  intros HK He. unfold binary_round, rounded.
  set (f := fexp Float64.prec Float64.emax (Zpos (digits2_pos m) + e)).
  assert (Hf : -1074 <= f) by (subst f; rewrite fexp_eq; lia).
  destruct (Z_le_gt_dec f e) as [Hle | Hgt].
  - destruct (shl_align_spec m Hle) as [Hm He'].
    destruct (shl_align m e f) as [mz ez]. cbn [fst snd] in Hm, He'. subst ez.
    assert (Hd : Zpos (digits2_pos mz) + f = Zpos (digits2_pos m) + e).
    { rewrite !digits_log2, Hm, Z.log2_mul_pow2 by lia. lia. }
    rewrite (@round_aux_value s mz f K) by (rewrite ?Hd; fold f; lia).
    rewrite Hm, <- Z.mul_assoc, <- Z.pow_add_r by lia.
    replace (e - f + (f + K)) with (e + K) by lia. reflexivity.
  - assert (Hsh : shl_align m e f = (m, e)).
    { unfold shl_align. destruct (f - e) eqn:E; try reflexivity. lia. }
    rewrite Hsh.
    apply round_aux_value; [exact He | fold f; lia].
Qed.

Lemma finish_opp (s : bool) (q E : Z) :
  finish (negb s) q E = SFopp (finish s q E).
Proof.
  unfold finish. destruct (shr_fexp Float64.prec Float64.emax q E loc_Exact) as [st e''].
  destruct (shr_m st); cbn; try reflexivity.
  destruct (e'' <=? _); reflexivity.
Qed.

Lemma rounded_opp (K V : Z) :
  rounded true K V = SFopp (rounded false K V).
Proof. apply (@finish_opp false). Qed.

(** ** Rounding a signed value *)

Lemma normalize_value (M e K : Z) :
  1074 <= K -> 0 <= e + K ->
  binary_normalize Float64.prec Float64.emax M e false = rounded_Z K (M * 2 ^ (e + K)).
Proof.
  intros HK He. pose proof (pow2_pos He) as Hp.
  unfold binary_normalize, rounded_Z.
  destruct M as [| m | m].
  - reflexivity.
  - rewrite (@round_value false m e K HK He).
    destruct (Zpos m * 2 ^ (e + K)) eqn:E; try lia. reflexivity.
  - rewrite (@round_value true m e K HK He).
    destruct (Zneg m * 2 ^ (e + K)) eqn:E; try lia.
    f_equal. lia.
Qed.

Lemma finish_signed (s : bool) (q E : Z) :
  -1074 <= E -> 0 <= q <= 2 ^ 53 -> signed s (finish s q E) = true.
Proof.
  intros HE Hq.
  destruct q as [| p |]; [| | lia].
  - rewrite finish_zero by exact HE. apply Bool.eqb_reflx.
  - destruct (Z.eq_dec (Zpos p) (2 ^ 53)) as [-> | Hne].
    + rewrite finish_carry by exact HE.
      destruct (_ <=? _); apply Bool.eqb_reflx.
    + rewrite finish_small by lia.
      destruct (_ <=? _); apply Bool.eqb_reflx.
Qed.

Lemma rounded_signed (s : bool) (K V : Z) :
  1074 <= K -> 0 < V -> signed s (rounded s K V) = true.
Proof.
  intros HK HV. apply finish_signed.
  - unfold grid. lia.
  - apply rne_grid_bounds; assumption.
Qed.

Lemma leb_signed (a b : float) :
  signed true a = true -> signed false b = true -> Float64.leb a b = true.
Proof.
  destruct a as [[] | [] | | [] ? ?]; try discriminate;
    destruct b as [[] | [] | | [] ? ?]; try discriminate; reflexivity.
Qed.

Lemma leb_zero_l (s : bool) (b : float) :
  signed false b = true -> Float64.leb (S754_zero s) b = true.
Proof.
  destruct b as [[] | [] | | [] ? ?]; try discriminate; reflexivity.
Qed.

Lemma leb_zero_r (a : float) (s : bool) :
  signed true a = true -> Float64.leb a (S754_zero s) = true.
Proof.
  destruct a as [[] | [] | | [] ? ?]; try discriminate; reflexivity.
Qed.

Lemma key_opp (x : float) : key (SFopp x) = option_map neg3 (key x).
Proof.
  destruct x as [[] | [] | | [] m e]; cbn; try reflexivity.
  unfold neg3; cbn. rewrite Z.opp_involutive. reflexivity.
Qed.

Lemma lex_neg3 a b : lex (neg3 a) (neg3 b) = lex b a.
Proof.
  unfold lex, neg3; cbn. rewrite !Z.compare_opp. reflexivity.
Qed.

Lemma leb_opp (a b : float) :
  Float64.leb (SFopp a) (SFopp b) = Float64.leb b a.
Proof.
  unfold Float64.leb, SFleb. rewrite !compare_key, !key_opp.
  destruct (key a), (key b); cbn; try reflexivity.
  rewrite lex_neg3. reflexivity.
Qed.

Theorem rounded_Z_mono (K V1 V2 : Z) :
  1074 <= K -> V1 <= V2 ->
  Float64.leb (rounded_Z K V1) (rounded_Z K V2) = true.
Proof.
  intros HK HV. unfold rounded_Z.
  destruct V1 as [| p1 | p1], V2 as [| p2 | p2]; try lia.
  - reflexivity.
  - apply leb_zero_l. apply rounded_signed; lia.
  - apply rounded_mono; lia.
  - apply leb_zero_r. apply rounded_signed; lia.
  - apply leb_signed; apply rounded_signed; lia.
  - rewrite !rounded_opp, leb_opp. apply rounded_mono; lia.
Qed.

(** ** Valid floats *)

Lemma canonical_iff (m : positive) (e : Z) :
  canonical_mantissa Float64.prec Float64.emax m e = true
  <-> Z.max (Zpos (digits2_pos m) + e - 53) (-1074) = e.
Proof. unfold canonical_mantissa. rewrite fexp_eq. apply Z.eqb_eq. Qed.

Lemma digits_le_53 (p : positive) :
  Zpos p < 2 ^ 53 -> Zpos (digits2_pos p) <= 53.
Proof.
  intro H. pose proof (digits_bounds p) as Hd.
  assert (Zpos (digits2_pos p) - 1 < 53); [| lia].
  apply pow2_lt_inv; lia.
Qed.

Lemma digits_ge_53 (p : positive) :
  2 ^ 52 <= Zpos p -> 53 <= Zpos (digits2_pos p).
Proof.
  intro H. pose proof (digits_bounds p) as Hd.
  assert (52 < Zpos (digits2_pos p)); [| lia].
  apply pow2_lt_inv; lia.
Qed.

Lemma lt_pow2_53 (p : positive) :
  Zpos (digits2_pos p) <= 53 -> Zpos p < 2 ^ 53.
Proof.
  intro H. pose proof (digits_bounds p) as [_ Hd].
  eapply Z.lt_le_trans; [exact Hd |]. apply Z.pow_le_mono_r; lia.
Qed.

Lemma ge_pow2_52 (p : positive) :
  53 <= Zpos (digits2_pos p) -> 2 ^ 52 <= Zpos p.
Proof.
  intro H. pose proof (digits_bounds p) as [Hd _].
  eapply Z.le_trans; [| exact Hd]. apply Z.pow_le_mono_r; lia.
Qed.

Lemma rounded_valid (s : bool) (K V : Z) :
  1074 <= K -> 0 < V -> Float64.valid (rounded s K V) = true.
Proof.
  intros HK HV. unfold rounded.
  pose proof (rne_grid_bounds HK HV) as Hr.
  pose proof (grid_nonneg V HK) as HG.
  set (G := grid K V) in *. set (r := rne V G) in *.
  assert (HE : -1074 <= G - K) by (subst G; unfold grid; lia).
  destruct r as [| p |] eqn:Er; [| | lia].
  - rewrite finish_zero by exact HE. reflexivity.
  - destruct (Z.eq_dec (Zpos p) (2 ^ 53)) as [E53 | Hne].
    + rewrite E53, finish_carry by exact HE.
      destruct (Z.leb_spec (G - K + 1) 971); [| reflexivity].
      unfold Float64.valid, valid_binary, bounded. apply andb_true_intro. split.
      * apply canonical_iff. change (Zpos (digits2_pos (2 ^ 52))) with 53. lia.
      * apply Z.leb_le. change (Float64.emax - Float64.prec) with 971. lia.
    + rewrite finish_small by lia.
      destruct (Z.leb_spec (G - K) 971); [| reflexivity].
      unfold Float64.valid, valid_binary, bounded. apply andb_true_intro. split.
      * apply canonical_iff.
        pose proof (@digits_le_53 p ltac:(lia)).
        destruct (Z.eq_dec G (K - 1074)) as [EG | EG]; [lia |].
        assert (Hn : K - 1074 < grid K V) by (fold G; subst G; unfold grid in *; lia).
        pose proof (div_grid_ge HK HV Hn) as Hq.
        pose proof (rne_bounds (V := V) (G := grid K V) ltac:(lia) HG) as Hb.
        fold G in Hq, Hb. fold r in Hb. rewrite Er in Hb.
        pose proof (@digits_ge_53 p ltac:(lia)). lia.
      * apply Z.leb_le. change (Float64.emax - Float64.prec) with 971. lia.
Qed.

(** A Float64.valid Float64.is_finite float is the rounding of its own value. *)
Lemma round_valid_id (s : bool) (m : positive) (e : Z) :
  Float64.valid (S754_finite s m e) = true ->
  binary_round Float64.prec Float64.emax s m e = S754_finite s m e.
Proof.
  unfold Float64.valid, valid_binary, bounded. intro H.
  apply andb_prop in H. destruct H as [Hc Hb].
  pose proof Hc as Hc'. unfold canonical_mantissa in Hc'.
  apply Z.eqb_eq in Hc'.
  unfold binary_round. rewrite Hc'.
  assert (Hsh : shl_align m e e = (m, e)).
  { unfold shl_align. rewrite Z.sub_diag. reflexivity. }
  rewrite Hsh. unfold binary_round_aux, shr_fexp, shr. cbn [Zdigits2].
  rewrite Hc', Z.sub_diag.
  cbn [shr_record_of_loc shr_m loc_of_shr_record round_nearest_even Zdigits2].
  rewrite Hc', Z.sub_diag. cbn [shr_m]. rewrite Hb. reflexivity.
Qed.

Lemma valid_exponent (s : bool) (m : positive) (e : Z) :
  Float64.valid (S754_finite s m e) = true -> -1074 <= e.
Proof.
  unfold Float64.valid, valid_binary, bounded. intro H.
  apply andb_prop in H. destruct H as [Hc _].
  apply canonical_iff in Hc. lia.
Qed.

Lemma canonical_order (K : Z) (m1 m2 : positive) (e1 e2 : Z) :
  1074 <= K ->
  canonical_mantissa Float64.prec Float64.emax m1 e1 = true ->
  canonical_mantissa Float64.prec Float64.emax m2 e2 = true ->
  (e1 < e2 \/ (e1 = e2 /\ Zpos m1 < Zpos m2)) ->
  Zpos m1 * 2 ^ (e1 + K) < Zpos m2 * 2 ^ (e2 + K).
Proof.
  intros HK H1 H2 H. apply canonical_iff in H1. apply canonical_iff in H2.
  destruct H as [Hlt | [-> Hm]].
  - assert (Hd1 : Zpos (digits2_pos m1) <= 53) by lia.
    assert (Hd2 : 53 <= Zpos (digits2_pos m2)) by lia.
    pose proof (lt_pow2_53 m1 Hd1) as Hm1.
    pose proof (ge_pow2_52 m2 Hd2) as Hm2.
    assert (Hp1 : 0 < 2 ^ (e1 + K)) by (apply pow2_pos; lia).
    assert (Hp : 2 ^ (e2 + K) = 2 ^ (e1 + K) * 2 ^ (e2 - e1))
      by (rewrite <- Z.pow_add_r by lia; f_equal; lia).
    assert (Hp2 : 2 <= 2 ^ (e2 - e1)).
    { change 2 with (2 ^ 1) at 1. apply Z.pow_le_mono_r; lia. }
    rewrite Hp. nia.
  - assert (Hp1 : 0 < 2 ^ (e2 + K)) by (apply pow2_pos; lia). nia.
Qed.

Theorem ltb_value (K : Z) (x y : float) :
  1074 <= K ->
  Float64.valid x = true -> Float64.valid y = true ->
  Float64.is_finite x = true -> Float64.is_finite y = true ->
  Float64.ltb x y = true -> fvalue K x < fvalue K y.
Proof.
  intros HK Vx Vy Fx Fy H. apply ltb_key in H.
  destruct H as (a & b & Ha & Hb & Hlt). apply lex_Lt in Hlt.
  destruct x as [sx | sx | | sx mx ex]; try discriminate;
    destruct y as [sy | sy | | sy my ey]; try discriminate;
    cbn [fvalue].
  - inversion Ha; inversion Hb; subst. cbn in Hlt. lia.
  - pose proof (valid_exponent _ _ _ Vy).
    pose proof (@pow2_pos (ey + K) ltac:(lia)).
    destruct sy; inversion Ha; inversion Hb; subst; cbn in Hlt; cbn [cond_Zopp]; try lia; try nia.
  - pose proof (valid_exponent _ _ _ Vx).
    pose proof (@pow2_pos (ex + K) ltac:(lia)).
    destruct sx; inversion Ha; inversion Hb; subst; cbn in Hlt; cbn [cond_Zopp]; try lia; try nia.
  - pose proof (valid_exponent _ _ _ Vx). pose proof (valid_exponent _ _ _ Vy).
    pose proof (@pow2_pos (ex + K) ltac:(lia)).
    pose proof (@pow2_pos (ey + K) ltac:(lia)).
    unfold Float64.valid, valid_binary, bounded in Vx, Vy.
    apply andb_prop in Vx. apply andb_prop in Vy.
    destruct Vx as [Cx _], Vy as [Cy _].
    destruct sx, sy; inversion Ha; inversion Hb; subst; cbn in Hlt; cbn [cond_Zopp];
      try lia.
    + assert (Zpos my * 2 ^ (ey + K) < Zpos mx * 2 ^ (ex + K)); [| lia].
      apply canonical_order; try assumption. lia.
    + apply canonical_order; try assumption. lia.
Qed.

Theorem leb_value (K : Z) (x y : float) :
  1074 <= K ->
  Float64.valid x = true -> Float64.valid y = true ->
  Float64.is_finite x = true -> Float64.is_finite y = true ->
  Float64.leb x y = true -> fvalue K x <= fvalue K y.
Proof.
  intros HK Vx Vy Fx Fy H.
  destruct (leb_total_or _ _ H) as [Hlt | Heq].
  - pose proof (@ltb_value K x y HK Vx Vy Fx Fy Hlt). lia.
  - apply eqb_key in Heq. destruct Heq as (a & Ha & Hb).
    destruct x as [sx | sx | | sx mx ex]; try discriminate;
      destruct y as [sy | sy | | sy my ey]; try discriminate;
      cbn [fvalue]; try lia.
    + destruct sy; cbn in Ha, Hb; congruence.
    + destruct sx; cbn in Ha, Hb; congruence.
    + destruct sx, sy; cbn in Ha, Hb; try congruence.
      * inversion Ha; subst a. inversion Hb.
        assert (ey = ex) by lia. subst. cbn. lia.
      * inversion Ha; subst a. inversion Hb. subst. lia.
Qed.

(** ** Addition by value *)

Lemma rounded_Z_id (K : Z) (x : float) :
  1074 <= K -> Float64.valid x = true ->
  match x with S754_finite _ _ _ => True | _ => False end ->
  rounded_Z K (fvalue K x) = x.
Proof.
  intros HK Vx Hx. destruct x as [| | | s m e]; try contradiction.
  pose proof (valid_exponent _ _ _ Vx) as He.
  pose proof (@pow2_pos (e + K) ltac:(lia)) as Hp.
  cbn [fvalue]. unfold rounded_Z.
  destruct s; cbn [cond_Zopp].
  - destruct (- (Zpos m * 2 ^ (e + K))) as [| p | p] eqn:E; try nia.
    replace (Zpos p) with (Zpos m * 2 ^ (e + K)) by lia.
    rewrite <- round_value by lia. apply round_valid_id. exact Vx.
  - destruct (Zpos m * 2 ^ (e + K)) as [| p | p] eqn:E; try nia.
    rewrite <- E, <- round_value by lia. apply round_valid_id. exact Vx.
Qed.

Lemma aligned_value (K : Z) (s : bool) (m : positive) (e ez : Z) :
  ez <= e -> 0 <= ez + K ->
  cond_Zopp s (Zpos (fst (shl_align m e ez))) * 2 ^ (ez + K)
  = cond_Zopp s (Zpos m * 2 ^ (e + K)).
Proof.
  intros Hle HK. destruct (shl_align_spec m Hle) as [-> _].
  replace (e + K) with (e - ez + (ez + K)) by lia.
  rewrite (Z.pow_add_r 2 (e - ez) (ez + K)) by lia.
  destruct s; cbn [cond_Zopp]; ring.
Qed.

Lemma add_key (K : Z) (x l : float) :
  1074 <= K ->
  Float64.valid x = true -> Float64.valid l = true ->
  Float64.is_finite x = true -> Float64.is_finite l = true ->
  key (Float64.add x l) = key (rounded_Z K (fvalue K x + fvalue K l)).
Proof.
  intros HK Vx Vl Fx Fl.
  destruct x as [sx | sx | | sx mx ex]; try discriminate;
    destruct l as [sl | sl | | sl ml el]; try discriminate.
  - destruct sx, sl; reflexivity.
  - change (Float64.add (S754_zero sx) (S754_finite sl ml el))
      with (S754_finite sl ml el).
    change (fvalue K (S754_zero sx)) with 0. rewrite Z.add_0_l.
    rewrite rounded_Z_id; [reflexivity | exact HK | exact Vl | exact I].
  - change (Float64.add (S754_finite sx mx ex) (S754_zero sl))
      with (S754_finite sx mx ex).
    change (fvalue K (S754_zero sl)) with 0. rewrite Z.add_0_r.
    rewrite rounded_Z_id; [reflexivity | exact HK | exact Vx | exact I].
  - pose proof (valid_exponent _ _ _ Vx). pose proof (valid_exponent _ _ _ Vl).
    unfold Float64.add, SFadd. cbv zeta.
    rewrite (@normalize_value _ (Z.min ex el) K HK ltac:(lia)).
    rewrite Z.mul_add_distr_r.
    rewrite !aligned_value by lia. reflexivity.
Qed.

Lemma leb_by_key (a a' b b' : float) :
  key a = key a' -> key b = key b' ->
  Float64.leb a b = Float64.leb a' b'.
Proof.
  intros Ha Hb. unfold Float64.leb, SFleb.
  rewrite !compare_key, Ha, Hb. reflexivity.
Qed.

Lemma leb_inf_r (a : float) :
  a <> S754_nan -> Float64.leb a (S754_infinity false) = true.
Proof. destruct a as [[] | [] | | [] ? ?]; intro H; try reflexivity. contradiction. Qed.

Lemma key_not_nan (a : float) k : key a = Some k -> a <> S754_nan.
Proof. intros H E. subst a. discriminate. Qed.

Lemma rounded_Z_key (K V : Z) :
  1074 <= K -> exists k, key (rounded_Z K V) = Some k.
Proof.
  intro HK. unfold rounded_Z. destruct V as [| p | p].
  - eexists; reflexivity.
  - pose proof (@rounded_signed false K (Zpos p) HK ltac:(lia)) as H.
    destruct (rounded false K (Zpos p)) as [[] | [] | | [] ? ?];
      try discriminate; eexists; reflexivity.
  - pose proof (@rounded_signed true K (Zpos p) HK ltac:(lia)) as H.
    destruct (rounded true K (Zpos p)) as [[] | [] | | [] ? ?];
      try discriminate; eexists; reflexivity.
Qed.

(** Adding a Float64.is_finite number is monotone on non-negative numbers. *)
Theorem add_mono (x1 x2 l : float) :
  Float64.valid x1 = true -> Float64.valid x2 = true -> Float64.valid l = true ->
  signed false x1 = true -> signed false x2 = true ->
  Float64.is_finite l = true ->
  Float64.leb x1 x2 = true ->
  Float64.leb (Float64.add x1 l) (Float64.add x2 l) = true.
Proof.
  intros V1 V2 Vl S1 S2 Fl H.
  set (K := 1074).
  assert (HK : 1074 <= K) by (subst K; lia).
  assert (Hinf : forall x, Float64.is_finite x = true ->
                   Float64.valid x = true -> Float64.add x l <> S754_nan).
  { intros x Fx Vx.
    destruct (@rounded_Z_key K (fvalue K x + fvalue K l) HK) as [k Hk].
    rewrite <- (@add_key K x l HK Vx Vl Fx Fl) in Hk.
    eapply key_not_nan; exact Hk. }
  destruct (Float64.is_finite x2) eqn:F2.
  - destruct (Float64.is_finite x1) eqn:F1.
    + rewrite (@leb_by_key _ _ _ _ (@add_key K x1 l HK V1 Vl F1 Fl)
                         (@add_key K x2 l HK V2 Vl F2 Fl)).
      apply rounded_Z_mono; [exact HK |].
      pose proof (@leb_value K x1 x2 HK V1 V2 F1 F2 H). lia.
    + destruct x1 as [| [] | |]; try discriminate.
      destruct x2 as [[] | [] | | [] ? ?]; discriminate.
  - destruct x2 as [| [] | |]; try discriminate.
    assert (E : Float64.add (S754_infinity false) l = S754_infinity false)
      by (destruct l as [| | |]; try discriminate; reflexivity).
    rewrite E.
    destruct (Float64.is_finite x1) eqn:F1.
    + apply leb_inf_r. apply Hinf; assumption.
    + destruct x1 as [| [] | |]; try discriminate.
      rewrite E. reflexivity.
Qed.

(** ** Steps as floats *)

Lemma of_Z_shapes : forallb of_Z_shape (map Z.of_nat (seq 1 1000)) = true.
Proof. vm_compute. reflexivity. Qed.

Lemma of_Z_step (s : Z) :
  1 <= s <= 1000 ->
  exists m e,
    Float64.of_Z s = S754_finite false m e
    /\ 2 ^ 52 <= Zpos m /\ -52 <= e <= 0
    /\ Zpos m * 2 ^ (e + 52) = s * 2 ^ 52.
Proof.
  intro Hs. pose proof of_Z_shapes as H.
  rewrite forallb_forall in H.
  assert (Hin : In s (map Z.of_nat (seq 1 1000))).
  { apply in_map_iff. exists (Z.to_nat s). split; [lia |].
    apply in_seq. lia. }
  specialize (H s Hin). unfold of_Z_shape in H.
  destruct (Float64.of_Z s) as [| | | [] m e]; try discriminate.
  exists m, e. split; [reflexivity |].
  apply andb_prop in H. destruct H as [H H4].
  apply andb_prop in H. destruct H as [H H3].
  apply andb_prop in H. destruct H as [H1 H2].
  apply Z.leb_le in H1, H2, H3. apply Z.eqb_eq in H4.
  repeat split; assumption.
Qed.

Lemma mul_step (K s : Z) (mc : positive) (ec : Z) :
  1 <= s <= 1000 -> 1074 <= K -> 52 <= ec + K ->
  Float64.mul (Float64.of_Z s) (S754_finite false mc ec)
  = rounded false K (s * (Zpos mc * 2 ^ (ec + K))).
Proof.
  intros Hs HK Hec.
  destruct (of_Z_step Hs) as (m & e & -> & Hm & He & Hv).
  assert (HV : Zpos (m * mc) * 2 ^ (e + ec + K)
               = s * (Zpos mc * 2 ^ (ec + K))).
  { rewrite Pos2Z.inj_mul.
    replace (e + ec + K) with (e + 52 + (ec + K - 52)) by lia.
    rewrite Z.pow_add_r by lia.
    replace (2 ^ (ec + K)) with (2 ^ 52 * 2 ^ (ec + K - 52))
      by (rewrite <- Z.pow_add_r by lia; f_equal; lia).
    transitivity (Zpos m * 2 ^ (e + 52) * (Zpos mc * 2 ^ (ec + K - 52)));
      [ring | rewrite Hv; ring]. }
  unfold Float64.mul, SFmul. cbn [xorb].
  rewrite (@round_aux_value false (m * mc) (e + ec) K).
  - rewrite HV. reflexivity.
  - lia.
  - rewrite fexp_eq.
    assert (53 <= Zpos (digits2_pos (m * mc))); [| lia].
    apply digits_ge_53. rewrite Pos2Z.inj_mul. nia.
Qed.

Lemma of_Z_0 : Float64.of_Z 0 = S754_zero false.
Proof. reflexivity. Qed.

(** The product of a step and a non-negative Float64.is_finite scale. *)
Lemma mul_nonneg (s : Z) (c : float) :
  0 <= s <= 1000 -> signed false c = true -> Float64.is_finite c = true ->
  signed false (Float64.mul (Float64.of_Z s) c) = true /\ Float64.valid (Float64.mul (Float64.of_Z s) c) = true.
Proof.
  intros Hs Sc Fc.
  destruct (Z.eq_dec s 0) as [-> | Hne].
  - rewrite of_Z_0.
    destruct c as [[] | [] | | [] mc ec]; try discriminate; split; reflexivity.
  - destruct c as [[] | [] | | [] mc ec]; try discriminate.
    + destruct (@of_Z_step s ltac:(lia)) as (m & e & -> & _).
      split; reflexivity.
    + set (K := 1126 + Z.abs ec).
      rewrite (@mul_step K s mc ec) by (subst K; lia).
      assert (0 < 2 ^ (ec + K)) by (apply pow2_pos; subst K; lia).
      split; [apply rounded_signed | apply rounded_valid];
        try (subst K; lia); nia.
Qed.

Theorem mul_mono (s1 s2 : Z) (c : float) :
  0 <= s1 <= s2 -> s2 <= 1000 ->
  signed false c = true -> Float64.is_finite c = true ->
  Float64.leb (Float64.mul (Float64.of_Z s1) c) (Float64.mul (Float64.of_Z s2) c) = true.
Proof.
  intros Hs Hs2 Sc Fc.
  destruct (Z.eq_dec s1 0) as [E1 | N1].
  - subst s1. destruct (@mul_nonneg s2 c ltac:(lia) Sc Fc) as [S2 _].
    rewrite of_Z_0.
    assert (E : exists z, Float64.mul (S754_zero false) c = S754_zero z).
    { destruct c as [[] | [] | | [] mc ec]; try discriminate;
        eexists; reflexivity. }
    destruct E as [z ->]. apply leb_zero_l. exact S2.
  - destruct c as [[] | [] | | [] mc ec]; try discriminate.
    + destruct (@of_Z_step s1 ltac:(lia)) as (m1 & e1 & -> & _).
      destruct (@of_Z_step s2 ltac:(lia)) as (m2 & e2 & -> & _).
      reflexivity.
    + set (K := 1126 + Z.abs ec).
      rewrite (@mul_step K s1 mc ec), (@mul_step K s2 mc ec)
        by (subst K; lia).
      assert (0 < 2 ^ (ec + K)) by (apply pow2_pos; subst K; lia).
      apply rounded_mono; [subst K; lia | nia].
Qed.

(** ** The sign of the scale *)

Lemma binary_round_signed (s : bool) (m : positive) (e : Z) :
  signed s (binary_round Float64.prec Float64.emax s m e) = true.
Proof.
  unfold binary_round. destruct (shl_align m e _) as [mz ez].
  apply round_aux_signed. lia.
Qed.

Lemma sub_signed (low high : float) :
  Float64.valid low = true -> Float64.valid high = true ->
  Float64.is_finite low = true -> Float64.is_finite high = true ->
  Float64.ltb low high = true ->
  signed false (Float64.sub high low) = true.
Proof.
  intros Vl Vh Fl Fh Hlt.
  pose proof (@ltb_value 1074 low high ltac:(lia) Vl Vh Fl Fh Hlt) as Hv.
  destruct low as [sl | sl | | sl ml el]; try discriminate;
    destruct high as [sh | sh | | sh mh eh]; try discriminate.
  - destruct sh; [| reflexivity].
    cbn [fvalue cond_Zopp] in Hv.
    pose proof (valid_exponent _ _ _ Vh).
    pose proof (@pow2_pos (eh + 1074) ltac:(lia)). nia.
  - destruct sl; [reflexivity |].
    cbn [fvalue cond_Zopp] in Hv.
    pose proof (valid_exponent _ _ _ Vl).
    pose proof (@pow2_pos (el + 1074) ltac:(lia)). nia.
  - pose proof (valid_exponent _ _ _ Vl). pose proof (valid_exponent _ _ _ Vh).
    unfold Float64.sub, SFsub. cbv zeta.
    set (ez := Z.min eh el).
    set (M := cond_Zopp sh (Zpos (fst (shl_align mh eh ez)))
              - cond_Zopp sl (Zpos (fst (shl_align ml el ez)))).
    assert (HM : M * 2 ^ (ez + 1074)
                 = fvalue 1074 (S754_finite sh mh eh)
                   - fvalue 1074 (S754_finite sl ml el)).
    { subst M. rewrite Z.mul_sub_distr_r.
      rewrite !aligned_value by (subst ez; lia). reflexivity. }
    pose proof (@pow2_pos (ez + 1074) ltac:(subst ez; lia)).
    assert (0 < M) by nia.
    destruct M as [| p | p]; try lia.
    cbn [binary_normalize]. apply binary_round_signed.
Qed.

Lemma div_signed (d : float) :
  signed false d = true ->
  signed false (Float64.div d (Float64.of_Z 1000)) = true.
Proof.
  intro Sd.
  change (Float64.of_Z 1000) with (S754_finite false 8796093022208000 (-43)).
  destruct d as [[] | [] | | [] md ed]; try discriminate; try reflexivity.
  unfold Float64.div, SFdiv, SFdiv_core_binary. cbv zeta.
  set (m' := match _ - _ with Z0 => _ | Zpos _ => _ | Zneg _ => _ end).
  assert (Hm' : 0 <= m').
  { subst m'. destruct (_ - _); try lia. apply Z.shiftl_nonneg. lia. }
  pose proof (Z_div_mod m' 8796093022208000 ltac:(lia)) as Hdm.
  destruct (Z.div_eucl m' 8796093022208000) as [q r].
  cbn [xorb]. apply round_aux_signed. nia.
Qed.

(** ** The value at a step is monotone *)

Theorem val_at_mono (low high : float) (s1 s2 : Z) :
  Float64.valid low = true -> Float64.valid high = true ->
  Float64.is_finite low = true -> Float64.is_finite high = true ->
  Float64.ltb low high = true ->
  Float64.is_finite (Float64.div (Float64.sub high low) (Float64.of_Z 1000)) = true ->
  0 <= s1 <= s2 -> s2 <= 1000 ->
  Float64.leb (Slider.val_at s1 (Float64.div (Float64.sub high low) (Float64.of_Z 1000)) low)
              (Slider.val_at s2 (Float64.div (Float64.sub high low) (Float64.of_Z 1000)) low) = true.
Proof.
  intros Vl Vh Fl Fh Hlt Fs Hs Hs2.
  set (scale := Float64.div (Float64.sub high low) (Float64.of_Z 1000)) in *.
  assert (Ss : signed false scale = true).
  { apply div_signed. apply sub_signed; assumption. }
  destruct (@mul_nonneg s1 scale ltac:(lia) Ss Fs) as [S1 V1].
  destruct (@mul_nonneg s2 scale ltac:(lia) Ss Fs) as [S2 V2].
  unfold Slider.val_at. apply add_mono; try assumption.
  apply mul_mono; assumption.
Qed.

(** ** Dividing by 1000 does not overflow *)

Lemma iter_shr_m (n : nat) (st : shr_record) :
  0 <= shr_m st ->
  shr_m (Nat.iter n shr_1 st) = shr_m st / 2 ^ Z.of_nat n.
Proof.
  intro H. induction n as [| n IH].
  - cbn [Nat.iter]. change (Z.of_nat 0) with 0. rewrite Z.pow_0_r, Z.div_1_r.
    reflexivity.
  - rewrite Nat.iter_succ.
    pose proof (iter_shr_nonneg n st H) as Hn.
    destruct (Nat.iter n shr_1 st) as [m r s]. cbn [shr_m] in IH, Hn.
    rewrite shr_1_spec by exact Hn. cbn [shr_m]. rewrite IH.
    rewrite Z.div_div by (try apply pow2_pos; lia).
    rewrite (Nat2Z.inj_succ n), Z.pow_succ_r by lia.
    f_equal. lia.
Qed.

Lemma shr_spec (st : shr_record) (e n : Z) :
  0 <= shr_m st ->
  shr_m (fst (shr st e n)) = shr_m st / 2 ^ Z.max n 0
  /\ snd (shr st e n) = e + Z.max n 0.
Proof.
  intro H. unfold shr. destruct n as [| p | p]; cbn [fst snd].
  - change (Z.max 0 0) with 0. rewrite Z.pow_0_r, Z.div_1_r. lia.
  - rewrite iter_pos_nat, iter_shr_m by exact H.
    rewrite positive_nat_Z. rewrite Z.max_l by lia. lia.
  - rewrite Z.max_r by lia. rewrite Z.pow_0_r, Z.div_1_r. lia.
Qed.

Lemma Zdigits2_le (x k : Z) : 0 <= k -> 0 <= x < 2 ^ k -> Zdigits2 x <= k.
Proof.
  intros Hk Hx. destruct x as [| p |]; cbn [Zdigits2]; [lia | | lia].
  pose proof (digits_bounds p) as [Hd _].
  assert (Zpos (digits2_pos p) - 1 < k); [| lia].
  apply pow2_lt_inv; lia.
Qed.

Lemma Zdigits2_nonneg (x : Z) : 0 <= x -> 0 <= Zdigits2 x.
Proof. destruct x; cbn; lia. Qed.

Lemma Zdigits2_lt (x : Z) : 0 <= x -> x < 2 ^ Zdigits2 x.
Proof.
  intro H. destruct x as [| p |]; cbn [Zdigits2]; [reflexivity | | lia].
  apply digits_bounds.
Qed.

Lemma round_nearest_even_le (m : Z) (l : location) :
  round_nearest_even m l <= m + 1.
Proof.
  destruct l as [| []]; cbn; try lia. destruct (Z.even m); lia.
Qed.

(** The exponent a rounding ends with. *)
Lemma round_aux_finite (s : bool) (m e : Z) (l : location) :
  0 <= m ->
  e <= 962 -> Zdigits2 m + e <= 1015 ->
  Float64.is_finite (binary_round_aux Float64.prec Float64.emax s m e l) = true.
Proof.
  intros Hm He HD.
  unfold binary_round_aux, shr_fexp.
  set (n := fexp Float64.prec Float64.emax (Zdigits2 m + e) - e).
  assert (Hn : n <= 962 - e) by (subst n; rewrite fexp_eq; lia).
  pose proof (@shr_spec (shr_record_of_loc m l) e n
                ltac:(rewrite shr_record_of_loc_m; exact Hm)) as [Hq He1].
  rewrite shr_record_of_loc_m in Hq.
  destruct (shr (shr_record_of_loc m l) e n) as [st e1].
  cbn [fst snd] in Hq, He1.
  set (q := round_nearest_even (shr_m st) (loc_of_shr_record st)).
  assert (Hst : 0 <= shr_m st)
    by (rewrite Hq; apply Z.div_pos; [exact Hm | apply pow2_pos; lia]).
  assert (Hq0 : 0 <= q) by (apply round_nearest_even_nonneg; exact Hst).
  assert (HDq : Zdigits2 q + e1 <= 1016).
  { pose proof (round_nearest_even_le (shr_m st) (loc_of_shr_record st)) as Hle.
    fold q in Hle.
    pose proof (Zdigits2_lt Hm) as Hlt.
    pose proof (Zdigits2_nonneg Hm) as Hdn.
    set (k := Z.max (Zdigits2 m - Z.max n 0) 0).
    assert (Hk : shr_m st < 2 ^ k).
    { rewrite Hq. subst k.
      apply Z.div_lt_upper_bound; [apply pow2_pos; lia |].
      rewrite <- Z.pow_add_r by lia.
      eapply Z.lt_le_trans; [exact Hlt |].
      apply Z.pow_le_mono_r; lia. }
    assert (Hk1 : q < 2 ^ (k + 1)).
    { rewrite Z.pow_add_r, Z.pow_1_r by (subst k; lia).
      pose proof (@pow2_pos k ltac:(subst k; lia)). lia. }
    pose proof (@Zdigits2_le q (k + 1) ltac:(subst k; lia) ltac:(lia)).
    subst k. lia. }
  set (n2 := fexp Float64.prec Float64.emax (Zdigits2 q + e1) - e1).
  pose proof (@shr_spec (shr_record_of_loc q loc_Exact) e1 n2
                ltac:(exact Hq0)) as [Hq2 He2].
  destruct (shr (shr_record_of_loc q loc_Exact) e1 n2) as [st2 e2].
  cbn [fst snd shr_record_of_loc shr_m] in Hq2, He2.
  assert (Hst2 : 0 <= shr_m st2)
    by (rewrite Hq2; apply Z.div_pos; [exact Hq0 | apply pow2_pos; lia]).
  destruct (shr_m st2) as [| p | p]; [reflexivity | | lia].
  assert (He2' : e2 <= 971)
    by (subst e2 n2; rewrite fexp_eq; lia).
  apply Z.leb_le in He2'. change (Float64.emax - Float64.prec) with 971. rewrite He2'.
  reflexivity.
Qed.

Lemma div_finite (d : float) :
  Float64.valid d = true -> Float64.is_finite d = true ->
  Float64.is_finite (Float64.div d (Float64.of_Z 1000)) = true.
Proof.
  intros Vd Fd.
  change (Float64.of_Z 1000) with (S754_finite false 8796093022208000 (-43)).
  destruct d as [sd | sd | | sd md ed]; try discriminate; [reflexivity |].
  unfold Float64.valid, valid_binary, bounded in Vd.
  apply andb_prop in Vd. destruct Vd as [Hc Hb].
  apply canonical_iff in Hc. apply Z.leb_le in Hb.
  change (Float64.emax - Float64.prec) with 971 in Hb.
  set (d1 := Zpos (digits2_pos md)) in *.
  assert (Hd1 : 1 <= d1 <= 53) by (subst d1; lia).
  unfold Float64.div, SFdiv, SFdiv_core_binary. cbv zeta.
  change (Zdigits2 (Zpos md)) with d1.
  change (Zdigits2 8796093022208000) with 53.
  rewrite fexp_eq.
  set (e' := Z.min (Z.max (d1 + ed - (53 + -43) - 53) (-1074)) (ed - -43)).
  set (s := ed - -43 - e').
  assert (Hs : 0 <= s) by (subst s e'; lia).
  set (m' := match s with Z0 => _ | Zpos _ => _ | Zneg _ => _ end).
  assert (Hm' : m' = Zpos md * 2 ^ s).
  { subst m'. destruct s as [| p | p] eqn:Es; try lia.
    rewrite Z.shiftl_mul_pow2 by lia. reflexivity. }
  pose proof (Z_div_mod m' 8796093022208000 ltac:(lia)) as Hdm.
  assert (Hq : fst (Z.div_eucl m' 8796093022208000) = m' / 8796093022208000)
    by reflexivity.
  destruct (Z.div_eucl m' 8796093022208000) as [q r]. cbn [fst] in Hq.
  assert (Hp : 0 < 2 ^ s) by (apply pow2_pos; exact Hs).
  assert (Hq0 : 0 <= q) by (subst q; apply Z.div_pos; nia).
  apply round_aux_finite; [exact Hq0 | subst e'; lia |].
  assert (Hmd : Zpos md < 2 ^ d1) by (subst d1; apply digits_bounds).
  set (k := Z.max (d1 + s - 52) 0).
  assert (Hqk : q < 2 ^ k).
  { subst q. apply Z.div_lt_upper_bound; [lia |].
    rewrite Hm'.
    apply Z.lt_le_trans with (2 ^ d1 * 2 ^ s); [nia |].
    change 8796093022208000 with (125 * 2 ^ 46) .
    apply Z.le_trans with (2 ^ 52 * 2 ^ k); [| 
      assert (0 < 2 ^ k) by (apply pow2_pos; subst k; lia); lia].
    rewrite <- !Z.pow_add_r by (subst k; lia).
    apply Z.pow_le_mono_r; subst k; lia. }
  pose proof (@Zdigits2_le q k ltac:(subst k; lia) ltac:(lia)).
  subst k e' s. lia.
Qed.

Lemma rounded_Z_valid (K V : Z) : 1074 <= K -> Float64.valid (rounded_Z K V) = true.
Proof.
  intro HK. unfold rounded_Z. destruct V as [| p | p];
    [reflexivity | apply rounded_valid; lia | apply rounded_valid; lia].
Qed.

Lemma sub_valid (low high : float) :
  Float64.valid low = true -> Float64.valid high = true ->
  Float64.is_finite low = true -> Float64.is_finite high = true ->
  Float64.valid (Float64.sub high low) = true.
Proof.
  intros Vl Vh Fl Fh.
  destruct low as [sl | sl | | sl ml el]; try discriminate;
    destruct high as [sh | sh | | sh mh eh]; try discriminate.
  - destruct sh, sl; reflexivity.
  - exact Vh.
  - exact Vl.
  - pose proof (valid_exponent _ _ _ Vl). pose proof (valid_exponent _ _ _ Vh).
    unfold Float64.sub, SFsub. cbv zeta.
    rewrite (@normalize_value _ (Z.min eh el) 1074 ltac:(lia) ltac:(lia)).
    apply rounded_Z_valid. lia.
Qed.

Theorem val_at_monotone (low high : float) (s1 s2 : Z) :
  Float64.valid low = true -> Float64.valid high = true ->
  Float64.is_finite low = true -> Float64.is_finite high = true ->
  Float64.ltb low high = true ->
  Float64.is_finite (Float64.sub high low) = true ->
  0 <= s1 <= s2 -> s2 <= 1000 ->
  Float64.leb (Slider.val_at s1 (Float64.div (Float64.sub high low) (Float64.of_Z 1000)) low)
              (Slider.val_at s2 (Float64.div (Float64.sub high low) (Float64.of_Z 1000)) low) = true.
Proof.
  intros Vl Vh Fl Fh Hlt Fd Hs Hs2.
  apply val_at_mono; try assumption.
  apply div_finite; [apply sub_valid |]; assumption.
Qed.

(** ** ComboBox *)

Lemma init_wired name items ptype callback :
  wired (ComboBox.__init__ name items ptype callback).
Proof. reflexivity. Qed.

Lemma init_items name items ptype callback :
  Qt.items (ComboBox._combo_box (ComboBox.__init__ name items ptype callback))
  = items.
Proof. reflexivity. Qed.

Lemma init_currentIndex name item items ptype callback :
  Qt.currentIndex
    (ComboBox._combo_box (ComboBox.__init__ name (item :: items) ptype callback))
  = 0.
Proof. reflexivity. Qed.

(** What the toolkit does offer for the selected item: [currentText]. *)
Lemma init_currentText name item items ptype callback :
  Qt.QComboBox_read
    (ComboBox._combo_box (ComboBox.__init__ name (item :: items) ptype callback))
    "currentText"
  = Return (PyStr item).
Proof. reflexivity. Qed.

Lemma setCurrentIndex_changes (w : ComboBox.t) cb k cs rs :
  BaseWidget.callback (ComboBox.super w) = Some cb ->
  wired w ->
  0 <= k < Qt.count (ComboBox._combo_box w) ->
  k <> Qt.currentIndex (ComboBox._combo_box w) ->
  ComboBox.setCurrentIndex k (Env w cs rs)
  = (Return tt,
     Env (ComboBox.with_combo_box (Qt.with_index k (ComboBox._combo_box w)) w)
         (cs ++ [Call cb (BaseWidget.name (ComboBox.super w)) (PyInt k)])
         rs).
Proof.
  intros Hcb Hw [Hlo Hhi] Hne.
  unfold ComboBox.setCurrentIndex, bind, get; cbn.
  apply Z.leb_le in Hlo. apply Z.ltb_lt in Hhi. rewrite Hlo, Hhi; cbn.
  apply Z.eqb_neq in Hne. rewrite Hne.
  unfold ComboBox.emit_currentIndexChanged, bind, get, update_self, modify;
    cbn.
  rewrite Hw; cbn.
  unfold swallow, _value_changed, call_callback, bind, get; cbn.
  rewrite Hcb. reflexivity.
Qed.

(** C1: reading [val] of a ComboBox should give the selected item's string
    ([items[0]] after construction, [items[k]] after selecting item [k]).
    The code asks the selector for an attribute [value] it does not have:
    in every state of every ComboBox, reading [val] raises [AttributeError]
    and changes nothing. *)
Theorem ComboBox_val_raises_AttributeError (s : env ComboBox.t) :
  ComboBox.val s
  = (Raise (AttributeError "'QComboBox' object has no attribute 'value'"), s).
Proof. reflexivity. Qed.

(** The same at a concrete widget: right after construction from
    ["nearest"; "bilinear"] the answer should be ["nearest"], which is what
    the selector's [currentText] holds. *)
Example ComboBox_val_after_init :
  fst (ComboBox.val (Env method_box [] [])) <> Return (PyStr "nearest")
  /\ Qt.currentText (ComboBox._combo_box method_box) = "nearest".
Proof. split; [discriminate | reflexivity]. Qed.

(** C2, as stated, fails: selecting item 1 of ["nearest"; "bilinear"]
    invokes the callback once, with the index [1] and not with the string
    ["bilinear"]. *)
Lemma ComboBox_callback_value_is_not_item :
  calls (snd (ComboBox.setCurrentIndex 1 (Env method_box [] [])))
  = [Call "filter_image" "method" (PyInt 1)]
  /\ calls (snd (ComboBox.setCurrentIndex 1 (Env method_box [] [])))
     <> [Call "filter_image" "method" (PyStr "bilinear")].
Proof. split; [reflexivity | discriminate]. Qed.

(** C2 (amended): for every ComboBox with a callback [cb], every selection
    change to the item at index [k] makes that item current and invokes the
    callback exactly once, with the pair [(name, k)]: the value passed is
    the new index, and nothing else is called or reported. *)
Theorem ComboBox_selection_invokes_callback_with_index
    (name : string) (items : list string) (ptype : string) (cb : callable)
    (w : ComboBox.t) (k : Z) (cs : list call) (rs : list exn) :
  ComboBox.super w = BaseWidget.__init__ name ptype (Some cb) ->
  wired w ->
  Qt.items (ComboBox._combo_box w) = items ->
  0 <= k < Z.of_nat (List.length items) ->
  k <> Qt.currentIndex (ComboBox._combo_box w) ->
  exists w',
    ComboBox.setCurrentIndex k (Env w cs rs)
    = (Return tt, Env w' (cs ++ [Call cb name (PyInt k)]) rs)
    /\ Qt.currentIndex (ComboBox._combo_box w') = k
    /\ Qt.currentText (ComboBox._combo_box w') = nth (Z.to_nat k) items ""
    /\ ComboBox.super w' = ComboBox.super w
    /\ wired w'
    /\ Qt.items (ComboBox._combo_box w') = items.
Proof.
  intros Hsuper Hw Hitems Hk Hne.
  eexists. split.
  - rewrite (@setCurrentIndex_changes w cb k cs rs); try assumption.
    + rewrite Hsuper. reflexivity.
    + rewrite Hsuper. reflexivity.
    + unfold Qt.count. rewrite Hitems. exact Hk.
  - cbn. repeat split; try assumption.
    unfold Qt.currentText, Qt.itemText, Qt.count; cbn. rewrite Hitems.
    destruct Hk as [Hlo Hhi].
    apply Z.leb_le in Hlo. apply Z.ltb_lt in Hhi. rewrite Hlo, Hhi.
    reflexivity.
Qed.

Lemma ComboBox_selection_invokes_callback_with_index_witness :
  exists w',
    ComboBox.setCurrentIndex 1 (Env method_box [] [])
    = (Return tt, Env w' ([] ++ [Call "filter_image" "method" (PyInt 1)]) [])
    /\ Qt.currentIndex (ComboBox._combo_box w') = 1
    /\ Qt.currentText (ComboBox._combo_box w')
       = nth (Z.to_nat 1) ["nearest"; "bilinear"] ""
    /\ ComboBox.super w' = ComboBox.super method_box
    /\ wired w'
    /\ Qt.items (ComboBox._combo_box w') = ["nearest"; "bilinear"].
Proof.
  apply (@ComboBox_selection_invokes_callback_with_index
           "method" ["nearest"; "bilinear"] "kwarg" "filter_image"
           method_box 1 [] []).
  - reflexivity.
  - reflexivity.
  - reflexivity.
  - cbn. lia.
  - cbn. lia.
Defined.

(** ** Slider: construction *)


Lemma as_int_PyInt (v : Z) :
  - 2 ^ 31 <= v <= 2 ^ 31 - 1 -> Qt.as_int (PyInt v) = Return v.
Proof.
  intros [Hlo Hhi]. unfold Qt.as_int, Qt.fits_int, Qt.int_min, Qt.int_max.
  apply Z.leb_le in Hlo. apply Z.leb_le in Hhi. rewrite Hlo, Hhi.
  reflexivity.
Qed.

Lemma init_returns format_2_2f name low high value ptype callback
    max_edit_width orientation update_on o k :
  orientation_of orientation = Some o ->
  update_on = "move" \/ update_on = "release" ->
  initial_step value = Return k ->
  Slider.__init__ format_2_2f name low high value ptype callback max_edit_width
              orientation update_on
  = Return (fresh format_2_2f name low high ptype callback max_edit_width o
                  (String.eqb update_on "move") k).
Proof.
  unfold initial_step, orientation_of. intros Ho Hu Hk.
  unfold Slider.__init__.
  destruct (String.eqb orientation "vertical");
    [| destruct (String.eqb orientation "horizontal"); [| discriminate]];
    inversion Ho; subst o; destruct Hu as [-> | ->];
    cbn; rewrite Hk; reflexivity.
Qed.

Lemma orientation_of_valid orientation :
  orientation = "vertical" \/ orientation = "horizontal" ->
  exists o, orientation_of orientation = Some o.
Proof. intros [-> | ->]; eexists; reflexivity. Qed.







(** With [low = 0.0], [high = 10.0] and [value = 5] the slider starts at
    [0.05], not at [5.0]. *)
Example Slider_init_value_5_of_10 :
  Slider.__init__ PyBuiltins.format_2_2f "sigma" (Float64.of_Z 0)
              (Float64.of_Z 10) (Some (PyInt 5)) "kwarg"
              (Some "filter_image") 60 "horizontal" "move"
  = Return (sigma (Float64.of_Z 0) (Float64.of_Z 10) true 5)
  /\ Slider.val_of (sigma (Float64.of_Z 0) (Float64.of_Z 10) true 5)
     = Float64.of_ratio 5 100
  /\ Qt.text (Slider.editbox (sigma (Float64.of_Z 0) (Float64.of_Z 10) true 5))
     = "0.05".
Proof. repeat split; vm_compute; reflexivity. Qed.

(** C7, as stated, fails: with [low = 0.1] and [high = 0.7] the default
    position is step 500, but the initial [val] is [0.4] while
    [(low + high) / 2] is [0.39999999999999997]. *)
Lemma Slider_default_val_is_not_always_midpoint :
  Slider.__init__ PyBuiltins.format_2_2f "sigma" (Float64.of_ratio 1 10)
              (Float64.of_ratio 7 10) None "kwarg" (Some "filter_image")
              60 "horizontal" "move"
  = Return (sigma (Float64.of_ratio 1 10) (Float64.of_ratio 7 10) true 500)
  /\ Qt.value (Slider.slider
                 (sigma (Float64.of_ratio 1 10) (Float64.of_ratio 7 10)
                        true 500)) = 500
  /\ Slider.val_of (sigma (Float64.of_ratio 1 10) (Float64.of_ratio 7 10)
                          true 500)
     = Float64.of_ratio 4 10
  /\ Float64.div (Float64.add (Float64.of_ratio 1 10)
                              (Float64.of_ratio 7 10)) (Float64.of_Z 2)
     = Float64.of_ratio 39999999999999997 100000000000000000
  /\ Float64.eqb
       (Slider.val_of (sigma (Float64.of_ratio 1 10) (Float64.of_ratio 7 10)
                             true 500))
       (Float64.div (Float64.add (Float64.of_ratio 1 10)
                                 (Float64.of_ratio 7 10))
                    (Float64.of_Z 2)) = false.
Proof. repeat split; vm_compute; reflexivity. Qed.

(** C7 (amended): for every [low] and [high], constructing a Slider with
    [value=None] sets the position to step 500 of 1000, and the initial
    [val] is [500 * ((high - low) / 1000) + low] as double arithmetic
    evaluates it. *)
Theorem Slider_init_default_is_step_500
    (format_2_2f : float -> string) (name : string) (low high : float)
    (ptype : string) (callback : option callable)
    (max_edit_width : Z) (orientation update_on : string) :
  orientation = "vertical" \/ orientation = "horizontal" ->
  update_on = "move" \/ update_on = "release" ->
  exists w,
    Slider.__init__ format_2_2f name low high None ptype callback
                max_edit_width orientation update_on = Return w
    /\ Qt.value (Slider.slider w) = 500
    /\ Qt.minimum (Slider.slider w) = 0
    /\ Qt.maximum (Slider.slider w) = 1000
    /\ Slider.val_of w
       = Float64.add
           (Float64.mul (Float64.of_Z 500)
              (Float64.div (Float64.sub high low) (Float64.of_Z 1000)))
           low.
Proof.
  intros Ho Hu.
  destruct (orientation_of_valid Ho) as [o Ho'].
  eexists. split.
  - apply init_returns with (k := 500); [exact Ho' | exact Hu | reflexivity].
  - repeat split.
Qed.

Lemma Slider_init_default_is_step_500_witness :
  exists w,
    Slider.__init__ PyBuiltins.format_2_2f "sigma" (Float64.of_Z 0)
                (Float64.of_Z 10) None "kwarg" (Some "filter_image")
                60 "horizontal" "move" = Return w
    /\ Qt.value (Slider.slider w) = 500
    /\ Qt.minimum (Slider.slider w) = 0
    /\ Qt.maximum (Slider.slider w) = 1000
    /\ Slider.val_of w
       = Float64.add
           (Float64.mul (Float64.of_Z 500)
              (Float64.div (Float64.sub (Float64.of_Z 10) (Float64.of_Z 0))
                           (Float64.of_Z 1000)))
           (Float64.of_Z 0).
Proof.
  apply (@Slider_init_default_is_step_500 PyBuiltins.format_2_2f "sigma"
           (Float64.of_Z 0) (Float64.of_Z 10) "kwarg" (Some "filter_image")
           60 "horizontal" "move").
  - right; reflexivity.
  - left; reflexivity.
Defined.

(** The example of the specification: [low = 0.0], [high = 10.0] and
    [value=None] start at [5.0], which here is [(low + high) / 2]; moving
    to step 750 gives [7.5] and one callback invocation with
    [("sigma", 7.5)]. *)
Example Slider_sigma_0_10 :
  Slider.__init__ PyBuiltins.format_2_2f "sigma" (Float64.of_Z 0)
              (Float64.of_Z 10) None "kwarg" (Some "filter_image")
              60 "horizontal" "move"
  = Return (sigma (Float64.of_Z 0) (Float64.of_Z 10) true 500)
  /\ Slider.val_of (sigma (Float64.of_Z 0) (Float64.of_Z 10) true 500)
     = Float64.of_Z 5
  /\ Float64.div (Float64.add (Float64.of_Z 0) (Float64.of_Z 10))
                 (Float64.of_Z 2)
     = Float64.of_Z 5
  /\ calls (snd (Slider.user_moves
                   PyBuiltins.str_of_float 750
                   (Env (sigma (Float64.of_Z 0) (Float64.of_Z 10) true 500)
                        [] [])))
     = [Call "filter_image" "sigma" (PyFloat (Float64.of_ratio 75 10))]
  /\ Slider.val_of
       (self (snd (Slider.user_moves
                     PyBuiltins.str_of_float 750
                     (Env (sigma (Float64.of_Z 0) (Float64.of_Z 10) true 500)
                          [] []))))
     = Float64.of_ratio 75 10.
Proof. repeat split; vm_compute; reflexivity. Qed.

(** Built with [update_on='release'], the same slider calls back when the
    handle is let go, not while it moves. *)
Example Slider_sigma_release :
  calls (snd (Slider.user_moves
                PyBuiltins.str_of_float 750
                (Env (sigma (Float64.of_Z 0) (Float64.of_Z 10) false 500)
                     [] [])))
  = []
  /\ calls (snd ((Slider.user_moves PyBuiltins.str_of_float 750 ;;;
                  Slider.user_releases PyBuiltins.str_of_float)
                   (Env (sigma (Float64.of_Z 0) (Float64.of_Z 10) false 500)
                        [] [])))
     = [Call "filter_image" "sigma" (PyFloat (Float64.of_ratio 75 10))].
Proof. split; vm_compute; reflexivity. Qed.

(** ** Slider: the value at a step *)

(** C4, as stated, fails when the width of the range overflows: with
    [low = -1e308] and [high = 1e308], both finite and [low < high], the
    scale is [inf]; the value of step 0 is NaN and is not [<=] the value of
    step 1. *)
Lemma Slider_val_not_monotone_when_range_overflows :
  Float64.valid (Float64.of_Z (- 10 ^ 308)) = true
  /\ Float64.valid (Float64.of_Z (10 ^ 308)) = true
  /\ Float64.is_finite (Float64.of_Z (- 10 ^ 308)) = true
  /\ Float64.is_finite (Float64.of_Z (10 ^ 308)) = true
  /\ Float64.ltb (Float64.of_Z (- 10 ^ 308)) (Float64.of_Z (10 ^ 308)) = true
  /\ Slider.__init__ PyBuiltins.format_2_2f "sigma" (Float64.of_Z (- 10 ^ 308))
                 (Float64.of_Z (10 ^ 308)) (Some (PyInt 0)) "kwarg"
                 (Some "filter_image") 60 "horizontal" "move"
     = Return (sigma (Float64.of_Z (- 10 ^ 308)) (Float64.of_Z (10 ^ 308))
                     true 0)
  /\ Float64.sub (Float64.of_Z (10 ^ 308)) (Float64.of_Z (- 10 ^ 308))
     = Float64.infinity
  /\ Slider._scale (sigma (Float64.of_Z (- 10 ^ 308))
                          (Float64.of_Z (10 ^ 308)) true 0)
     = Float64.infinity
  /\ Slider.val_of (sigma (Float64.of_Z (- 10 ^ 308))
                          (Float64.of_Z (10 ^ 308)) true 0)
     = Float64.nan
  /\ Float64.leb
       (Slider.val_of (sigma (Float64.of_Z (- 10 ^ 308))
                             (Float64.of_Z (10 ^ 308)) true 0))
       (Slider.val_of (sigma (Float64.of_Z (- 10 ^ 308))
                             (Float64.of_Z (10 ^ 308)) true 1))
     = false.
Proof. repeat split; vm_compute; reflexivity. Qed.

(** C4 (amended): for every Slider with finite bounds [low < high] whose
    width [high - low] is finite (does not overflow), and all integer
    steps [0 <= s1 <= s2 <= 1000]: reading [val] at step [s] gives
    [s * ((high - low) / 1000) + low] as double arithmetic evaluates it, and
    the value at [s1] is [<=] the value at [s2]. *)
Theorem Slider_val_formula_and_monotone
    (low high : float) (w1 w2 : Slider.t) (s1 s2 : Z)
    (cs : list call) (rs : list exn) :
  Float64.valid low = true -> Float64.valid high = true ->
  Float64.is_finite low = true -> Float64.is_finite high = true ->
  Float64.ltb low high = true ->
  Float64.is_finite (Float64.sub high low) = true ->
  Slider._scale w1 = Float64.div (Float64.sub high low) (Float64.of_Z 1000) ->
  Slider._scale w2 = Float64.div (Float64.sub high low) (Float64.of_Z 1000) ->
  Slider._low w1 = low -> Slider._low w2 = low ->
  Qt.value (Slider.slider w1) = s1 -> Qt.value (Slider.slider w2) = s2 ->
  0 <= s1 <= s2 -> s2 <= 1000 ->
  exists v1 v2,
    Slider.val (Env w1 cs rs) = (Return v1, Env w1 cs rs)
    /\ Slider.val (Env w2 cs rs) = (Return v2, Env w2 cs rs)
    /\ v1 = Float64.add
              (Float64.mul (Float64.of_Z s1)
                 (Float64.div (Float64.sub high low) (Float64.of_Z 1000)))
              low
    /\ v2 = Float64.add
              (Float64.mul (Float64.of_Z s2)
                 (Float64.div (Float64.sub high low) (Float64.of_Z 1000)))
              low
    /\ Float64.leb v1 v2 = true.
Proof.
  intros Vl Vh Fl Fh Hlt Fs Hc1 Hc2 Hl1 Hl2 Hv1 Hv2 Hs Hs2.
  exists (Slider.val_of w1), (Slider.val_of w2).
  split; [reflexivity |]. split; [reflexivity |].
  unfold Slider.val_of. rewrite Hc1, Hc2, Hl1, Hl2, Hv1, Hv2.
  split; [reflexivity |]. split; [reflexivity |].
  apply val_at_monotone; assumption.
Qed.

Lemma Slider_val_formula_and_monotone_witness :
  exists v1 v2,
    Slider.val (Env (sigma (Float64.of_Z 0) (Float64.of_Z 10) true 250) [] [])
    = (Return v1,
       Env (sigma (Float64.of_Z 0) (Float64.of_Z 10) true 250) [] [])
    /\ Slider.val
         (Env (sigma (Float64.of_Z 0) (Float64.of_Z 10) true 750) [] [])
       = (Return v2,
          Env (sigma (Float64.of_Z 0) (Float64.of_Z 10) true 750) [] [])
    /\ v1 = Float64.add
              (Float64.mul (Float64.of_Z 250)
                 (Float64.div (Float64.sub (Float64.of_Z 10) (Float64.of_Z 0))
                              (Float64.of_Z 1000)))
              (Float64.of_Z 0)
    /\ v2 = Float64.add
              (Float64.mul (Float64.of_Z 750)
                 (Float64.div (Float64.sub (Float64.of_Z 10) (Float64.of_Z 0))
                              (Float64.of_Z 1000)))
              (Float64.of_Z 0)
    /\ Float64.leb v1 v2 = true.
Proof.
  apply (@Slider_val_formula_and_monotone
           (Float64.of_Z 0) (Float64.of_Z 10)
           (sigma (Float64.of_Z 0) (Float64.of_Z 10) true 250)
           (sigma (Float64.of_Z 0) (Float64.of_Z 10) true 750)
           250 750 [] []);
    try (vm_compute; reflexivity); try reflexivity; lia.
Defined.

(** For [low = 0.0] and [high = 10.0]: step 250 is [2.5], step 750 is
    [7.5]. *)
Example Slider_val_0_10 :
  Slider.val_of (sigma (Float64.of_Z 0) (Float64.of_Z 10) true 250)
  = Float64.of_ratio 25 10
  /\ Slider.val_of (sigma (Float64.of_Z 0) (Float64.of_Z 10) true 750)
     = Float64.of_ratio 75 10.
Proof. split; vm_compute; reflexivity. Qed.

(** ** Slider: committing text *)

Import Slider.

Section Commit.

Variable float_of_str : string -> option float.
Variable str_of_float : float -> string.

Lemma slider_setValue_spec w v k update_on cb cs rs :
  connected w update_on ->
  BaseWidget.callback (super w) = Some cb ->
  Qt.as_int v = Return k ->
  slider_setValue str_of_float v (Env w cs rs)
  = (Return tt,
     Env (stepped str_of_float update_on k w)
         (cs ++ notified update_on cb k w) rs).
Proof.
  intros [Hvc _ _] Hcb Hk.
  unfold slider_setValue, stepped, notified, bind, lift, get.
  rewrite Hk; cbn.
  destruct (bounded k (slider w) =? Qt.value (slider w)) eqn:E; cbn.
  - rewrite app_nil_r. reflexivity.
  - rewrite Hvc.
    destruct (String.eqb update_on "move"); cbn.
    + unfold swallow, _on_slider_changed, call_callback, val, bind, get,
        ret, update_self, modify; cbn.
      rewrite Hcb. reflexivity.
    + rewrite app_nil_r. reflexivity.
Qed.

Local Arguments slider_setValue : simpl never.

Lemma on_editbox_changed_rejects w cs rs :
  match float_of_str (Qt.text (editbox w)) with
  | None => True
  | Some v => within (_low w) v (_high w) = false
  end ->
  _on_editbox_changed float_of_str str_of_float (Env w cs rs)
  = (Return tt, Env (marked bad_style w) cs rs).
Proof.
  unfold _on_editbox_changed, bind, get; cbn.
  destruct (float_of_str (Qt.text (editbox w))) as [v |].
  - intros ->. reflexivity.
  - reflexivity.
Qed.

Lemma on_editbox_changed_accepts w v k update_on cb cs rs :
  connected w update_on ->
  BaseWidget.callback (super w) = Some cb ->
  float_of_str (Qt.text (editbox w)) = Some v ->
  within (_low w) v (_high w) = true ->
  Float64.is_zero (_scale w) = false ->
  step_of w v = Return k ->
  _on_editbox_changed float_of_str str_of_float (Env w cs rs)
  = (Return tt,
     Env (marked good_style (stepped str_of_float update_on k w))
         (cs ++ notified update_on cb k w) rs).
Proof.
  intros Hc Hcb Hv Hin Hz Hk.
  unfold _on_editbox_changed, bind, get; cbn.
  rewrite Hv, Hin; cbn.
  unfold py_truediv. rewrite Hz. unfold ret at 1.
  unfold step_of in Hk.
  rewrite (@slider_setValue_spec w _ k update_on cb cs rs Hc Hcb Hk).
  reflexivity.
Qed.

Lemma on_editbox_changed_divides_by_zero w v cs rs :
  float_of_str (Qt.text (editbox w)) = Some v ->
  within (_low w) v (_high w) = true ->
  Float64.is_zero (_scale w) = true ->
  _on_editbox_changed float_of_str str_of_float (Env w cs rs)
  = (Raise (ZeroDivisionError "float division by zero"), Env w cs rs).
Proof.
  intros Hv Hin Hz.
  unfold _on_editbox_changed, bind, get; cbn.
  rewrite Hv, Hin; cbn.
  unfold py_truediv. rewrite Hz. reflexivity.
Qed.

(** Committing: the text is stored, then the handler runs as a slot. *)
Lemma user_commits_runs w txt update_on cs rs :
  connected w update_on ->
  user_commits float_of_str str_of_float txt (Env w cs rs)
  = (swallow (_on_editbox_changed float_of_str str_of_float) ;;; ret tt)
      (Env (typed txt w) cs rs).
Proof.
  intros [_ _ Hef].
  unfold user_commits, bind, update_self, modify, get; cbn.
  rewrite Hef. reflexivity.
Qed.

Lemma typed_connected w txt update_on :
  connected w update_on -> connected (typed txt w) update_on.
Proof. intros []. constructor; assumption. Qed.

Lemma stepped_value update_on k w :
  Qt.value (slider (stepped str_of_float update_on k w))
  = bounded k (slider w).
Proof.
  unfold stepped.
  destruct (bounded k (slider w) =? Qt.value (slider w)) eqn:E.
  - apply Z.eqb_eq in E. symmetry. exact E.
  - destruct (String.eqb update_on "move"); reflexivity.
Qed.

Lemma user_commits_rejects w txt update_on cs rs :
  connected w update_on ->
  match float_of_str txt with
  | None => True
  | Some v => within (_low w) v (_high w) = false
  end ->
  user_commits float_of_str str_of_float txt (Env w cs rs)
  = (Return tt, Env (marked bad_style (typed txt w)) cs rs).
Proof.
  intros Hc Hbad. rewrite (user_commits_runs txt cs rs Hc).
  unfold bind, swallow.
  rewrite on_editbox_changed_rejects; [reflexivity | exact Hbad].
Qed.

Lemma user_commits_accepts w v k update_on cb txt cs rs :
  connected w update_on ->
  BaseWidget.callback (super w) = Some cb ->
  float_of_str txt = Some v ->
  within (_low w) v (_high w) = true ->
  Float64.is_zero (_scale w) = false ->
  step_of w v = Return k ->
  user_commits float_of_str str_of_float txt (Env w cs rs)
  = (Return tt,
     Env (marked good_style (stepped str_of_float update_on k (typed txt w)))
         (cs ++ notified update_on cb k w) rs).
Proof.
  intros Hc Hcb Hv Hin Hz Hk. rewrite (user_commits_runs txt cs rs Hc).
  unfold bind, swallow.
  rewrite (@on_editbox_changed_accepts (typed txt w) v k update_on cb cs rs);
    [reflexivity | apply typed_connected; exact Hc | exact Hcb | exact Hv
     | exact Hin | exact Hz | exact Hk].
Qed.

End Commit.

Lemma not_within (low v high : float) :
  ~ (Float64.leb low v = true /\ Float64.leb v high = true) ->
  Slider.within low v high = false.
Proof.
  unfold Slider.within. intro H.
  destruct (Float64.leb low v), (Float64.leb v high); try reflexivity.
  exfalso. apply H. split; reflexivity.
Qed.

(** A value below [low] or above [high] is not within [[low, high]]. *)
Lemma outside_not_within (low v high : float) :
  Float64.ltb v low = true \/ Float64.ltb high v = true ->
  ~ (Float64.leb low v = true /\ Float64.leb v high = true).
Proof.
  intros [H | H] [H1 H2]; apply ltb_not_leb in H; congruence.
Qed.

(** C5: whenever the user commits text that does not parse as a float, or
    that parses to a value that is not within [[low, high]], the position
    control is left as it was (same step, same [val]), no callback is
    invoked, nothing is raised, and the text box is put in the error style;
    the text typed stays in the box. *)
Theorem Slider_commit_bad_input_is_discarded
    (float_of_str : string -> option float) (str_of_float : float -> string)
    (w : Slider.t) (update_on txt : string)
    (cs : list call) (rs : list exn) :
  connected w update_on ->
  (float_of_str txt = None
   \/ exists v, float_of_str txt = Some v
                /\ ~ (Float64.leb (Slider._low w) v = true
                      /\ Float64.leb v (Slider._high w) = true)) ->
  exists w',
    Slider.user_commits float_of_str str_of_float txt (Env w cs rs)
    = (Return tt, Env w' cs rs)
    /\ Slider.slider w' = Slider.slider w
    /\ Slider.val_of w' = Slider.val_of w
    /\ Qt.styleSheet (Slider.editbox w') = Slider.bad_style
    /\ Qt.text (Slider.editbox w') = txt.
Proof.
  intros Hc Hbad.
  exists (marked Slider.bad_style (typed txt w)).
  split; [| repeat split].
  apply user_commits_rejects with (update_on := update_on); [exact Hc |].
  destruct Hbad as [-> | [v [-> Hout]]]; [exact I |].
  apply not_within. exact Hout.
Qed.

Lemma Slider_commit_bad_input_is_discarded_witness :
  exists w',
    Slider.user_commits PyBuiltins.float_of_str PyBuiltins.str_of_float "12"
      (Env (sigma (Float64.of_Z 0) (Float64.of_Z 10) true 500) [] [])
    = (Return tt, Env w' [] [])
    /\ Slider.slider w'
       = Slider.slider (sigma (Float64.of_Z 0) (Float64.of_Z 10) true 500)
    /\ Slider.val_of w'
       = Slider.val_of (sigma (Float64.of_Z 0) (Float64.of_Z 10) true 500)
    /\ Qt.styleSheet (Slider.editbox w') = Slider.bad_style
    /\ Qt.text (Slider.editbox w') = "12".
Proof.
  apply (@Slider_commit_bad_input_is_discarded
           PyBuiltins.float_of_str PyBuiltins.str_of_float
           (sigma (Float64.of_Z 0) (Float64.of_Z 10) true 500)
           "move" "12" [] []).
  - constructor; reflexivity.
  - right. exists (Float64.of_Z 12). split; [vm_compute; reflexivity |].
    intros [_ Hle]. vm_compute in Hle. discriminate.
Defined.

(** The same for text that is no number at all. *)
Example Slider_commit_garbage :
  commit "abc" (sigma (Float64.of_Z 0) (Float64.of_Z 10) true 500)
  = (Return tt,
     Env (marked Slider.bad_style
            (typed "abc" (sigma (Float64.of_Z 0) (Float64.of_Z 10) true 500)))
         [] []).
Proof. vm_compute. reflexivity. Qed.

(** ** Slider: accepted text *)

(** C3, as stated, fails: a slider built with [update_on='release'] takes
    the committed text ["2.5"] (within [[0, 10]]), moves from step 500 to
    step 250 and clears the error style, but the callback is not
    invoked. *)
Lemma Slider_commit_in_release_mode_fires_no_callback :
  Slider.__init__ PyBuiltins.format_2_2f "sigma" (Float64.of_Z 0)
              (Float64.of_Z 10) None "kwarg" (Some "filter_image") 60
              "horizontal" "release"
  = Return (sigma (Float64.of_Z 0) (Float64.of_Z 10) false 500)
  /\ PyBuiltins.float_of_str "2.5" = Some (Float64.of_ratio 25 10)
  /\ Float64.leb (Float64.of_Z 0) (Float64.of_ratio 25 10) = true
  /\ Float64.leb (Float64.of_ratio 25 10) (Float64.of_Z 10) = true
  /\ fst (commit "2.5" (sigma (Float64.of_Z 0) (Float64.of_Z 10) false 500))
     = Return tt
  /\ calls (snd (commit "2.5"
                   (sigma (Float64.of_Z 0) (Float64.of_Z 10) false 500)))
     = []
  /\ Qt.value
       (Slider.slider
          (self (snd (commit "2.5"
                        (sigma (Float64.of_Z 0) (Float64.of_Z 10) false 500)))))
     = 250
  /\ Qt.styleSheet
       (Slider.editbox
          (self (snd (commit "2.5"
                        (sigma (Float64.of_Z 0) (Float64.of_Z 10) false 500)))))
     = Slider.good_style.
Proof. repeat split; vm_compute; reflexivity. Qed.

(** C3 (amended): whenever the user commits text that parses as a float
    [v] within [[low, high]], the scale not being zero and the quotient
    [(v - low) / scale] being a number [k] the position control takes, the
    position becomes [k] bounded to the range of the control and the error
    style is cleared.  The callback fires only through the position
    control's change signal: once, with [(name, val)] for the new step,
    when the slider updates on ['move'] and the step changed; not at all
    when the step is the one it had, or when the slider updates on
    ['release']. *)
Theorem Slider_commit_valid_input
    (float_of_str : string -> option float) (str_of_float : float -> string)
    (w : Slider.t) (update_on : string) (cb : callable) (txt : string)
    (v : float) (k : Z) (cs : list call) (rs : list exn) :
  connected w update_on ->
  BaseWidget.callback (Slider.super w) = Some cb ->
  float_of_str txt = Some v ->
  Float64.leb (Slider._low w) v = true ->
  Float64.leb v (Slider._high w) = true ->
  Float64.is_zero (Slider._scale w) = false ->
  Qt.as_int (PyFloat (Float64.div (Float64.sub v (Slider._low w))
                                  (Slider._scale w))) = Return k ->
  exists w',
    Slider.user_commits float_of_str str_of_float txt (Env w cs rs)
    = (Return tt,
       Env w'
           (if String.eqb update_on "move"
               && negb (Qt.value (Slider.slider w') =? Qt.value (Slider.slider w))
            then cs ++ [Call cb (BaseWidget.name (Slider.super w))
                             (PyFloat (Slider.val_of w'))]
            else cs)
           rs)
    /\ Qt.value (Slider.slider w') = Slider.bounded k (Slider.slider w)
    /\ Qt.styleSheet (Slider.editbox w') = Slider.good_style.
Proof.
  intros Hc Hcb Hv Hlo Hhi Hz Hk.
  exists (marked Slider.good_style
            (stepped str_of_float update_on k (typed txt w))).
  rewrite (@user_commits_accepts float_of_str str_of_float w v k update_on cb
             txt cs rs Hc Hcb Hv);
    [| unfold Slider.within; rewrite Hlo, Hhi; reflexivity | exact Hz
     | exact Hk].
  unfold stepped, notified, marked.
  change (Slider.slider (typed txt w)) with (Slider.slider w).
  destruct (Slider.bounded k (Slider.slider w) =? Qt.value (Slider.slider w))
    eqn:E.
  - cbn. rewrite Z.eqb_refl, andb_false_r, app_nil_r.
    apply Z.eqb_eq in E. repeat split. symmetry; exact E.
  - destruct (String.eqb update_on "move"); cbn; rewrite ?E, ?app_nil_r;
      repeat split.
Qed.

Lemma Slider_commit_valid_input_witness :
  exists w',
    Slider.user_commits PyBuiltins.float_of_str PyBuiltins.str_of_float "2.5"
      (Env (sigma (Float64.of_Z 0) (Float64.of_Z 10) true 500) [] [])
    = (Return tt,
       Env w'
           (if String.eqb "move" "move"
               && negb (Qt.value (Slider.slider w')
                        =? Qt.value
                             (Slider.slider
                                (sigma (Float64.of_Z 0) (Float64.of_Z 10)
                                       true 500)))
            then [] ++ [Call "filter_image"
                             (BaseWidget.name
                                (Slider.super
                                   (sigma (Float64.of_Z 0) (Float64.of_Z 10)
                                          true 500)))
                             (PyFloat (Slider.val_of w'))]
            else [])
           [])
    /\ Qt.value (Slider.slider w')
       = Slider.bounded 250
           (Slider.slider (sigma (Float64.of_Z 0) (Float64.of_Z 10) true 500))
    /\ Qt.styleSheet (Slider.editbox w') = Slider.good_style.
Proof.
  apply (@Slider_commit_valid_input
           PyBuiltins.float_of_str PyBuiltins.str_of_float
           (sigma (Float64.of_Z 0) (Float64.of_Z 10) true 500) "move"
           "filter_image" "2.5" (Float64.of_ratio 25 10) 250 [] []).
  - constructor; reflexivity.
  - reflexivity.
  - vm_compute; reflexivity.
  - vm_compute; reflexivity.
  - vm_compute; reflexivity.
  - vm_compute; reflexivity.
  - vm_compute; reflexivity.
Defined.

(** In ['move'] mode the same commit does invoke the callback, once, with
    the value of the new step. *)
Example Slider_commit_in_move_mode :
  calls (snd (commit "2.5" (sigma (Float64.of_Z 0) (Float64.of_Z 10) true 500)))
  = [Call "filter_image" "sigma" (PyFloat (Float64.of_ratio 25 10))]
  /\ Qt.value
       (Slider.slider
          (self (snd (commit "2.5"
                        (sigma (Float64.of_Z 0) (Float64.of_Z 10) true 500)))))
     = 250.
Proof. split; vm_compute; reflexivity. Qed.

(** ** Slider: a range of width zero *)

Lemma of_Z_1000 : Float64.of_Z 1000 = S754_finite false 8796093022208000 (-43).
Proof. vm_compute. reflexivity. Qed.

(** A finite float minus itself is zero. *)
Lemma sub_equal_is_zero (low high : float) :
  Float64.is_finite low = true ->
  Float64.eqb low high = true ->
  Float64.is_zero (Float64.sub high low) = true.
Proof.
  intros Hfin Heq. apply eqb_key in Heq.
  destruct Heq as (a & Hlow & Hhigh).
  destruct low as [sl | sl | | sl ml el]; try discriminate;
    destruct high as [sh | [] | | [] mh eh]; destruct sl; cbn in *;
    try congruence; try (destruct sh; reflexivity).
  - assert (E : mh = ml /\ eh = el)
      by (rewrite <- Hhigh in Hlow; inversion Hlow; split;
          [reflexivity | lia]).
    destruct E as [-> ->].
    unfold Float64.sub, SFsub, shl_align.
    rewrite Z.min_id, Z.sub_diag; cbn. rewrite ?Z.pos_sub_diag.
    reflexivity.
  - assert (E : mh = ml /\ eh = el)
      by (rewrite <- Hhigh in Hlow; inversion Hlow; split; reflexivity).
    destruct E as [-> ->].
    unfold Float64.sub, SFsub, shl_align.
    rewrite Z.min_id, Z.sub_diag; cbn. rewrite ?Z.pos_sub_diag.
    reflexivity.
Qed.

Lemma scale_of_equal_bounds (low high : float) :
  Float64.is_finite low = true ->
  Float64.eqb low high = true ->
  Float64.is_zero
    (Float64.div (Float64.sub high low) (Float64.of_Z 1000)) = true.
Proof.
  intros Hfin Heq.
  pose proof (sub_equal_is_zero low high Hfin Heq) as Hz.
  rewrite of_Z_1000.
  destruct (Float64.sub high low); try discriminate. reflexivity.
Qed.

Lemma eqb_within (low v high : float) :
  Float64.eqb low high = true ->
  Float64.eqb v low = true ->
  Slider.within low v high = true.
Proof.
  intros Heq Hvl.
  apply eqb_key in Heq. destruct Heq as (a & Ha & Hb).
  apply eqb_key in Hvl. destruct Hvl as (a' & Hv' & Ha').
  assert (a' = a) by congruence. subst a'.
  unfold Slider.within. apply andb_true_intro.
  split; apply leb_key; exists a, a; repeat split; try assumption;
    intro E; apply lex_Lt in E; lia.
Qed.

(** C10, as stated, fails on infinite bounds: with [low = high = inf] the
    scale is NaN, not zero, and committing ["inf"] gets past the division
    without [ZeroDivisionError]. *)
Lemma Slider_equal_infinite_bounds_raise_no_ZeroDivisionError :
  Slider.__init__ PyBuiltins.format_2_2f "sigma" Float64.infinity
              Float64.infinity None "kwarg" (Some "filter_image") 60
              "horizontal" "move"
  = Return (sigma Float64.infinity Float64.infinity true 500)
  /\ Float64.eqb Float64.infinity Float64.infinity = true
  /\ PyBuiltins.float_of_str "inf" = Some Float64.infinity
  /\ Slider._scale (sigma Float64.infinity Float64.infinity true 500)
     = Float64.nan
  /\ (forall msg,
        fst (Slider._on_editbox_changed
               PyBuiltins.float_of_str PyBuiltins.str_of_float
               (Env (typed "inf"
                       (sigma Float64.infinity Float64.infinity true 500))
                    [] []))
        <> Raise (ZeroDivisionError msg)).
Proof.
  repeat split; try (vm_compute; reflexivity).
  intros msg.
  replace (fst (Slider._on_editbox_changed
                  PyBuiltins.float_of_str PyBuiltins.str_of_float
                  (Env (typed "inf"
                          (sigma Float64.infinity Float64.infinity true 500))
                       [] [])))
    with (@Raise unit (TypeError "argument 1 has unexpected type"))
    by (vm_compute; reflexivity).
  discriminate.
Qed.

(** C10 (amended): the handler does not guard the division by the scale.
    For every Slider whose bounds are finite and equal, committing text
    that parses to that value raises [ZeroDivisionError] and leaves slider,
    text box and callback trace as they were.  And the division is safe
    only if [low < high]: whenever a value within [[low, high]] is committed
    and no [ZeroDivisionError] is raised, [low < high]. *)
Theorem Slider_commit_equal_bounds_divides_by_zero
    (float_of_str : string -> option float) (str_of_float : float -> string)
    (w : Slider.t) (v : float) (cs : list call) (rs : list exn) :
  Slider._scale w
  = Float64.div (Float64.sub (Slider._high w) (Slider._low w))
                (Float64.of_Z 1000) ->
  Float64.is_finite (Slider._low w) = true ->
  float_of_str (Qt.text (Slider.editbox w)) = Some v ->
  (Float64.eqb (Slider._low w) (Slider._high w) = true ->
   Float64.eqb v (Slider._low w) = true ->
   Slider._on_editbox_changed float_of_str str_of_float (Env w cs rs)
   = (Raise (ZeroDivisionError "float division by zero"), Env w cs rs))
  /\
  (Float64.leb (Slider._low w) v = true ->
   Float64.leb v (Slider._high w) = true ->
   (forall msg,
      fst (Slider._on_editbox_changed float_of_str str_of_float (Env w cs rs))
      <> Raise (ZeroDivisionError msg)) ->
   Float64.ltb (Slider._low w) (Slider._high w) = true).
Proof.
  intros Hscale Hfin Hv.
  assert (Hzero : Float64.eqb (Slider._low w) (Slider._high w) = true ->
                  Float64.is_zero (Slider._scale w) = true).
  { intro Heq. rewrite Hscale. apply scale_of_equal_bounds; assumption. }
  split.
  - intros Heq Hvl.
    apply on_editbox_changed_divides_by_zero with (v := v);
      [exact Hv | | exact (Hzero Heq)].
    apply eqb_within; assumption.
  - intros Hlo Hhi Hsafe.
    pose proof (leb_trans _ _ _ Hlo Hhi) as Hle.
    destruct (leb_total_or _ _ Hle) as [Hlt | Heq]; [exact Hlt |].
    exfalso. apply (Hsafe "float division by zero").
    rewrite on_editbox_changed_divides_by_zero with (v := v);
      [reflexivity | exact Hv | | exact (Hzero Heq)].
    unfold Slider.within. rewrite Hlo, Hhi. reflexivity.
Qed.

Lemma Slider_commit_equal_bounds_divides_by_zero_witness :
  Slider._on_editbox_changed
    PyBuiltins.float_of_str PyBuiltins.str_of_float
    (Env (sigma (Float64.of_Z 3) (Float64.of_Z 3) true 500) [] [])
  = (Raise (ZeroDivisionError "float division by zero"),
     Env (sigma (Float64.of_Z 3) (Float64.of_Z 3) true 500) [] []).
Proof.
  assert (Hscale :
            Slider._scale (sigma (Float64.of_Z 3) (Float64.of_Z 3) true 500)
            = Float64.div
                (Float64.sub
                   (Slider._high
                      (sigma (Float64.of_Z 3) (Float64.of_Z 3) true 500))
                   (Slider._low
                      (sigma (Float64.of_Z 3) (Float64.of_Z 3) true 500)))
                (Float64.of_Z 1000)) by reflexivity.
  assert (Hfin :
            Float64.is_finite
              (Slider._low (sigma (Float64.of_Z 3) (Float64.of_Z 3) true 500))
            = true) by (vm_compute; reflexivity).
  assert (Hv :
            PyBuiltins.float_of_str
              (Qt.text
                 (Slider.editbox
                    (sigma (Float64.of_Z 3) (Float64.of_Z 3) true 500)))
            = Some (Float64.of_Z 3)) by (vm_compute; reflexivity).
  apply (proj1 (@Slider_commit_equal_bounds_divides_by_zero
                  PyBuiltins.float_of_str PyBuiltins.str_of_float
                  (sigma (Float64.of_Z 3) (Float64.of_Z 3) true 500)
                  (Float64.of_Z 3) [] [] Hscale Hfin Hv));
    vm_compute; reflexivity.
Defined.

(** [low < high] is not enough for the division to be safe: a range so
    narrow that [(high - low) / 1000] underflows has scale zero too. *)
Example Slider_tiny_range_divides_by_zero :
  Float64.ltb (Float64.of_Z 0) (S754_finite false 1 (-1074)) = true
  /\ Slider._on_editbox_changed
       PyBuiltins.float_of_str PyBuiltins.str_of_float
       (Env (sigma (Float64.of_Z 0) (S754_finite false 1 (-1074)) true 500)
            [] [])
     = (Raise (ZeroDivisionError "float division by zero"),
        Env (sigma (Float64.of_Z 0) (S754_finite false 1 (-1074)) true 500)
            [] []).
Proof. split; vm_compute; reflexivity. Qed.

(** ** Slider: text round trip *)




(** Nor does an accepted value always come back within one step: with
    [low = 1e16] and [high = 1e16 + 4] the value of step 100 is [low]
    itself, and committing it moves the slider to step 0. *)
Example Slider_round_trip_absorbed :
  Slider.val_of (sigma (Float64.of_Z 10000000000000000)
                       (Float64.of_Z 10000000000000004) true 100)
  = Float64.of_Z 10000000000000000
  /\ PyBuiltins.float_of_str "10000000000000000"
     = Some (Float64.of_Z 10000000000000000)
  /\ Qt.value
       (Slider.slider
          (self (snd (commit "10000000000000000"
                        (sigma (Float64.of_Z 10000000000000000)
                               (Float64.of_Z 10000000000000004) true 100)))))
     = 0
  /\ Qt.styleSheet
       (Slider.editbox
          (self (snd (commit "10000000000000000"
                        (sigma (Float64.of_Z 10000000000000000)
                               (Float64.of_Z 10000000000000004) true 100)))))
     = Slider.good_style.
Proof. repeat split; vm_compute; reflexivity. Qed.

Lemma fresh_connected format_2_2f name low high ptype callback
    max_edit_width o update_on k :
  connected (fresh format_2_2f name low high ptype callback max_edit_width o
                   (String.eqb update_on "move") k) update_on.
Proof. constructor; reflexivity. Qed.




(** Step 750 of [[0, 10]]: ["7.5"] is its value, and committing it leaves
    the slider on step 750. *)
Example Slider_round_trip_750 :
  PyBuiltins.float_of_str "7.5"
  = Some (Slider.val_of (sigma (Float64.of_Z 0) (Float64.of_Z 10) true 750))
  /\ round_trip (Float64.of_Z 0) (Float64.of_Z 10) 750 = Some 750
  /\ Qt.value
       (Slider.slider
          (self (snd (commit "7.5"
                        (sigma (Float64.of_Z 0) (Float64.of_Z 10) true 750)))))
     = 750.
Proof. repeat split; vm_compute; reflexivity. Qed.

(** ** ComboBox: sequences of selections *)

(** One [setCurrentIndex], whatever the index asked for. *)
Lemma setCurrentIndex_spec (w : ComboBox.t) cb k cs rs :
  BaseWidget.callback (ComboBox.super w) = Some cb ->
  wired w ->
  ComboBox.setCurrentIndex k (Env w cs rs)
  = (Return tt,
     Env (if selected (Qt.count (ComboBox._combo_box w)) k
             =? Qt.currentIndex (ComboBox._combo_box w)
          then w
          else ComboBox.with_combo_box
                 (Qt.with_index (selected (Qt.count (ComboBox._combo_box w)) k)
                                (ComboBox._combo_box w)) w)
         (cs ++ if selected (Qt.count (ComboBox._combo_box w)) k
                   =? Qt.currentIndex (ComboBox._combo_box w)
                then []
                else [Call cb (BaseWidget.name (ComboBox.super w))
                           (PyInt (selected (Qt.count (ComboBox._combo_box w))
                                            k))])
         rs).
Proof.
  intros Hcb Hw.
  unfold ComboBox.setCurrentIndex, bind, get; cbn.
  fold (selected (Qt.count (ComboBox._combo_box w)) k).
  destruct (selected (Qt.count (ComboBox._combo_box w)) k
            =? Qt.currentIndex (ComboBox._combo_box w)).
  - rewrite app_nil_r. reflexivity.
  - unfold ComboBox.emit_currentIndexChanged, bind, get, update_self, modify;
      cbn.
    rewrite Hw; cbn.
    unfold swallow, _value_changed, call_callback, bind, get; cbn.
    rewrite Hcb. reflexivity.
Qed.

Lemma last_cons {A} (a d : A) (l : list A) : last (a :: l) d = last l a.
Proof.
  revert a d. induction l as [| b l IH]; intros a d; [reflexivity |].
  change (last (a :: b :: l) d) with (last (b :: l) d).
  rewrite !IH. reflexivity.
Qed.

(** X1: the callback of a ComboBox sees the index changes, and nothing else:
    after any sequence of selections the invocations added are those of the
    indices that differ from the one current before them, in order, each
    with the name of the widget; selecting the current item again adds none,
    and an index without an item counts as [-1].  Nothing is raised or
    reported, and the items stay as they are. *)
Theorem ComboBox_trace_is_the_index_changes
    (w : ComboBox.t) (cb : callable) (ks : list Z)
    (cs : list call) (rs : list exn) :
  BaseWidget.callback (ComboBox.super w) = Some cb ->
  wired w ->
  exists w',
    select_all ks (Env w cs rs)
    = (Return tt,
       Env w'
           (cs ++ map (fun k => Call cb (BaseWidget.name (ComboBox.super w))
                                     (PyInt k))
                      (changes (Qt.currentIndex (ComboBox._combo_box w))
                               (map (selected
                                       (Qt.count (ComboBox._combo_box w)))
                                    ks)))
           rs)
    /\ Qt.currentIndex (ComboBox._combo_box w')
       = last (map (selected (Qt.count (ComboBox._combo_box w))) ks)
              (Qt.currentIndex (ComboBox._combo_box w))
    /\ Qt.items (ComboBox._combo_box w') = Qt.items (ComboBox._combo_box w)
    /\ ComboBox.super w' = ComboBox.super w.
Proof.
  intros Hcb Hw. revert w cs Hcb Hw.
  induction ks as [| k r IH]; intros w cs Hcb Hw.
  - exists w. cbn. rewrite app_nil_r. repeat split.
  - cbn [select_all]. unfold bind at 1.
    rewrite (@setCurrentIndex_spec w cb k cs rs Hcb Hw).
    cbn [map changes]. rewrite last_cons.
    set (k' := selected (Qt.count (ComboBox._combo_box w)) k).
    destruct (k' =? Qt.currentIndex (ComboBox._combo_box w)) eqn:E.
    + apply Z.eqb_eq in E. rewrite app_nil_r, E.
      apply IH; assumption.
    + set (w1 := ComboBox.with_combo_box
                   (Qt.with_index k' (ComboBox._combo_box w)) w).
      destruct (IH w1 (cs ++ [Call cb (BaseWidget.name (ComboBox.super w))
                                   (PyInt k')]) Hcb Hw)
        as (w' & Hrun & Hi & Hitems & Hsuper).
      exists w'. rewrite Hrun. cbn in Hi, Hitems, Hsuper |- *.
      rewrite <- app_assoc. repeat split; assumption.
Qed.

Lemma ComboBox_trace_is_the_index_changes_witness :
  exists w',
    select_all [1; 1; 7; 0] (Env method_box [] [])
    = (Return tt,
       Env w'
           ([] ++ map (fun k => Call "filter_image"
                                     (BaseWidget.name
                                        (ComboBox.super method_box))
                                     (PyInt k))
                      (changes (Qt.currentIndex (ComboBox._combo_box method_box))
                               (map (selected
                                       (Qt.count
                                          (ComboBox._combo_box method_box)))
                                    [1; 1; 7; 0])))
           [])
    /\ Qt.currentIndex (ComboBox._combo_box w')
       = last (map (selected (Qt.count (ComboBox._combo_box method_box)))
                   [1; 1; 7; 0])
              (Qt.currentIndex (ComboBox._combo_box method_box))
    /\ Qt.items (ComboBox._combo_box w')
       = Qt.items (ComboBox._combo_box method_box)
    /\ ComboBox.super w' = ComboBox.super method_box.
Proof.
  apply (@ComboBox_trace_is_the_index_changes
           method_box "filter_image" [1; 1; 7; 0] [] []); reflexivity.
Defined.

(** Picking item 1 twice, then an index without an item, then item 0:
    three invocations, with 1, -1 and 0. *)
Example ComboBox_trace_1_1_7_0 :
  calls (snd (select_all [1; 1; 7; 0] (Env method_box [] [])))
  = [Call "filter_image" "method" (PyInt 1);
     Call "filter_image" "method" (PyInt (-1));
     Call "filter_image" "method" (PyInt 0)].
Proof. reflexivity. Qed.

(** X2: a ComboBox built without a callback (the default, [None]) still
    follows the selection: the item picked becomes current, but the slot
    fails on calling [None]; no invocation is recorded and the binding
    reports a [TypeError]. *)
Theorem ComboBox_without_callback_reports_TypeError
    (w : ComboBox.t) (k : Z) (cs : list call) (rs : list exn) :
  BaseWidget.callback (ComboBox.super w) = None ->
  wired w ->
  0 <= k < Qt.count (ComboBox._combo_box w) ->
  k <> Qt.currentIndex (ComboBox._combo_box w) ->
  exists w',
    ComboBox.setCurrentIndex k (Env w cs rs)
    = (Return tt,
       Env w' cs (rs ++ [TypeError "'NoneType' object is not callable"]))
    /\ Qt.currentIndex (ComboBox._combo_box w') = k
    /\ Qt.items (ComboBox._combo_box w') = Qt.items (ComboBox._combo_box w)
    /\ ComboBox.super w' = ComboBox.super w.
Proof.
  intros Hcb Hw [Hlo Hhi] Hne.
  exists (ComboBox.with_combo_box (Qt.with_index k (ComboBox._combo_box w)) w).
  split; [| repeat split].
  unfold ComboBox.setCurrentIndex, bind, get; cbn.
  apply Z.leb_le in Hlo. apply Z.ltb_lt in Hhi. rewrite Hlo, Hhi; cbn.
  apply Z.eqb_neq in Hne. rewrite Hne.
  unfold ComboBox.emit_currentIndexChanged, bind, get, update_self, modify;
    cbn.
  rewrite Hw; cbn.
  unfold swallow, _value_changed, call_callback, bind, get; cbn.
  rewrite Hcb. reflexivity.
Qed.

Lemma ComboBox_without_callback_reports_TypeError_witness :
  exists w',
    ComboBox.setCurrentIndex 1 (Env silent_box [] [])
    = (Return tt,
       Env w' [] ([] ++ [TypeError "'NoneType' object is not callable"]))
    /\ Qt.currentIndex (ComboBox._combo_box w') = 1
    /\ Qt.items (ComboBox._combo_box w')
       = Qt.items (ComboBox._combo_box silent_box)
    /\ ComboBox.super w' = ComboBox.super silent_box.
Proof.
  apply (@ComboBox_without_callback_reports_TypeError silent_box 1 [] []).
  - reflexivity.
  - reflexivity.
  - cbn. lia.
  - cbn. lia.
Defined.

(** ** Slider: what construction accepts and builds *)

Lemma orientation_of_some orientation o :
  orientation_of orientation = Some o ->
  (orientation = "vertical" /\ o = Qt.Vertical)
  \/ (orientation = "horizontal" /\ o = Qt.Horizontal).
Proof.
  unfold orientation_of.
  destruct (String.eqb orientation "vertical") eqn:Ev.
  - apply String.eqb_eq in Ev. intro H. inversion H.
    left. split; [exact Ev | reflexivity].
  - destruct (String.eqb orientation "horizontal") eqn:Eh; [| discriminate].
    apply String.eqb_eq in Eh. intro H. inversion H.
    right. split; [exact Eh | reflexivity].
Qed.

(** [__init__] returns in one way only. *)
Lemma init_inv format_2_2f name low high value ptype callback
    max_edit_width orientation update_on w :
  Slider.__init__ format_2_2f name low high value ptype callback
                  max_edit_width orientation update_on = Return w ->
  exists o k,
    orientation_of orientation = Some o
    /\ (update_on = "move" \/ update_on = "release")
    /\ initial_step value = Return k
    /\ w = fresh format_2_2f name low high ptype callback max_edit_width o
                 (String.eqb update_on "move") k.
Proof.
  unfold Slider.__init__, initial_step, orientation_of.
  destruct (String.eqb orientation "vertical").
  - destruct (Qt.as_int _) as [k | e]; [| discriminate].
    destruct (String.eqb update_on "move") eqn:Em.
    + apply String.eqb_eq in Em. intro H. inversion H.
      exists Qt.Vertical, k. repeat split. left; exact Em.
    + destruct (String.eqb update_on "release") eqn:Er; [| discriminate].
      apply String.eqb_eq in Er. intro H. inversion H.
      exists Qt.Vertical, k. repeat split. right; exact Er.
  - destruct (String.eqb orientation "horizontal"); [| discriminate].
    destruct (Qt.as_int _) as [k | e]; [| discriminate].
    destruct (String.eqb update_on "move") eqn:Em.
    + apply String.eqb_eq in Em. intro H. inversion H.
      exists Qt.Horizontal, k. repeat split. left; exact Em.
    + destruct (String.eqb update_on "release") eqn:Er; [| discriminate].
      apply String.eqb_eq in Er. intro H. inversion H.
      exists Qt.Horizontal, k. repeat split. right; exact Er.
Qed.

Lemma init_refused_value format_2_2f name low high value ptype callback
    max_edit_width orientation update_on e :
  orientation = "vertical" \/ orientation = "horizontal" ->
  initial_step value = Raise e ->
  Slider.__init__ format_2_2f name low high value ptype callback
                  max_edit_width orientation update_on = Raise e.
Proof.
  unfold initial_step. intros Ho He.
  destruct Ho as [-> | ->]; unfold Slider.__init__; cbn; rewrite He;
    reflexivity.
Qed.

(** X3: construction of a Slider succeeds exactly when the orientation is
    ['vertical'] or ['horizontal'], the update trigger is ['move'] or
    ['release'], and [value] is [None] or something the position control
    takes as a step.  The arguments are looked at in that order: with a good
    orientation, a value the position control refuses is what construction
    raises, whatever the update trigger. *)
Theorem Slider_init_succeeds_iff
    (format_2_2f : float -> string) (name : string) (low high : float)
    (value : option pyval) (ptype : string) (callback : option callable)
    (max_edit_width : Z) (orientation update_on : string) :
  ((exists w,
      Slider.__init__ format_2_2f name low high value ptype callback
                      max_edit_width orientation update_on = Return w)
   <-> ((orientation = "vertical" \/ orientation = "horizontal")
        /\ (update_on = "move" \/ update_on = "release")
        /\ exists k, initial_step value = Return k))
  /\ (forall e,
        orientation = "vertical" \/ orientation = "horizontal" ->
        initial_step value = Raise e ->
        Slider.__init__ format_2_2f name low high value ptype callback
                        max_edit_width orientation update_on = Raise e).
Proof.
  split; [split |].
  - intros [w Hw].
    destruct (init_inv _ _ _ _ _ _ _ _ _ _ Hw) as (o & k & Ho & Hu & Hk & _).
    split; [| split; [exact Hu | exists k; exact Hk]].
    destruct (orientation_of_some _ Ho) as [[E _] | [E _]]; auto.
  - intros (Ho & Hu & k & Hk).
    destruct (orientation_of_valid Ho) as [o Ho'].
    eexists. apply init_returns; eassumption.
  - intros e Ho He. apply init_refused_value; assumption.
Qed.

Lemma Slider_init_succeeds_iff_witness :
  Slider.__init__ PyBuiltins.format_2_2f "sigma" (Float64.of_Z 0)
                  (Float64.of_Z 10) (Some (PyStr "5")) "kwarg"
                  (Some "filter_image") 60 "vertical" "click"
  = Raise (TypeError "argument 1 has unexpected type").
Proof.
  apply (proj2 (Slider_init_succeeds_iff
                  PyBuiltins.format_2_2f "sigma" (Float64.of_Z 0)
                  (Float64.of_Z 10) (Some (PyStr "5")) "kwarg"
                  (Some "filter_image") 60 "vertical" "click")).
  - left; reflexivity.
  - reflexivity.
Defined.

(** X4: what construction builds.  The step is [value] (500 for [None]) as
    the position control takes it, bounded to [0, 1000]: a value below 0
    starts at step 0 and one above 1000 at step 1000.  The bounds are kept
    as given and the scale is [(high - low) / 1000]; the text box shows
    ['%2.2f' % val] with no style and the width asked for; the label shows
    the name; the handler of the position control is connected to the one
    signal that [update_on] names; and the layout runs the way of the
    position control. *)
Theorem Slider_init_builds
    (format_2_2f : float -> string) (name : string) (low high : float)
    (value : option pyval) (ptype : string) (callback : option callable)
    (max_edit_width : Z) (orientation update_on : string) (w : Slider.t) :
  Slider.__init__ format_2_2f name low high value ptype callback
                  max_edit_width orientation update_on = Return w ->
  exists k,
    initial_step value = Return k
    /\ Qt.value (Slider.slider w) = Z.max 0 (Z.min k 1000)
    /\ Qt.minimum (Slider.slider w) = 0
    /\ Qt.maximum (Slider.slider w) = 1000
    /\ Slider._low w = low
    /\ Slider._high w = high
    /\ Slider._scale w
       = Float64.div (Float64.sub high low) (Float64.of_Z 1000)
    /\ Qt.text (Slider.editbox w) = format_2_2f (Slider.val_of w)
    /\ Qt.styleSheet (Slider.editbox w) = ""
    /\ Qt.maximumWidth (Slider.editbox w) = max_edit_width
    /\ Qt.label_text (Slider.name_label w) = name
    /\ Slider.super w = BaseWidget.__init__ name ptype callback
    /\ connected w update_on
    /\ Slider.direction (Slider.layout w) = Qt.orientation (Slider.slider w)
    /\ (orientation = "vertical"
        -> Qt.orientation (Slider.slider w) = Qt.Vertical)
    /\ (orientation = "horizontal"
        -> Qt.orientation (Slider.slider w) = Qt.Horizontal).
Proof.
  intro Hw.
  destruct (init_inv _ _ _ _ _ _ _ _ _ _ Hw) as (o & k & Ho & Hu & Hk & ->).
  exists k. split; [exact Hk |].
  repeat (split; [reflexivity |]).
  split; [apply fresh_connected |].
  split; [reflexivity |].
  destruct (orientation_of_some _ Ho) as [[-> ->] | [-> ->]];
    split; intro E; try reflexivity; discriminate.
Qed.

Lemma Slider_init_builds_witness :
  exists k,
    initial_step (Some (PyInt 2000)) = Return k
    /\ Qt.value (Slider.slider
                   (sigma (Float64.of_Z 0) (Float64.of_Z 10) true 2000))
       = Z.max 0 (Z.min k 1000)
    /\ Qt.minimum (Slider.slider
                     (sigma (Float64.of_Z 0) (Float64.of_Z 10) true 2000)) = 0
    /\ Qt.maximum (Slider.slider
                     (sigma (Float64.of_Z 0) (Float64.of_Z 10) true 2000))
       = 1000
    /\ Slider._low (sigma (Float64.of_Z 0) (Float64.of_Z 10) true 2000)
       = Float64.of_Z 0
    /\ Slider._high (sigma (Float64.of_Z 0) (Float64.of_Z 10) true 2000)
       = Float64.of_Z 10
    /\ Slider._scale (sigma (Float64.of_Z 0) (Float64.of_Z 10) true 2000)
       = Float64.div (Float64.sub (Float64.of_Z 10) (Float64.of_Z 0))
                     (Float64.of_Z 1000)
    /\ Qt.text (Slider.editbox
                  (sigma (Float64.of_Z 0) (Float64.of_Z 10) true 2000))
       = PyBuiltins.format_2_2f
           (Slider.val_of (sigma (Float64.of_Z 0) (Float64.of_Z 10) true 2000))
    /\ Qt.styleSheet
         (Slider.editbox (sigma (Float64.of_Z 0) (Float64.of_Z 10) true 2000))
       = ""
    /\ Qt.maximumWidth
         (Slider.editbox (sigma (Float64.of_Z 0) (Float64.of_Z 10) true 2000))
       = 60
    /\ Qt.label_text
         (Slider.name_label
            (sigma (Float64.of_Z 0) (Float64.of_Z 10) true 2000))
       = "sigma"
    /\ Slider.super (sigma (Float64.of_Z 0) (Float64.of_Z 10) true 2000)
       = BaseWidget.__init__ "sigma" "kwarg" (Some "filter_image")
    /\ connected (sigma (Float64.of_Z 0) (Float64.of_Z 10) true 2000) "move"
    /\ Slider.direction
         (Slider.layout (sigma (Float64.of_Z 0) (Float64.of_Z 10) true 2000))
       = Qt.orientation
           (Slider.slider (sigma (Float64.of_Z 0) (Float64.of_Z 10) true 2000))
    /\ ("horizontal" = "vertical"
        -> Qt.orientation
             (Slider.slider
                (sigma (Float64.of_Z 0) (Float64.of_Z 10) true 2000))
           = Qt.Vertical)
    /\ ("horizontal" = "horizontal"
        -> Qt.orientation
             (Slider.slider
                (sigma (Float64.of_Z 0) (Float64.of_Z 10) true 2000))
           = Qt.Horizontal).
Proof.
  apply (@Slider_init_builds
           PyBuiltins.format_2_2f "sigma" (Float64.of_Z 0) (Float64.of_Z 10)
           (Some (PyInt 2000)) "kwarg" (Some "filter_image") 60
           "horizontal" "move"
           (sigma (Float64.of_Z 0) (Float64.of_Z 10) true 2000)).
  vm_compute. reflexivity.
Defined.

(** Asked to start at 2000, or at -3, the slider of [[0, 10]] starts at
    its last step, or its first: at [10.0], or at [0.0]. *)
Example Slider_init_out_of_range :
  Slider.__init__ PyBuiltins.format_2_2f "sigma" (Float64.of_Z 0)
                  (Float64.of_Z 10) (Some (PyInt 2000)) "kwarg"
                  (Some "filter_image") 60 "horizontal" "move"
  = Return (sigma (Float64.of_Z 0) (Float64.of_Z 10) true 2000)
  /\ Qt.value (Slider.slider
                 (sigma (Float64.of_Z 0) (Float64.of_Z 10) true 2000)) = 1000
  /\ Slider.val_of (sigma (Float64.of_Z 0) (Float64.of_Z 10) true 2000)
     = Float64.of_Z 10
  /\ Qt.value (Slider.slider
                 (sigma (Float64.of_Z 0) (Float64.of_Z 10) true (-3))) = 0
  /\ Slider.val_of (sigma (Float64.of_Z 0) (Float64.of_Z 10) true (-3))
     = Float64.of_Z 0.
Proof. repeat split; vm_compute; reflexivity. Qed.

(** ** Slider: what a session keeps *)

Lemma frame_inv (w w' : Slider.t) :
  frame w = frame w' ->
  super w = super w' /\ _scale w = _scale w' /\ _low w = _low w'
  /\ _high w = _high w'
  /\ Qt.minimum (slider w) = Qt.minimum (slider w')
  /\ Qt.maximum (slider w) = Qt.maximum (slider w')
  /\ Qt.valueChanged (slider w) = Qt.valueChanged (slider w')
  /\ Qt.sliderReleased (slider w) = Qt.sliderReleased (slider w')
  /\ editingFinished w = editingFinished w'.
Proof. unfold frame. intro H. inversion H. repeat split; assumption. Qed.

(** The handler of the position control, in full. *)
Lemma on_slider_changed_eq str_of_float (w : Slider.t) cs rs :
  _on_slider_changed str_of_float (Env w cs rs)
  = match BaseWidget.callback (super w) with
    | Some cb =>
        (Return tt,
         Env (shown str_of_float w)
             (cs ++ [Call cb (BaseWidget.name (super w)) (PyFloat (val_of w))])
             rs)
    | None =>
        (Raise (TypeError "'NoneType' object is not callable"),
         Env (shown str_of_float w) cs rs)
    end.
Proof.
  unfold _on_slider_changed, call_callback, val, bind, get, ret, update_self,
    modify; cbn.
  destruct (BaseWidget.callback (super w)); reflexivity.
Qed.

Lemma as_int_allowed (v : pyval) (e : exn) :
  Qt.as_int v = Raise e -> allowed e.
Proof.
  unfold Qt.as_int. destruct v as [z | f | s].
  - destruct (Qt.fits_int z); intro H; inversion H. exact I.
  - destruct (Float64.trunc f) as [z |];
      [destruct (Qt.fits_int z) |]; intro H; inversion H; exact I.
  - intro H; inversion H. exact I.
Qed.

Section Sessions.

Variable float_of_str : string -> option float.
Variable str_of_float : float -> string.
Variable w0 : Slider.t.
Hypothesis Hmin : Qt.minimum (slider w0) = 0.
Hypothesis Hmax : Qt.maximum (slider w0) = 1000.

Lemma sound_ret {A} (a : A) : sound w0 (ret a).
Proof. intros s K. split; [exact K | discriminate]. Qed.

Lemma sound_raise {A} (e : exn) : allowed e -> sound w0 (@raise _ A e).
Proof.
  intros He s K. split; [exact K |].
  intros e' H. inversion H. subst e'. exact He.
Qed.

Lemma sound_bind {A B} (c : M (env Slider.t) A) (k : A -> M (env Slider.t) B) :
  sound w0 c -> (forall a, sound w0 (k a)) -> sound w0 (bind c k).
Proof.
  intros Hc Hk s K. unfold bind.
  destruct (Hc s K) as [K' He].
  destruct (c s) as [[a | e] s']; cbn [fst snd] in *.
  - apply Hk. exact K'.
  - split; [exact K' |].
    intros e' H. inversion H. subst e'. apply He. reflexivity.
Qed.

Lemma sound_get {A} (k : env Slider.t -> M (env Slider.t) A) :
  (forall s, kept w0 s -> sound w0 (k s)) -> sound w0 (bind get k).
Proof. intros H s K. unfold bind, get. exact (H s K s K). Qed.

Lemma sound_swallow (c : M (env Slider.t) unit) :
  sound w0 c -> sound w0 (swallow c).
Proof.
  intros Hc s K. unfold swallow.
  destruct (Hc s K) as [K' He].
  destruct (c s) as [[a | e] s']; cbn [fst snd] in *.
  - split; [exact K' | discriminate].
  - split; [| discriminate].
    destruct K' as [Hf Hs Hcs Hrs].
    constructor; cbn; try assumption.
    apply Forall_app. split; [exact Hrs |].
    constructor; [apply He; reflexivity | constructor].
Qed.

Lemma sound_emit {slot A} (run : slot -> A -> M (env Slider.t) unit)
    (slots : list slot) (a : A) :
  (forall f, sound w0 (run f a)) -> sound w0 (emit run slots a).
Proof.
  intro Hrun. induction slots as [| f fs IH]; cbn [emit].
  - apply sound_ret.
  - apply sound_bind; [apply sound_swallow; apply Hrun | intros _; exact IH].
Qed.

Lemma sound_update_self (f : Slider.t -> Slider.t) :
  (forall w, frame (f w) = frame w
             /\ Qt.value (slider (f w)) = Qt.value (slider w)) ->
  sound w0 (update_self f).
Proof.
  intros Hf [w cs rs] [Hfr Hs Hcs Hrs]. cbn in *.
  destruct (Hf w) as [E1 E2].
  split; [| discriminate].
  constructor; cbn; try assumption.
  - rewrite E1. exact Hfr.
  - rewrite E2. exact Hs.
Qed.

Lemma sound_on_slider_changed : sound w0 (_on_slider_changed str_of_float).
Proof.
  intros [w cs rs] K. rewrite on_slider_changed_eq.
  destruct K as [Hf Hs Hcs Hrs]; cbn in Hf, Hs, Hcs, Hrs.
  destruct (frame_inv Hf) as (Hsuper & Hscale & Hlow & _).
  destruct (BaseWidget.callback (super w)) as [cb |] eqn:Ecb; cbn [fst snd].
  - split; [| discriminate].
    constructor; cbn; try assumption.
    apply Forall_app. split; [exact Hcs |].
    constructor; [| constructor].
    unfold announces; cbn.
    rewrite <- Hsuper. split; [exact Ecb |]. split; [reflexivity |].
    exists (Qt.value (slider w)). split; [exact Hs |].
    unfold val_of. rewrite Hscale, Hlow. reflexivity.
  - split.
    + constructor; cbn; assumption.
    + intros e H. inversion H. exact I.
Qed.

Lemma sound_slider_setValue (v : pyval) :
  sound w0 (slider_setValue str_of_float v).
Proof.
  intros [w cs rs] K. unfold slider_setValue, bind, lift, get.
  destruct (Qt.as_int v) as [k | e] eqn:Ek; cbn [fst snd self].
  - destruct (bounded k (slider w) =? Qt.value (slider w)).
    + apply sound_ret. exact K.
    + unfold update_self, modify; cbn [fst snd self calls reported].
      apply sound_emit.
      * intros []. exact sound_on_slider_changed.
      * destruct K as [Hf Hs Hcs Hrs]; cbn in Hf, Hs, Hcs, Hrs.
        destruct (frame_inv Hf) as (_ & _ & _ & _ & Hlo & Hhi & _).
        constructor; cbn; try assumption.
        unfold bounded, Qt.qBound. rewrite Hlo, Hhi, Hmin, Hmax. lia.
  - split; [exact K |].
    intros e' H. inversion H. subst e'. exact (as_int_allowed _ Ek).
Qed.

Lemma sound_bad_editbox_input : sound w0 _bad_editbox_input.
Proof. apply sound_update_self. intro w. split; reflexivity. Qed.

Lemma sound_good_editbox_input : sound w0 _good_editbox_input.
Proof. apply sound_update_self. intro w. split; reflexivity. Qed.

Lemma sound_truediv (x y : float) : sound w0 (py_truediv x y).
Proof.
  unfold py_truediv. destruct (Float64.is_zero y).
  - apply sound_raise. exact I.
  - apply sound_ret.
Qed.

Lemma sound_on_editbox_changed :
  sound w0 (_on_editbox_changed float_of_str str_of_float).
Proof.
  unfold _on_editbox_changed. apply sound_get. intros s _. cbv zeta.
  destruct (float_of_str (Qt.text (editbox (self s)))) as [v |];
    [| apply sound_bad_editbox_input].
  destruct (negb (within (_low (self s)) v (_high (self s))));
    [apply sound_bad_editbox_input |].
  apply sound_bind; [apply sound_truediv | intro q].
  apply sound_bind; [apply sound_slider_setValue | intros _].
  apply sound_good_editbox_input.
Qed.

Lemma sound_perform (a : action) :
  sound w0 (perform float_of_str str_of_float a).
Proof.
  destruct a as [k | | txt]; cbn [perform].
  - apply sound_slider_setValue.
  - unfold user_releases. apply sound_get. intros s _.
    apply sound_emit. intros []. exact sound_on_slider_changed.
  - unfold user_commits. apply sound_bind.
    + apply sound_update_self. intro w. split; reflexivity.
    + intros _. apply sound_get. intros s _.
      apply sound_emit. intros []. exact sound_on_editbox_changed.
Qed.

Lemma session_kept (l : list action) (s : env Slider.t) :
  kept w0 s -> kept w0 (session float_of_str str_of_float l s).
Proof.
  revert s. induction l as [| a r IH]; intros s K; cbn [session].
  - exact K.
  - apply IH. apply sound_perform. exact K.
Qed.

End Sessions.

Lemma qBound_range (lo v hi : Z) : lo <= hi -> lo <= Qt.qBound lo v hi <= hi.
Proof. unfold Qt.qBound. lia. Qed.

Lemma fresh_kept format_2_2f name low high ptype callback max_edit_width o
    move k :
  kept (fresh format_2_2f name low high ptype callback max_edit_width o move k)
       (Env (fresh format_2_2f name low high ptype callback max_edit_width o
                   move k) [] []).
Proof.
  constructor; cbn [self calls reported]; try constructor.
  - apply (@qBound_range 0 k 1000). lia.
  - apply (@qBound_range 0 k 1000). lia.
Qed.

(** X5: whatever the user does with a slider after its construction (moving
    the handle, letting it go, committing text, good or bad, with or without
    a callback, in either update mode), the widget keeps its name, type,
    callback, bounds, scale, layout, label, wiring and the geometry of its
    controls: only the step, the text and the style of the text box
    change.  The step stays in [0, 1000], and [val] stays [step * ((high -
    low) / 1000) + low] for the bounds given at construction. *)
Theorem Slider_session_keeps_configuration
    (float_of_str : string -> option float) (str_of_float : float -> string)
    (format_2_2f : float -> string) (name : string) (low high : float)
    (value : option pyval) (ptype : string) (callback : option callable)
    (max_edit_width : Z) (orientation update_on : string) (w : Slider.t)
    (l : list action) :
  Slider.__init__ format_2_2f name low high value ptype callback
                  max_edit_width orientation update_on = Return w ->
  frame (self (session float_of_str str_of_float l (Env w [] []))) = frame w
  /\ 0 <= Qt.value
            (Slider.slider
               (self (session float_of_str str_of_float l (Env w [] []))))
       <= 1000
  /\ Slider._low (self (session float_of_str str_of_float l (Env w [] [])))
     = low
  /\ Slider._high (self (session float_of_str str_of_float l (Env w [] [])))
     = high
  /\ Slider.val_of (self (session float_of_str str_of_float l (Env w [] [])))
     = Slider.val_at
         (Qt.value
            (Slider.slider
               (self (session float_of_str str_of_float l (Env w [] [])))))
         (Float64.div (Float64.sub high low) (Float64.of_Z 1000)) low.
Proof.
  intro Hw.
  destruct (init_inv _ _ _ _ _ _ _ _ _ _ Hw) as (o & k & _ & _ & _ & ->).
  set (w := fresh format_2_2f name low high ptype callback max_edit_width o
                  (String.eqb update_on "move") k).
  assert (K : kept w (session float_of_str str_of_float l (Env w [] [])))
    by (apply session_kept; [reflexivity | reflexivity | apply fresh_kept]).
  destruct K as [Hf Hs _ _].
  destruct (frame_inv Hf) as (_ & Hscale & Hlow & Hhigh & _).
  split; [exact Hf |]. split; [exact Hs |].
  split; [exact Hlow |]. split; [exact Hhigh |].
  unfold val_of. rewrite Hscale, Hlow. reflexivity.
Qed.

Lemma Slider_session_keeps_configuration_witness :
  frame (self (session PyBuiltins.float_of_str PyBuiltins.str_of_float
                       [Move 750; Commit "abc"; Commit "2.5"; Release]
                       (Env (sigma (Float64.of_Z 0) (Float64.of_Z 10) true 500)
                            [] [])))
  = frame (sigma (Float64.of_Z 0) (Float64.of_Z 10) true 500)
  /\ 0 <= Qt.value
            (Slider.slider
               (self (session PyBuiltins.float_of_str PyBuiltins.str_of_float
                              [Move 750; Commit "abc"; Commit "2.5"; Release]
                              (Env (sigma (Float64.of_Z 0) (Float64.of_Z 10)
                                          true 500) [] []))))
       <= 1000
  /\ Slider._low
       (self (session PyBuiltins.float_of_str PyBuiltins.str_of_float
                      [Move 750; Commit "abc"; Commit "2.5"; Release]
                      (Env (sigma (Float64.of_Z 0) (Float64.of_Z 10) true 500)
                           [] [])))
     = Float64.of_Z 0
  /\ Slider._high
       (self (session PyBuiltins.float_of_str PyBuiltins.str_of_float
                      [Move 750; Commit "abc"; Commit "2.5"; Release]
                      (Env (sigma (Float64.of_Z 0) (Float64.of_Z 10) true 500)
                           [] [])))
     = Float64.of_Z 10
  /\ Slider.val_of
       (self (session PyBuiltins.float_of_str PyBuiltins.str_of_float
                      [Move 750; Commit "abc"; Commit "2.5"; Release]
                      (Env (sigma (Float64.of_Z 0) (Float64.of_Z 10) true 500)
                           [] [])))
     = Slider.val_at
         (Qt.value
            (Slider.slider
               (self (session PyBuiltins.float_of_str PyBuiltins.str_of_float
                              [Move 750; Commit "abc"; Commit "2.5"; Release]
                              (Env (sigma (Float64.of_Z 0) (Float64.of_Z 10)
                                          true 500) [] [])))))
         (Float64.div (Float64.sub (Float64.of_Z 10) (Float64.of_Z 0))
                      (Float64.of_Z 1000))
         (Float64.of_Z 0).
Proof.
  apply (@Slider_session_keeps_configuration
           PyBuiltins.float_of_str PyBuiltins.str_of_float
           PyBuiltins.format_2_2f "sigma" (Float64.of_Z 0) (Float64.of_Z 10)
           None "kwarg" (Some "filter_image") 60 "horizontal" "move"
           (sigma (Float64.of_Z 0) (Float64.of_Z 10) true 500)
           [Move 750; Commit "abc"; Commit "2.5"; Release]).
  vm_compute. reflexivity.
Defined.



(** The session of the witnesses: a move to step 750, a commit that is
    refused, a commit that is taken, a release.  Two invocations, with
    [7.5] and [2.5], and the slider ends on step 250. *)
Example Slider_session_0_10 :
  calls (session PyBuiltins.float_of_str PyBuiltins.str_of_float
                 [Move 750; Commit "abc"; Commit "2.5"; Release]
                 (Env (sigma (Float64.of_Z 0) (Float64.of_Z 10) true 500)
                      [] []))
  = [Call "filter_image" "sigma" (PyFloat (Float64.of_ratio 75 10));
     Call "filter_image" "sigma" (PyFloat (Float64.of_ratio 25 10))]
  /\ Qt.value
       (Slider.slider
          (self (session PyBuiltins.float_of_str PyBuiltins.str_of_float
                         [Move 750; Commit "abc"; Commit "2.5"; Release]
                         (Env (sigma (Float64.of_Z 0) (Float64.of_Z 10) true
                                     500) [] []))))
     = 250.
Proof. split; vm_compute; reflexivity. Qed.

(** ** Slider: moving and releasing the handle *)

Lemma substring_length (n : nat) (s : string) :
  (String.length (substring 0 n s) <= n)%nat.
Proof.
  revert s. induction n as [| n IH]; intros [| c s]; cbn; try lia.
  specialize (IH s). lia.
Qed.

(** [setValue(k)] in full, for a slider that updates on move. *)
Lemma setValue_on_move str_of_float (w : Slider.t) (k : Z) cs rs :
  Qt.valueChanged (slider w) = [Slot_on_slider_changed] ->
  bounded k (slider w) <> Qt.value (slider w) ->
  slider_setValue str_of_float (PyInt k) (Env w cs rs)
  = match Qt.as_int (PyInt k) with
    | Raise e => (Raise e, Env w cs rs)
    | Return k0 =>
        (swallow (_on_slider_changed str_of_float) ;;; ret tt)
          (Env (with_slider (Qt.with_value (bounded k0 (slider w)) (slider w))
                            w) cs rs)
    end.
Proof.
  intros Hvc Hne. unfold slider_setValue, bind at 1, lift.
  destruct (Qt.as_int (PyInt k)) as [k0 | e] eqn:Ek; [| reflexivity].
  assert (k0 = k).
  { unfold Qt.as_int in Ek. destruct (Qt.fits_int k); inversion Ek.
    reflexivity. }
  subst k0. unfold bind at 1, get. cbv zeta. cbn [self].
  apply Z.eqb_neq in Hne. rewrite Hne.
  unfold bind at 1, update_self, modify. cbn [self calls reported].
  rewrite Hvc. reflexivity.
Qed.

(** X7: a slider that updates on ['move'] calls back at every change of
    step, and only then.  Moving the handle to the step it is on does
    nothing. Moving it to another step stores the step (bounded to the range
    of the control), puts the first four characters of [str(val)] in the
    text box, whose style is left alone, and invokes the callback once with
    the name and the new [val].  Letting go of the handle does nothing. *)
Theorem Slider_move_mode_notifies_each_change
    (str_of_float : float -> string) (w : Slider.t) (cb : callable) (k : Z)
    (cs : list call) (rs : list exn) :
  connected w "move" ->
  BaseWidget.callback (Slider.super w) = Some cb ->
  - 2 ^ 31 <= k <= 2 ^ 31 - 1 ->
  (Slider.bounded k (Slider.slider w) = Qt.value (Slider.slider w) ->
   Slider.user_moves str_of_float k (Env w cs rs) = (Return tt, Env w cs rs))
  /\ (Slider.bounded k (Slider.slider w) <> Qt.value (Slider.slider w) ->
      exists w',
        Slider.user_moves str_of_float k (Env w cs rs)
        = (Return tt,
           Env w'
               (cs ++ [Call cb (BaseWidget.name (Slider.super w))
                            (PyFloat (Slider.val_of w'))])
               rs)
        /\ Qt.value (Slider.slider w') = Slider.bounded k (Slider.slider w)
        /\ Qt.text (Slider.editbox w')
           = substring 0 4 (str_of_float (Slider.val_of w'))
        /\ (String.length (Qt.text (Slider.editbox w')) <= 4)%nat
        /\ Qt.styleSheet (Slider.editbox w')
           = Qt.styleSheet (Slider.editbox w)
        /\ frame w' = frame w)
  /\ Slider.user_releases str_of_float (Env w cs rs)
     = (Return tt, Env w cs rs).
Proof.
  intros Hc Hcb Hk.
  pose proof (@slider_setValue_spec str_of_float w (PyInt k) k "move" cb cs rs
                Hc Hcb (as_int_PyInt Hk)) as Hset.
  unfold stepped, notified in Hset.
  split; [| split].
  - intro E. apply Z.eqb_eq in E. unfold user_moves. rewrite Hset, E.
    cbn. rewrite app_nil_r. reflexivity.
  - intro Hne.
    exists (shown str_of_float
              (with_slider (Qt.with_value (bounded k (slider w)) (slider w))
                           w)).
    split.
    + apply Z.eqb_neq in Hne. unfold user_moves. rewrite Hset, Hne.
      reflexivity.
    + repeat split. apply substring_length.
  - destruct Hc as [_ Hsr _]. unfold user_releases, bind, get; cbn.
    rewrite Hsr. reflexivity.
Qed.

Lemma Slider_move_mode_notifies_each_change_witness :
  (Slider.bounded 750
     (Slider.slider (sigma (Float64.of_Z 0) (Float64.of_Z 10) true 500))
   = Qt.value
       (Slider.slider (sigma (Float64.of_Z 0) (Float64.of_Z 10) true 500)) ->
   Slider.user_moves PyBuiltins.str_of_float 750
     (Env (sigma (Float64.of_Z 0) (Float64.of_Z 10) true 500) [] [])
   = (Return tt,
      Env (sigma (Float64.of_Z 0) (Float64.of_Z 10) true 500) [] []))
  /\ (Slider.bounded 750
        (Slider.slider (sigma (Float64.of_Z 0) (Float64.of_Z 10) true 500))
      <> Qt.value
           (Slider.slider (sigma (Float64.of_Z 0) (Float64.of_Z 10) true 500))
      ->
      exists w',
        Slider.user_moves PyBuiltins.str_of_float 750
          (Env (sigma (Float64.of_Z 0) (Float64.of_Z 10) true 500) [] [])
        = (Return tt,
           Env w'
               ([] ++ [Call "filter_image"
                            (BaseWidget.name
                               (Slider.super
                                  (sigma (Float64.of_Z 0) (Float64.of_Z 10)
                                         true 500)))
                            (PyFloat (Slider.val_of w'))])
               [])
        /\ Qt.value (Slider.slider w')
           = Slider.bounded 750
               (Slider.slider
                  (sigma (Float64.of_Z 0) (Float64.of_Z 10) true 500))
        /\ Qt.text (Slider.editbox w')
           = substring 0 4 (PyBuiltins.str_of_float (Slider.val_of w'))
        /\ (String.length (Qt.text (Slider.editbox w')) <= 4)%nat
        /\ Qt.styleSheet (Slider.editbox w')
           = Qt.styleSheet
               (Slider.editbox
                  (sigma (Float64.of_Z 0) (Float64.of_Z 10) true 500))
        /\ frame w' = frame (sigma (Float64.of_Z 0) (Float64.of_Z 10) true 500))
  /\ Slider.user_releases PyBuiltins.str_of_float
       (Env (sigma (Float64.of_Z 0) (Float64.of_Z 10) true 500) [] [])
     = (Return tt,
        Env (sigma (Float64.of_Z 0) (Float64.of_Z 10) true 500) [] []).
Proof.
  apply (@Slider_move_mode_notifies_each_change
           PyBuiltins.str_of_float
           (sigma (Float64.of_Z 0) (Float64.of_Z 10) true 500)
           "filter_image" 750 [] []).
  - constructor; reflexivity.
  - reflexivity.
  - lia.
Defined.

(** The text box after a move holds four characters at most: a slider
    over [[0, 100000]] moved to step 750, whose value is [75000.0],
    shows ["7500"]. *)
Example Slider_move_shows_four_characters :
  Slider.val_of
    (self (snd (Slider.user_moves PyBuiltins.str_of_float 750
                  (Env (sigma (Float64.of_Z 0) (Float64.of_Z 100000) true 500)
                       [] []))))
  = Float64.of_Z 75000
  /\ Qt.text
       (Slider.editbox
          (self (snd (Slider.user_moves PyBuiltins.str_of_float 750
                        (Env (sigma (Float64.of_Z 0) (Float64.of_Z 100000)
                                    true 500) [] [])))))
     = "7500".
Proof. split; vm_compute; reflexivity. Qed.

(** X8: a Slider built without a callback (the default, [None]) and updating
    on ['move'] still follows the handle: the step is stored and the text
    box rewritten, then calling [None] fails; no invocation is recorded and
    the binding reports a [TypeError]. *)
Theorem Slider_without_callback_reports_TypeError
    (str_of_float : float -> string) (w : Slider.t) (k : Z)
    (cs : list call) (rs : list exn) :
  connected w "move" ->
  BaseWidget.callback (Slider.super w) = None ->
  - 2 ^ 31 <= k <= 2 ^ 31 - 1 ->
  Slider.bounded k (Slider.slider w) <> Qt.value (Slider.slider w) ->
  exists w',
    Slider.user_moves str_of_float k (Env w cs rs)
    = (Return tt,
       Env w' cs (rs ++ [TypeError "'NoneType' object is not callable"]))
    /\ Qt.value (Slider.slider w') = Slider.bounded k (Slider.slider w)
    /\ Qt.text (Slider.editbox w')
       = substring 0 4 (str_of_float (Slider.val_of w'))
    /\ frame w' = frame w.
Proof.
  intros [Hvc _ _] Hcb Hk Hne. cbn in Hvc.
  exists (shown str_of_float
            (with_slider (Qt.with_value (bounded k (slider w)) (slider w)) w)).
  split; [| repeat split].
  unfold user_moves.
  rewrite (@setValue_on_move str_of_float w k cs rs Hvc Hne).
  rewrite (as_int_PyInt Hk).
  unfold bind, swallow. rewrite on_slider_changed_eq.
  cbn [super with_slider]. rewrite Hcb. reflexivity.
Qed.

Lemma Slider_without_callback_reports_TypeError_witness :
  exists w',
    Slider.user_moves PyBuiltins.str_of_float 750
      (Env (silent (Float64.of_Z 0) (Float64.of_Z 10) true 500) [] [])
    = (Return tt,
       Env w' [] ([] ++ [TypeError "'NoneType' object is not callable"]))
    /\ Qt.value (Slider.slider w')
       = Slider.bounded 750
           (Slider.slider (silent (Float64.of_Z 0) (Float64.of_Z 10) true 500))
    /\ Qt.text (Slider.editbox w')
       = substring 0 4 (PyBuiltins.str_of_float (Slider.val_of w'))
    /\ frame w' = frame (silent (Float64.of_Z 0) (Float64.of_Z 10) true 500).
Proof.
  apply (@Slider_without_callback_reports_TypeError
           PyBuiltins.str_of_float
           (silent (Float64.of_Z 0) (Float64.of_Z 10) true 500) 750 [] []).
  - constructor; reflexivity.
  - reflexivity.
  - lia.
  - cbn. lia.
Defined.

(** *** Update on release *)

Section Release.

Variable float_of_str : string -> option float.
Variable str_of_float : float -> string.
Variable w0 : Slider.t.
Variable cb : callable.
Hypothesis Hmin : Qt.minimum (slider w0) = 0.
Hypothesis Hmax : Qt.maximum (slider w0) = 1000.
Hypothesis Hwired : connected w0 "release".
Hypothesis Hcb : BaseWidget.callback (super w0) = Some cb.





End Release.



(** That session: three releases, three invocations, with [7.5], [2.5]
    and [2.5] again. *)
Example Slider_release_session_0_10 :
  calls (session PyBuiltins.float_of_str PyBuiltins.str_of_float
                 [Move 750; Release; Commit "2.5"; Release; Release]
                 (Env (sigma (Float64.of_Z 0) (Float64.of_Z 10) false 500)
                      [] []))
  = [Call "filter_image" "sigma" (PyFloat (Float64.of_ratio 75 10));
     Call "filter_image" "sigma" (PyFloat (Float64.of_ratio 25 10));
     Call "filter_image" "sigma" (PyFloat (Float64.of_ratio 25 10))].
Proof. vm_compute. reflexivity. Qed.

(** ** Slider: the first step and the lower bound *)

Lemma key_leb (x y : float) (a : Z * Z * Z) :
  key x = Some a -> key y = Some a -> Float64.leb x y = true.
Proof.
  intros Hx Hy. apply leb_key. exists a, a. repeat split; try assumption.
  rewrite (proj2 (lex_Eq a a) eq_refl). discriminate.
Qed.

Lemma not_nan_key (x : float) :
  Float64.is_nan x = false -> exists a, key x = Some a.
Proof.
  destruct x as [[] | [] | | [] m e]; intro H; try discriminate;
    eexists; reflexivity.
Qed.

(** Step 0 times a finite scale is a zero, and adding it changes nothing. *)
Lemma val_at_0 (scale low : float) :
  Float64.is_finite scale = true ->
  key (val_at 0 scale low) = key low
  /\ (Float64.is_zero low = false -> val_at 0 scale low = low).
Proof.
  intro Fs. unfold val_at. rewrite of_Z_0.
  destruct scale as [[] | [] | | [] ms es]; try discriminate;
    destruct low as [[] | [] | | [] ml el];
    split; try reflexivity; intro H; try discriminate H; reflexivity.
Qed.

(** X10: on its first step a slider is at its lower bound: whenever the
    scale is finite and [low] is a number, [val] at step 0 equals [low], and
    is [low] itself unless [low] is a zero (when it may be the zero of the
    other sign). *)
Theorem Slider_val_at_step_0_is_low
    (w : Slider.t) (cs : list call) (rs : list exn) :
  Qt.value (Slider.slider w) = 0 ->
  Float64.is_finite (Slider._scale w) = true ->
  Float64.is_nan (Slider._low w) = false ->
  exists v,
    Slider.val (Env w cs rs) = (Return v, Env w cs rs)
    /\ Float64.eqb v (Slider._low w) = true
    /\ (Float64.is_zero (Slider._low w) = false -> v = Slider._low w).
Proof.
  intros Hv Fs Hn. exists (val_of w). split; [reflexivity |].
  unfold val_of. rewrite Hv.
  destruct (val_at_0 (_scale w) (_low w) Fs) as [Hk Hz].
  split; [| exact Hz].
  destruct (not_nan_key _ Hn) as [a Ha].
  apply eqb_key. exists a. split; [rewrite Hk |]; exact Ha.
Qed.

Lemma Slider_val_at_step_0_is_low_witness :
  exists v,
    Slider.val
      (Env (sigma (Float64.of_ratio 3 10) (Float64.of_ratio 9 10) true 0)
           [] [])
    = (Return v,
       Env (sigma (Float64.of_ratio 3 10) (Float64.of_ratio 9 10) true 0)
           [] [])
    /\ Float64.eqb v
         (Slider._low
            (sigma (Float64.of_ratio 3 10) (Float64.of_ratio 9 10) true 0))
       = true
    /\ (Float64.is_zero
          (Slider._low
             (sigma (Float64.of_ratio 3 10) (Float64.of_ratio 9 10) true 0))
        = false ->
        v = Slider._low
              (sigma (Float64.of_ratio 3 10) (Float64.of_ratio 9 10) true 0)).
Proof.
  apply (@Slider_val_at_step_0_is_low
           (sigma (Float64.of_ratio 3 10) (Float64.of_ratio 9 10) true 0)
           [] []); vm_compute; reflexivity.
Defined.

(** X11: the value of a slider is never below its lower bound: for finite
    bounds [low < high] whose width does not overflow, and every step in [0,
    1000], [low <= val].  (On the side of [high] there is no such bound:
    rounding can take the value of the last step above it.) *)
Theorem Slider_val_is_never_below_low
    (low high : float) (w : Slider.t) (cs : list call) (rs : list exn) :
  Float64.valid low = true -> Float64.valid high = true ->
  Float64.is_finite low = true -> Float64.is_finite high = true ->
  Float64.ltb low high = true ->
  Float64.is_finite (Float64.sub high low) = true ->
  Slider._scale w = Float64.div (Float64.sub high low) (Float64.of_Z 1000) ->
  Slider._low w = low ->
  0 <= Qt.value (Slider.slider w) <= 1000 ->
  exists v,
    Slider.val (Env w cs rs) = (Return v, Env w cs rs)
    /\ Float64.leb low v = true.
Proof.
  intros Vl Vh Fl Fh Hlt Fd Hscale Hlow Hs.
  exists (val_of w). split; [reflexivity |].
  unfold val_of. rewrite Hscale, Hlow.
  assert (Fs : Float64.is_finite
                 (Float64.div (Float64.sub high low) (Float64.of_Z 1000))
               = true)
    by (apply div_finite; [apply sub_valid |]; assumption).
  apply leb_trans
    with (val_at 0 (Float64.div (Float64.sub high low) (Float64.of_Z 1000))
                 low).
  - destruct (val_at_0 _ low Fs) as [Hk _].
    assert (Hn : Float64.is_nan low = false)
      by (destruct low; try discriminate; reflexivity).
    destruct (not_nan_key _ Hn) as [a Ha].
    apply key_leb with a; [| rewrite Hk]; exact Ha.
  - apply val_at_monotone; try assumption; lia.
Qed.

Lemma Slider_val_is_never_below_low_witness :
  exists v,
    Slider.val
      (Env (sigma (Float64.of_ratio 3 10) (Float64.of_ratio 9 10) true 1000)
           [] [])
    = (Return v,
       Env (sigma (Float64.of_ratio 3 10) (Float64.of_ratio 9 10) true 1000)
           [] [])
    /\ Float64.leb (Float64.of_ratio 3 10) v = true.
Proof.
  apply (@Slider_val_is_never_below_low
           (Float64.of_ratio 3 10) (Float64.of_ratio 9 10)
           (sigma (Float64.of_ratio 3 10) (Float64.of_ratio 9 10) true 1000)
           [] []);
    try (vm_compute; reflexivity).
  vm_compute. split; discriminate.
Defined.

(** ** Slider: more on committing text *)

Lemma nan_not_within (low v high : float) :
  Float64.is_nan v = true \/ Float64.is_nan low = true
  \/ Float64.is_nan high = true ->
  within low v high = false.
Proof.
  unfold within. intros [H | [H | H]].
  - destruct v; try discriminate.
    destruct low as [[] | [] | | [] ? ?]; reflexivity.
  - destruct low; try discriminate. reflexivity.
  - destruct high; try discriminate.
    replace (Float64.leb v S754_nan) with false
      by (destruct v as [[] | [] | | [] ? ?]; reflexivity).
    apply andb_false_r.
Qed.

(** X12: NaN never passes the range check.  Text that parses to NaN (as
    ["nan"] does) is discarded like text out of range, and so is every
    number when one of the bounds is NaN: the step is kept, nothing is
    invoked or raised, and the text box is put in the error style. *)
Theorem Slider_commit_nan_is_discarded
    (float_of_str : string -> option float) (str_of_float : float -> string)
    (w : Slider.t) (update_on txt : string) (v : float)
    (cs : list call) (rs : list exn) :
  connected w update_on ->
  float_of_str txt = Some v ->
  Float64.is_nan v = true \/ Float64.is_nan (Slider._low w) = true
  \/ Float64.is_nan (Slider._high w) = true ->
  exists w',
    Slider.user_commits float_of_str str_of_float txt (Env w cs rs)
    = (Return tt, Env w' cs rs)
    /\ Slider.slider w' = Slider.slider w
    /\ Qt.styleSheet (Slider.editbox w') = Slider.bad_style
    /\ Qt.text (Slider.editbox w') = txt.
Proof.
  intros Hc Hv Hnan.
  exists (marked Slider.bad_style (typed txt w)).
  split; [| repeat split].
  apply user_commits_rejects with (update_on := update_on); [exact Hc |].
  rewrite Hv. apply nan_not_within. exact Hnan.
Qed.

Lemma Slider_commit_nan_is_discarded_witness :
  exists w',
    Slider.user_commits PyBuiltins.float_of_str PyBuiltins.str_of_float "nan"
      (Env (sigma (Float64.of_Z 0) (Float64.of_Z 10) true 500) [] [])
    = (Return tt, Env w' [] [])
    /\ Slider.slider w'
       = Slider.slider (sigma (Float64.of_Z 0) (Float64.of_Z 10) true 500)
    /\ Qt.styleSheet (Slider.editbox w') = Slider.bad_style
    /\ Qt.text (Slider.editbox w') = "nan".
Proof.
  apply (@Slider_commit_nan_is_discarded
           PyBuiltins.float_of_str PyBuiltins.str_of_float
           (sigma (Float64.of_Z 0) (Float64.of_Z 10) true 500)
           "move" "nan" Float64.nan [] []).
  - constructor; reflexivity.
  - reflexivity.
  - left. reflexivity.
Defined.

Lemma stepped_frame str_of_float update_on k w :
  frame (stepped str_of_float update_on k w) = frame w.
Proof.
  unfold stepped.
  destruct (bounded k (slider w) =? Qt.value (slider w)); [reflexivity |].
  destruct (String.eqb update_on "move"); reflexivity.
Qed.

Lemma frame_connected (w w' : Slider.t) update_on :
  frame w' = frame w -> connected w update_on -> connected w' update_on.
Proof.
  intros Hf [H1 H2 H3].
  destruct (frame_inv Hf) as (_ & _ & _ & _ & _ & _ & E1 & E2 & E3).
  constructor; congruence.
Qed.

(** The widget an accepted commit leaves. *)
Lemma accepted_frame str_of_float update_on k txt w :
  frame (marked good_style (stepped str_of_float update_on k (typed txt w)))
  = frame w.
Proof.
  change (frame (stepped str_of_float update_on k (typed txt w)) = frame w).
  rewrite stepped_frame. reflexivity.
Qed.

Lemma accepted_value str_of_float update_on k txt w :
  Qt.value (slider (marked good_style
                      (stepped str_of_float update_on k (typed txt w))))
  = bounded k (slider w).
Proof.
  change (Qt.value (slider (stepped str_of_float update_on k (typed txt w)))
          = bounded k (slider (typed txt w))).
  apply stepped_value.
Qed.

(** X13: committing the same accepted text a second time changes nothing:
    the step computed is the one the slider is on, so the position control
    signals no change, the callback is not invoked again, and the value is
    the same; the text box keeps the good style. *)
Theorem Slider_commit_again_changes_nothing
    (float_of_str : string -> option float) (str_of_float : float -> string)
    (w : Slider.t) (update_on : string) (cb : callable) (txt : string)
    (v : float) (k : Z) (cs : list call) (rs : list exn) :
  connected w update_on ->
  BaseWidget.callback (Slider.super w) = Some cb ->
  float_of_str txt = Some v ->
  Float64.leb (Slider._low w) v = true ->
  Float64.leb v (Slider._high w) = true ->
  Float64.is_zero (Slider._scale w) = false ->
  Qt.as_int (PyFloat (Float64.div (Float64.sub v (Slider._low w))
                                  (Slider._scale w))) = Return k ->
  exists w1 cs1 w2,
    Slider.user_commits float_of_str str_of_float txt (Env w cs rs)
    = (Return tt, Env w1 cs1 rs)
    /\ Slider.user_commits float_of_str str_of_float txt (Env w1 cs1 rs)
       = (Return tt, Env w2 cs1 rs)
    /\ Slider.slider w2 = Slider.slider w1
    /\ Slider.val_of w2 = Slider.val_of w1
    /\ Qt.styleSheet (Slider.editbox w2) = Slider.good_style.
Proof.
  intros Hc Hcb Hv Hlo Hhi Hz Hk.
  assert (Hin : within (_low w) v (_high w) = true)
    by (unfold within; rewrite Hlo, Hhi; reflexivity).
  set (w1 := marked good_style
               (stepped str_of_float update_on k (typed txt w))).
  pose proof (accepted_frame str_of_float update_on k txt w) as Hf.
  fold w1 in Hf.
  destruct (frame_inv Hf)
    as (Hsuper & Hscale & Hlow & Hhigh & Hmin & Hmax & _).
  pose proof (accepted_value str_of_float update_on k txt w) as Hval.
  fold w1 in Hval.
  assert (Hsame : bounded k (slider w1) = Qt.value (slider w1)).
  { rewrite Hval. unfold bounded. rewrite Hmin, Hmax. reflexivity. }
  exists w1, (cs ++ notified update_on cb k w),
    (marked good_style (typed txt w1)).
  split; [| split; [| repeat split]].
  - apply user_commits_accepts with (v := v); assumption.
  - rewrite (@user_commits_accepts float_of_str str_of_float w1 v k update_on
               cb txt (cs ++ notified update_on cb k w) rs);
      [| exact (frame_connected Hf Hc) | rewrite Hsuper; exact Hcb | exact Hv
       | rewrite Hlow, Hhigh; exact Hin | rewrite Hscale; exact Hz
       | unfold step_of; rewrite Hlow, Hscale; exact Hk].
    unfold stepped, notified.
    change (slider (typed txt w1)) with (slider w1).
    apply Z.eqb_eq in Hsame. rewrite Hsame. cbn [orb].
    rewrite app_nil_r. reflexivity.
Qed.

Lemma Slider_commit_again_changes_nothing_witness :
  exists w1 cs1 w2,
    Slider.user_commits PyBuiltins.float_of_str PyBuiltins.str_of_float "2.5"
      (Env (sigma (Float64.of_Z 0) (Float64.of_Z 10) true 500) [] [])
    = (Return tt, Env w1 cs1 [])
    /\ Slider.user_commits PyBuiltins.float_of_str PyBuiltins.str_of_float
         "2.5" (Env w1 cs1 [])
       = (Return tt, Env w2 cs1 [])
    /\ Slider.slider w2 = Slider.slider w1
    /\ Slider.val_of w2 = Slider.val_of w1
    /\ Qt.styleSheet (Slider.editbox w2) = Slider.good_style.
Proof.
  apply (@Slider_commit_again_changes_nothing
           PyBuiltins.float_of_str PyBuiltins.str_of_float
           (sigma (Float64.of_Z 0) (Float64.of_Z 10) true 500) "move"
           "filter_image" "2.5" (Float64.of_ratio 25 10) 250 [] []).
  - constructor; reflexivity.
  - reflexivity.
  - vm_compute; reflexivity.
  - vm_compute; reflexivity.
  - vm_compute; reflexivity.
  - vm_compute; reflexivity.
  - vm_compute; reflexivity.
Defined.

Lemma eqb_sym (x y : float) : Float64.eqb x y = true -> Float64.eqb y x = true.
Proof.
  intro H. apply eqb_key in H. destruct H as (a & Hx & Hy).
  apply eqb_key. exists a. split; assumption.
Qed.

(** A zero divided by a number that is not a zero is a zero, and the
    position control takes it as step 0. *)
Lemma step_of_zero (z scale : float) :
  Float64.is_zero z = true ->
  Float64.is_zero scale = false -> Float64.is_nan scale = false ->
  Qt.as_int (PyFloat (Float64.div z scale)) = Return 0.
Proof.
  destruct z as [sz | | |]; try discriminate.
  destruct scale as [| ss | | ss ms es]; try discriminate; reflexivity.
Qed.

(** X14: committing the lower bound takes the slider to its first step: for
    a slider with a finite [low <= high], a scale that is a number other
    than zero, and the range [0, 1000] of construction, text that parses to
    [low] is accepted, the step becomes 0 and the error style is cleared;
    and if the scale is finite the value is then [low] again. *)
Theorem Slider_commit_low_goes_to_step_0
    (float_of_str : string -> option float) (str_of_float : float -> string)
    (w : Slider.t) (update_on : string) (cb : callable) (txt : string)
    (v : float) (cs : list call) (rs : list exn) :
  connected w update_on ->
  BaseWidget.callback (Slider.super w) = Some cb ->
  Qt.minimum (Slider.slider w) = 0 ->
  Qt.maximum (Slider.slider w) = 1000 ->
  float_of_str txt = Some v ->
  Float64.eqb v (Slider._low w) = true ->
  Float64.is_finite (Slider._low w) = true ->
  Float64.leb (Slider._low w) (Slider._high w) = true ->
  Float64.is_zero (Slider._scale w) = false ->
  Float64.is_nan (Slider._scale w) = false ->
  exists w' cs',
    Slider.user_commits float_of_str str_of_float txt (Env w cs rs)
    = (Return tt, Env w' cs' rs)
    /\ Qt.value (Slider.slider w') = 0
    /\ Qt.styleSheet (Slider.editbox w') = Slider.good_style
    /\ (Float64.is_finite (Slider._scale w) = true ->
        Float64.eqb (Slider.val_of w') (Slider._low w) = true).
Proof.
  intros Hc Hcb Hmin Hmax Hv Heq Fl Hle Hz Hn.
  pose proof (eqb_sym _ _ Heq) as Heq'.
  assert (Hkeys : exists a, key v = Some a /\ key (_low w) = Some a)
    by (apply eqb_key; exact Heq).
  destruct Hkeys as (a & Ka & Kl).
  assert (Hlo : Float64.leb (_low w) v = true)
    by (apply key_leb with a; assumption).
  assert (Hhi : Float64.leb v (_high w) = true).
  { apply leb_trans with (_low w); [| exact Hle].
    apply key_leb with a; assumption. }
  assert (Hk : step_of w v = Return 0).
  { unfold step_of. apply step_of_zero; try assumption.
    apply sub_equal_is_zero; assumption. }
  set (w' := marked good_style
               (stepped str_of_float update_on 0 (typed txt w))).
  pose proof (accepted_frame str_of_float update_on 0 txt w) as Hf.
  pose proof (accepted_value str_of_float update_on 0 txt w) as Hval.
  fold w' in Hf, Hval.
  assert (H0 : Qt.value (slider w') = 0).
  { rewrite Hval. unfold bounded. rewrite Hmin, Hmax. reflexivity. }
  exists w', (cs ++ notified update_on cb 0 w).
  split; [| split; [exact H0 | split; [reflexivity |]]].
  - apply user_commits_accepts with (v := v); try assumption.
    unfold within. rewrite Hlo, Hhi. reflexivity.
  - intro Fs.
    destruct (frame_inv Hf) as (_ & Hscale & Hlow & _).
    unfold val_of. rewrite H0, Hscale, Hlow.
    destruct (val_at_0 (_scale w) (_low w) Fs) as [Hkey _].
    apply eqb_key. exists a. split; [rewrite Hkey |]; exact Kl.
Qed.

Lemma Slider_commit_low_goes_to_step_0_witness :
  exists w' cs',
    Slider.user_commits PyBuiltins.float_of_str PyBuiltins.str_of_float "0.3"
      (Env (sigma (Float64.of_ratio 3 10) (Float64.of_ratio 9 10) true 500)
           [] [])
    = (Return tt, Env w' cs' [])
    /\ Qt.value (Slider.slider w') = 0
    /\ Qt.styleSheet (Slider.editbox w') = Slider.good_style
    /\ (Float64.is_finite
          (Slider._scale
             (sigma (Float64.of_ratio 3 10) (Float64.of_ratio 9 10) true 500))
        = true ->
        Float64.eqb
          (Slider.val_of w')
          (Slider._low
             (sigma (Float64.of_ratio 3 10) (Float64.of_ratio 9 10) true 500))
        = true).
Proof.
  apply (@Slider_commit_low_goes_to_step_0
           PyBuiltins.float_of_str PyBuiltins.str_of_float
           (sigma (Float64.of_ratio 3 10) (Float64.of_ratio 9 10) true 500)
           "move" "filter_image" "0.3" (Float64.of_ratio 3 10) [] []).
  - constructor; reflexivity.
  - reflexivity.
  - reflexivity.
  - reflexivity.
  - vm_compute; reflexivity.
  - vm_compute; reflexivity.
  - vm_compute; reflexivity.
  - vm_compute; reflexivity.
  - vm_compute; reflexivity.
  - vm_compute; reflexivity.
Defined.

(** The upper bound does not come back the same way: over [[0, 2.1]],
    committing ["2.1"] is accepted, but the quotient falls just short of
    1000 and the slider stops on step 999. *)
Example Slider_commit_high_stops_short :
  PyBuiltins.float_of_str "2.1" = Some (Float64.of_ratio 21 10)
  /\ Qt.value
       (Slider.slider
          (self (snd (commit "2.1"
                        (sigma (Float64.of_Z 0) (Float64.of_ratio 21 10)
                               true 500)))))
     = 999
  /\ Qt.styleSheet
       (Slider.editbox
          (self (snd (commit "2.1"
                        (sigma (Float64.of_Z 0) (Float64.of_ratio 21 10)
                               true 500)))))
     = Slider.good_style.
Proof. repeat split; vm_compute; reflexivity. Qed.

(** ** Slider: a commit that fails *)

Lemma slider_setValue_refused str_of_float (v : pyval) (e : exn)
    (s : env Slider.t) :
  Qt.as_int v = Raise e -> slider_setValue str_of_float v s = (Raise e, s).
Proof. intro H. unfold slider_setValue, bind, lift. rewrite H. reflexivity. Qed.

Section Failure.

Variable float_of_str : string -> option float.
Variable str_of_float : float -> string.

Local Arguments slider_setValue : simpl never.

Lemma on_editbox_changed_refused w v e cs rs :
  float_of_str (Qt.text (editbox w)) = Some v ->
  within (_low w) v (_high w) = true ->
  Float64.is_zero (_scale w) = false ->
  step_of w v = Raise e ->
  _on_editbox_changed float_of_str str_of_float (Env w cs rs)
  = (Raise e, Env w cs rs).
Proof.
  intros Hv Hin Hz He.
  unfold _on_editbox_changed, bind, get; cbn.
  rewrite Hv, Hin; cbn.
  unfold py_truediv. rewrite Hz. unfold ret at 1.
  unfold step_of in He.
  rewrite (@slider_setValue_refused str_of_float _ e (Env w cs rs) He).
  reflexivity.
Qed.

End Failure.

(** X15: when text in range cannot be turned into a step, the commit fails
    without a trace in the widget.  If the scale is zero the division raises
    [ZeroDivisionError]; if the quotient is nothing the position control
    takes (NaN or out of the range of a C [int]) [setValue] raises.  Either
    way the handler stops there: the binding reports the exception, the step
    is kept, nothing is invoked, and the style of the text box is neither
    cleared nor set to the error style: it stays as it was, with the text
    typed in the box. *)
Theorem Slider_commit_failure_is_reported
    (float_of_str : string -> option float) (str_of_float : float -> string)
    (w : Slider.t) (update_on txt : string) (v : float) (e : exn)
    (cs : list call) (rs : list exn) :
  connected w update_on ->
  float_of_str txt = Some v ->
  Float64.leb (Slider._low w) v = true ->
  Float64.leb v (Slider._high w) = true ->
  (Float64.is_zero (Slider._scale w) = true
   /\ e = ZeroDivisionError "float division by zero")
  \/ (Float64.is_zero (Slider._scale w) = false
      /\ Qt.as_int (PyFloat (Float64.div (Float64.sub v (Slider._low w))
                                         (Slider._scale w))) = Raise e) ->
  exists w',
    Slider.user_commits float_of_str str_of_float txt (Env w cs rs)
    = (Return tt, Env w' cs (rs ++ [e]))
    /\ Slider.slider w' = Slider.slider w
    /\ Qt.styleSheet (Slider.editbox w') = Qt.styleSheet (Slider.editbox w)
    /\ Qt.text (Slider.editbox w') = txt.
Proof.
  intros Hc Hv Hlo Hhi Hfail.
  assert (Hin : within (_low w) v (_high w) = true)
    by (unfold within; rewrite Hlo, Hhi; reflexivity).
  exists (typed txt w). split; [| repeat split].
  rewrite (user_commits_runs float_of_str str_of_float txt cs rs Hc).
  unfold bind, swallow.
  destruct Hfail as [[Hz ->] | [Hz He]].
  - rewrite on_editbox_changed_divides_by_zero with (v := v);
      [reflexivity | exact Hv | exact Hin | exact Hz].
  - rewrite on_editbox_changed_refused with (v := v) (e := e);
      [reflexivity | exact Hv | exact Hin | exact Hz | exact He].
Qed.

Lemma Slider_commit_failure_is_reported_witness :
  exists w',
    Slider.user_commits PyBuiltins.float_of_str PyBuiltins.str_of_float "3"
      (Env (sigma (Float64.of_Z 3) (Float64.of_Z 3) true 500) [] [])
    = (Return tt,
       Env w' [] ([] ++ [ZeroDivisionError "float division by zero"]))
    /\ Slider.slider w'
       = Slider.slider (sigma (Float64.of_Z 3) (Float64.of_Z 3) true 500)
    /\ Qt.styleSheet (Slider.editbox w')
       = Qt.styleSheet
           (Slider.editbox (sigma (Float64.of_Z 3) (Float64.of_Z 3) true 500))
    /\ Qt.text (Slider.editbox w') = "3".
Proof.
  apply (@Slider_commit_failure_is_reported
           PyBuiltins.float_of_str PyBuiltins.str_of_float
           (sigma (Float64.of_Z 3) (Float64.of_Z 3) true 500) "move" "3"
           (Float64.of_Z 3) (ZeroDivisionError "float division by zero")
           [] []).
  - constructor; reflexivity.
  - vm_compute; reflexivity.
  - vm_compute; reflexivity.
  - vm_compute; reflexivity.
  - left. split; [vm_compute |]; reflexivity.
Defined.

(** Over the whole line, [low = -inf] and [high = inf], every number is
    in range but no step can be computed: the scale is [inf], the
    quotient NaN, and the commit of ["5"] is reported as a [TypeError]
    with no style set. *)
Example Slider_commit_over_the_whole_line :
  commit "5" (sigma (S754_infinity true) (S754_infinity false) true 500)
  = (Return tt,
     Env (typed "5"
            (sigma (S754_infinity true) (S754_infinity false) true 500))
         [] [TypeError "argument 1 has unexpected type"]).
Proof. vm_compute. reflexivity. Qed.
